(** * Railway-Backend: QR code identity and installation lifecycle

    A shallow embedding of the QR-code payload functions
    ([app/utils/security.py], [app/utils/qr_code.py]) and of the request
    handlers that create QR codes and installations
    ([app/routers/qr_codes.py], [app/routers/installations.py],
    [app/services/qr_service.py]), followed by the properties of the
    specification that these functions decide.

    Python [str] values are sequences of Unicode code points, integers are
    unbounded ([Z]), MongoDB collections are lists of documents in natural
    order, and a handler is a function from the database to the database
    it leaves behind together with its response or the exception raised.

    An [_id] is kept as the string that [str] gives of it. The time
    stamps of the documents are left out; the clock is read where a
    handler computes with it. Numbers of a request body are JSON values,
    which need not be integers. The picture of a code string is what the
    [qrcode] library makes of it, when it makes one. *)

From Stdlib Require Import String Ascii ZArith NArith QArith List Lia Bool.
From Stdlib Require DecimalFacts DecimalN.
Import ListNotations.

Set Implicit Arguments.

(** ** Python strings and integers *)

Module Py.

(** A [str] is a list of code points. *)
Definition pystr := list N.

(** ASCII literals of the source, as code points. *)
Definition str_of (s : string) : pystr :=
  map N_of_ascii (list_ascii_of_string s).

Fixpoint eqb (s t : pystr) : bool :=
  match s, t with
  | [], [] => true
  | c :: s', d :: t' => (c =? d)%N && eqb s' t'
  | _, _ => false
  end.

(** [s.startswith(p)] *)
Fixpoint startswith (s p : pystr) {struct p} : bool :=
  match p, s with
  | [], _ => true
  | c :: p', d :: s' => (c =? d)%N && startswith s' p'
  | _ :: _, [] => false
  end.

(** [s.split(sep)] for a one-character separator: one more part than
    there are separators, empty parts kept. *)
Fixpoint split (sep : N) (s : pystr) : list pystr :=
  match s with
  | [] => [[]]
  | c :: s' =>
      if (c =? sep)%N then [] :: split sep s'
      else match split sep s' with
           | p :: ps => (c :: p) :: ps
           | [] => [[c]]
           end
  end.

(** [sep.join(parts)] *)
Fixpoint join (sep : N) (parts : list pystr) : pystr :=
  match parts with
  | [] => []
  | [p] => p
  | p :: ps => p ++ sep :: join sep ps
  end.

(** Code points of general category Nd come in runs of ten, in the
    order of their values 0..9; the table lists the first code point
    of every run (Unicode 14.0). *)
Definition decimal_zeros : list N :=
  [48; 1632; 1776; 1984; 2406; 2534; 2662; 2790; 2918; 3046; 3174; 3302;
   3430; 3558; 3664; 3792; 3872; 4160; 4240; 6112; 6160; 6470; 6608; 6784;
   6800; 6992; 7088; 7232; 7248; 42528; 43216; 43264; 43472; 43504; 43600;
   44016; 65296; 66720; 68912; 69734; 69872; 69942; 70096; 70384; 70736;
   70864; 71248; 71360; 71472; 71904; 72016; 72784; 73040; 73120; 92768;
   92864; 93008; 120782; 120792; 120802; 120812; 120822; 123200; 123632;
   125264; 130032]%N.

(** Code points whose Numeric_Type is Digit but not Decimal (superscripts,
    circled digits and the like), as inclusive ranges. *)
Definition digit_only_ranges : list (N * N) :=
  [(178, 179); (185, 185); (4969, 4977); (6618, 6618); (8304, 8304);
   (8308, 8313); (8320, 8329); (9312, 9320); (9332, 9340); (9352, 9360);
   (9450, 9450); (9461, 9469); (9471, 9471); (10102, 10110);
   (10112, 10120); (10122, 10130); (68160, 68163); (69216, 69224);
   (69714, 69722); (127232, 127242)]%N.

(** The decimal value of a code point, when it is a decimal digit. *)
Fixpoint decimal_in (zeros : list N) (c : N) : option N :=
  match zeros with
  | [] => None
  | z :: zs =>
      if ((z <=? c) && (c <? z + 10))%N then Some (c - z)%N
      else decimal_in zs c
  end.

Definition decimal_value (c : N) : option N := decimal_in decimal_zeros c.

Definition isdecimal_char (c : N) : bool :=
  match decimal_value c with Some _ => true | None => false end.

Definition isdigit_char (c : N) : bool :=
  isdecimal_char c
  || existsb (fun r => ((fst r <=? c) && (c <=? snd r))%N) digit_only_ranges.

(** [s.isdigit()]: every character is a digit and there is at least one. *)
Definition isdigit (s : pystr) : bool :=
  match s with
  | [] => false
  | _ => forallb isdigit_char s
  end.

(** The characters [0] to [9]. *)
Definition ascii_digit (c : N) : Prop := (48 <= c <= 57)%N.

(** Decimal numerals, most significant digit first. *)
Fixpoint chars_of_uint (d : Decimal.uint) : pystr :=
  match d with
  | Decimal.Nil => []
  | Decimal.D0 d' => 48%N :: chars_of_uint d'
  | Decimal.D1 d' => 49%N :: chars_of_uint d'
  | Decimal.D2 d' => 50%N :: chars_of_uint d'
  | Decimal.D3 d' => 51%N :: chars_of_uint d'
  | Decimal.D4 d' => 52%N :: chars_of_uint d'
  | Decimal.D5 d' => 53%N :: chars_of_uint d'
  | Decimal.D6 d' => 54%N :: chars_of_uint d'
  | Decimal.D7 d' => 55%N :: chars_of_uint d'
  | Decimal.D8 d' => 56%N :: chars_of_uint d'
  | Decimal.D9 d' => 57%N :: chars_of_uint d'
  end.

Definition uint_cons (v : N) (d : Decimal.uint) : Decimal.uint :=
  match v with
  | 0 => Decimal.D0 d
  | 1 => Decimal.D1 d
  | 2 => Decimal.D2 d
  | 3 => Decimal.D3 d
  | 4 => Decimal.D4 d
  | 5 => Decimal.D5 d
  | 6 => Decimal.D6 d
  | 7 => Decimal.D7 d
  | 8 => Decimal.D8 d
  | _ => Decimal.D9 d
  end%N.

(** The numeral spelled by a string of decimal digits of any script;
    [None] as soon as a character has no decimal value. *)
Fixpoint uint_of_chars (s : pystr) : option Decimal.uint :=
  match s with
  | [] => Some Decimal.Nil
  | c :: s' =>
      match decimal_value c, uint_of_chars s' with
      | Some v, Some d => Some (uint_cons v d)
      | _, _ => None
      end
  end.

(** [int(s)] for a string [s] on which [s.isdigit()] holds: such a string
    has no sign, blank or underscore, so the literal is accepted exactly
    when every character is a decimal digit; otherwise [int] raises
    [ValueError], here [None]. *)
Definition int_of_digits (s : pystr) : option Z :=
  match uint_of_chars s with
  | Some d => Some (Z.of_N (N.of_uint d))
  | None => None
  end.

(** [str(n)] for a natural number. *)
Definition digits (n : N) : pystr := chars_of_uint (N.to_uint n).

(** [str(n)] *)
Definition str_int (n : Z) : pystr :=
  if (n <? 0)%Z then 45%N :: digits (Z.abs_N n) else digits (Z.abs_N n).

Definition zfill (w : nat) (s : pystr) : pystr :=
  repeat 48%N (w - length s) ++ s.

(** [f"{n:06d}"]: zero padding to width 6 between the sign and the digits. *)
Definition format_06d (n : Z) : pystr :=
  if (n <? 0)%Z then 45%N :: zfill 5 (digits (Z.abs_N n))
  else zfill 6 (digits (Z.abs_N n)).

(** [s.encode()]: UTF-8, strict; a lone surrogate raises
    [UnicodeEncodeError], here [None]. *)
Definition utf8_char (c : N) : option (list N) :=
  (if c <? 128 then Some [c]
   else if c <? 2048 then Some [192 + c / 64; 128 + c mod 64]
   else if (55296 <=? c) && (c <=? 57343) then None
   else if c <? 65536 then
     Some [224 + c / 4096; 128 + (c / 64) mod 64; 128 + c mod 64]
   else
     Some [240 + c / 262144; 128 + (c / 4096) mod 64;
           128 + (c / 64) mod 64; 128 + c mod 64])%N.

Fixpoint encode (s : pystr) : option (list N) :=
  match s with
  | [] => Some []
  | c :: s' =>
      match utf8_char c, encode s' with
      | Some b, Some bs => Some (b ++ bs)
      | _, _ => None
      end
  end.

(** A code point that [encode] accepts. *)
Definition encodable (c : N) : Prop := ~ (55296 <= c <= 57343)%N.

End Py.

(** ** hashlib.md5 *)

Module MD5.

Local Open Scope Z_scope.

Definition mask32 (x : Z) : Z := x mod 4294967296.

Definition rotl (x c : Z) : Z :=
  mask32 (Z.lor (Z.shiftl x c) (Z.shiftr x (32 - c))).

Definition shifts : list Z :=
  [7; 12; 17; 22; 7; 12; 17; 22; 7; 12; 17; 22; 7; 12; 17; 22;
   5; 9; 14; 20; 5; 9; 14; 20; 5; 9; 14; 20; 5; 9; 14; 20;
   4; 11; 16; 23; 4; 11; 16; 23; 4; 11; 16; 23; 4; 11; 16; 23;
   6; 10; 15; 21; 6; 10; 15; 21; 6; 10; 15; 21; 6; 10; 15; 21].

(** [floor(2^32 * abs(sin(i + 1)))] for [i] from 0 to 63. *)
Definition sines : list Z :=
  [3614090360; 3905402710; 606105819; 3250441966;
   4118548399; 1200080426; 2821735955; 4249261313;
   1770035416; 2336552879; 4294925233; 2304563134;
   1804603682; 4254626195; 2792965006; 1236535329;
   4129170786; 3225465664; 643717713; 3921069994;
   3593408605; 38016083; 3634488961; 3889429448;
   568446438; 3275163606; 4107603335; 1163531501;
   2850285829; 4243563512; 1735328473; 2368359562;
   4294588738; 2272392833; 1839030562; 4259657740;
   2763975236; 1272893353; 4139469664; 3200236656;
   681279174; 3936430074; 3572445317; 76029189;
   3654602809; 3873151461; 530742520; 3299628645;
   4096336452; 1126891415; 2878612391; 4237533241;
   1700485571; 2399980690; 4293915773; 2240044497;
   1873313359; 4264355552; 2734768916; 1309151649;
   4149444226; 3174756917; 718787259; 3951481745].

Definition le_bytes (n : nat) (w : Z) : list Z :=
  map (fun k => (w / 2 ^ (8 * Z.of_nat k)) mod 256) (seq 0 n).

Fixpoint of_le_bytes (bs : list Z) : Z :=
  match bs with
  | [] => 0
  | b :: bs' => b + 256 * of_le_bytes bs'
  end.

(** The message followed by the bit 1, zeros up to 56 modulo 64 bytes, and
    the bit length as a 64-bit little-endian integer. *)
Definition pad (msg : list Z) : list Z :=
  let len := Z.of_nat (length msg) in
  msg ++ [128] ++ repeat 0 (Z.to_nat ((55 - len) mod 64))
      ++ le_bytes 8 ((8 * len) mod 2 ^ 64).

Fixpoint chunks (n : nat) (size : nat) (l : list Z) : list (list Z) :=
  match n with
  | O => []
  | S n' => firstn size l :: chunks n' size (skipn size l)
  end.

Definition words (block : list Z) : list Z :=
  map of_le_bytes (chunks 16 4 block).

Record state := State { sa : Z; sb : Z; sc : Z; sd : Z }.

Definition init : state :=
  State 1732584193 4023233417 2562383102 271733878.

Definition step (m : list Z) (st : state) (i : nat) : state :=
  let '(State a b c d) := st in
  let iz := Z.of_nat i in
  let '(f, g) :=
    if iz <? 16 then
      (Z.lor (Z.land b c) (Z.land (mask32 (Z.lnot b)) d), iz)
    else if iz <? 32 then
      (Z.lor (Z.land d b) (Z.land (mask32 (Z.lnot d)) c), (5 * iz + 1) mod 16)
    else if iz <? 48 then
      (Z.lxor b (Z.lxor c d), (3 * iz + 5) mod 16)
    else
      (Z.lxor c (Z.lor b (mask32 (Z.lnot d))), (7 * iz) mod 16) in
  let f' := mask32 (f + a + nth i sines 0 + nth (Z.to_nat g) m 0) in
  State d (mask32 (b + rotl f' (nth i shifts 0))) b c.

Definition process (st : state) (block : list Z) : state :=
  let '(State a b c d) := fold_left (step (words block)) (seq 0 64) st in
  State (mask32 (sa st + a)) (mask32 (sb st + b))
        (mask32 (sc st + c)) (mask32 (sd st + d)).

(** The 16 bytes of the digest. *)
Definition digest (msg : list N) : list Z :=
  let p := pad (map Z.of_N msg) in
  let '(State a b c d) :=
    fold_left process (chunks (length p / 64) 64 p) init in
  le_bytes 4 a ++ le_bytes 4 b ++ le_bytes 4 c ++ le_bytes 4 d.

Definition hexchar (d : Z) : N :=
  Z.to_N (if d <? 10 then 48 + d else 87 + d).

Definition hex_of_byte (b : Z) : Py.pystr := [hexchar (b / 16); hexchar (b mod 16)].

(** [hashlib.md5(msg).hexdigest()] *)
Definition hexdigest (msg : list N) : Py.pystr :=
  flat_map hex_of_byte (digest msg).

End MD5.

(** ** Exceptions and handlers *)

Import Py.

Inductive exn :=
| HTTPException (status_code : Z) (detail : pystr)
| ValueError (msg : pystr)
| InvalidLiteral (literal : pystr)   (* the [ValueError] of [int] *)
| UnpackError                        (* the [ValueError] of a tuple unpacking *)
| TypeError
| UnicodeEncodeError
| DuplicateKeyError
| AttributeError
| DataOverflowError                  (* of the [qrcode] library *)
| OperationFailure.                  (* of the database driver *)

Inductive result (A : Type) :=
| Ok (a : A)
| Raise (e : exn).

Arguments Ok {A} a.
Arguments Raise {A} e.

Definition is_ok {A} (r : result A) : bool :=
  match r with Ok _ => true | Raise _ => false end.

(** Truthiness of an optional string: [None] and [""] are false. *)
Definition truthy (v : option pystr) : option pystr :=
  match v with
  | Some (c :: s) => Some (c :: s)
  | _ => None
  end.

Fixpoint mem (x : pystr) (l : list pystr) : bool :=
  match l with
  | [] => false
  | y :: l' => Py.eqb x y || mem x l'
  end.

(** ** Numbers of a request body *)

(** The request body is parsed by [json.loads]; where a handler expects
    a number it may find an [int] ([True] and [False] are the ints 1 and
    0), a [float], which may also be an infinity or NaN, or something
    else: [None], a string, a list or a dict. *)
Module json.

Inductive float :=
| Finite (q : Q)
| Infinity (negative : bool)
| NaN.

Inductive value :=
| Int (z : Z)
| Float (f : float)
| Other.

(** [v <= n] and [v > n] for an [int] literal [n]. *)
Definition le_int (v : value) (n : Z) : result bool :=
  match v with
  | Int z => Ok (z <=? n)%Z
  | Float (Finite q) => Ok (Qle_bool q (inject_Z n))
  | Float (Infinity negative) => Ok negative
  | Float NaN => Ok false
  | Other => Raise TypeError
  end.

Definition gt_int (v : value) (n : Z) : result bool :=
  match v with
  | Int z => Ok (z >? n)%Z
  | Float (Finite q) => Ok (negb (Qle_bool q (inject_Z n)))
  | Float (Infinity negative) => Ok (negb negative)
  | Float NaN => Ok false
  | Other => Raise TypeError
  end.

Definition lt_int (v : value) (n : Z) : result bool :=
  match v with
  | Int z => Ok (z <? n)%Z
  | Float (Finite q) => Ok (negb (Qle_bool (inject_Z n) q))
  | Float (Infinity negative) => Ok negative
  | Float NaN => Ok false
  | Other => Raise TypeError
  end.

(** The integer that [range(v)] counts to: only an [int] has one. *)
Definition index (v : value) : result Z :=
  match v with
  | Int z => Ok z
  | _ => Raise TypeError
  end.

End json.

(** ** app/utils/security.py *)

Module security.

Definition role_hierarchy : list (pystr * list pystr) :=
  [ (str_of "super_admin", [str_of "all"]);
    (str_of "admin",
      map str_of
        ["users"; "zones"; "divisions"; "stations"; "vendors"; "manufacturers";
         "fitting_categories"; "fitting_types"; "supply_orders";
         "fitting_batches"; "qr_codes"; "installations"; "inspections";
         "maintenance_records"; "reports"; "analytics"; "integrations";
         "notifications"; "search"; "export"]%string);
    (str_of "manager",
      map str_of
        ["zones"; "divisions"; "stations"; "fitting_categories";
         "fitting_types"; "supply_orders"; "fitting_batches"; "qr_codes";
         "installations"; "inspections"; "maintenance_records"; "reports";
         "analytics"; "notifications"]%string);
    (str_of "inspector",
      map str_of
        ["inspections"; "maintenance_records"; "qr_codes";
         "notifications"]%string);
    (str_of "operator",
      map str_of ["qr_codes"; "installations"; "notifications"]%string) ].

Fixpoint get (k : pystr) (d : list (pystr * list pystr)) : list pystr :=
  match d with
  | [] => []
  | (k', v) :: d' => if Py.eqb k k' then v else get k d'
  end.

Definition check_permissions (user_role required_permission : pystr) : bool :=
  let user_permissions := get user_role role_hierarchy in
  if mem (str_of "all") user_permissions then true
  else mem required_permission user_permissions.

(** The first eight characters of the MD5 hex digest of the encoded
    [data_string]. *)
Definition hash_hex (bytes : list N) : pystr :=
  firstn 8 (MD5.hexdigest bytes).

(** [generate_qr_code_data]; [timestamp] is the value of
    [int(time.time())] at the call. *)
Definition generate_qr_code_data
    (timestamp : Z) (fitting_batch_id : pystr) (sequence_number : Z)
  : result pystr :=
  let data_string :=
    fitting_batch_id ++ str_of "_" ++ str_int sequence_number
      ++ str_of "_" ++ str_int timestamp in
  match encode data_string with
  | None => Raise UnicodeEncodeError
  | Some bytes =>
      Ok (str_of "QRTF_" ++ fitting_batch_id ++ str_of "_"
            ++ format_06d sequence_number ++ str_of "_" ++ hash_hex bytes)
  end.

Definition validate_gps_coordinates (lat lng : option Q) : result bool :=
  match lat with
  | None => Raise TypeError
  | Some la =>
      if Qle_bool (-90) la && Qle_bool la 90 then
        match lng with
        | None => Raise TypeError
        | Some ln => Ok (Qle_bool (-180) ln && Qle_bool ln 180)
        end
      else Ok false
  end.

End security.

(** ** app/utils/qr_code.py *)

Module qr_code.

(** The dict returned by [extract_qr_code_info]: either the four fields
    with [is_valid = True], or [is_valid = False] with the exception whose
    message is the [error] field. *)
Inductive qr_info :=
| Valid (prefix batch_id : pystr) (sequence_number : Z) (hash : pystr)
| Invalid (error : exn).

Definition is_valid (i : qr_info) : bool :=
  match i with Valid _ _ _ _ => true | Invalid _ => false end.

Definition underscore : N := 95.

Definition validate_qr_code_data (data : pystr) : bool :=
  if negb (startswith data (str_of "QRTF_")) then false
  else
    let parts := split underscore data in
    if negb (length parts =? 4)%nat then false
    else
      match parts with
      | [prefix; batch_id; sequence; hash_value] =>
          if negb (isdigit sequence) || negb (length sequence =? 6)%nat
          then false
          else if negb (length hash_value =? 8)%nat then false
          else true
      | _ => false
      end.

Definition extract_qr_code_info (data : pystr) : qr_info :=
  if negb (validate_qr_code_data data) then
    Invalid (ValueError (str_of "Invalid QR code data format"))
  else
    match split underscore data with
    | [prefix; batch_id; sequence; hash_value] =>
        match int_of_digits sequence with
        | Some n => Valid prefix batch_id n hash_value
        | None => Invalid (InvalidLiteral sequence)
        end
    | _ => Invalid UnpackError
    end.

(** The payload format in the words of the specification: the prefix,
    exactly four underscore-delimited parts, a sequence of exactly six
    decimal digits and a fingerprint of exactly eight characters. *)
Definition well_formed_code (data : pystr) : bool :=
  startswith data (str_of "QRTF_")
  && match split underscore data with
     | [prefix; batch_id; sequence; fingerprint] =>
         (length sequence =? 6)%nat
         && forallb isdecimal_char sequence
         && (length fingerprint =? 8)%nat
     | _ => false
     end.

(** A scanned string whose sequence field is six times SUPERSCRIPT TWO. *)
Definition superscript_code : pystr :=
  str_of "QRTF_B1_" ++ repeat 178%N 6 ++ str_of "_abcdefgh".

End qr_code.

(** ** The MongoDB collections *)

(** Documents carry the fields the handlers read or write; the
    [datetime.utcnow()] stamps and the rendered PNG are left out. *)

Module Batch.
Record doc := Doc {
  _id : pystr;
  qrCodesGenerated : option Z;
  qrCodeCount : option Z
}.
End Batch.

Module QRCode.
Record doc := Doc {
  _id : pystr;
  qrCode : pystr;
  fittingBatchId : pystr;
  sequenceNumber : Z;
  status : pystr;
  markingMachineId : option pystr;
  markingOperatorId : option pystr;
  createdBy : option pystr;
  installedBy : option pystr;
  qrCodeImage : option pystr;
  qrImageBase64 : option pystr
}.

Definition set_installed (by_user : pystr) (d : doc) : doc :=
  Doc (_id d) (qrCode d) (fittingBatchId d) (sequenceNumber d)
      (str_of "installed") (markingMachineId d) (markingOperatorId d)
      (createdBy d) (Some by_user) (qrCodeImage d) (qrImageBase64 d).

Definition set_status (s : pystr) (d : doc) : doc :=
  Doc (_id d) (qrCode d) (fittingBatchId d) (sequenceNumber d)
      s (markingMachineId d) (markingOperatorId d)
      (createdBy d) (installedBy d) (qrCodeImage d) (qrImageBase64 d).
End QRCode.

Module Installation.
Record coordinates := Coordinates { lat : option Q; lng : option Q }.

Record doc := Doc {
  _id : pystr;
  qrCodeId : pystr;
  zoneId : pystr;
  divisionId : option pystr;
  stationId : option pystr;
  trackSection : pystr;
  kilometerPost : option pystr;
  installationCoordinates : option coordinates;
  installedBy : pystr;
  status : pystr;
  remarks : option pystr;
  updatedBy : option pystr;
  replacedBy : option pystr;
  retiredBy : option pystr
}.
End Installation.

Record database := Database {
  fitting_batches : list Batch.doc;
  qr_codes : list QRCode.doc;
  fitting_installations : list Installation.doc
}.

Module collection.

Section Collection.
Variable doc : Type.

(** [find_one(query)]: the first document, in natural order, that
    matches. *)
Definition find_one (query : doc -> bool) (c : list doc) : option doc :=
  find query c.

(** [update_one(query, {"$set": ...})]: the first match is rewritten. *)
Fixpoint update_one (query : doc -> bool) (set : doc -> doc)
    (c : list doc) : list doc :=
  match c with
  | [] => []
  | d :: c' =>
      if query d then set d :: c' else d :: update_one query set c'
  end.

(** [insert_one(d)] on a collection whose unique indexes are on the
    fields [unique]: a document that agrees with a stored one on an
    indexed field is refused with [DuplicateKeyError]. *)
Definition clashes (unique : list (doc -> pystr)) (d d' : doc) : bool :=
  existsb (fun key => Py.eqb (key d) (key d')) unique.

Definition insert_one (unique : list (doc -> pystr)) (d : doc)
    (c : list doc) : result (list doc) :=
  if existsb (clashes unique d) c then Raise DuplicateKeyError
  else Ok (c ++ [d]).

End Collection.

End collection.

(** The unique indexes of [create_indexes], with the primary key. *)
Definition qr_codes_unique : list (QRCode.doc -> pystr) :=
  [QRCode._id; QRCode.qrCode].

Definition fitting_installations_unique
  : list (Installation.doc -> pystr) :=
  [Installation._id; Installation.qrCodeId].

(** ** Handlers: the database threaded through, exceptions propagated *)

Definition M (A : Type) : Type := database -> database * result A.

Definition ret {A} (a : A) : M A := fun d => (d, Ok a).

Definition raise {A} (e : exn) : M A := fun d => (d, Raise e).

Definition bind {A B} (m : M A) (k : A -> M B) : M B :=
  fun d =>
    match m d with
    | (d', Ok a) => k a d'
    | (d', Raise e) => (d', Raise e)
    end.

Notation "x <- m ;; k" := (bind m (fun x => k))
  (at level 61, m at next level, right associativity).
Notation "m ;;; k" := (bind m (fun _ => k))
  (at level 61, right associativity).

Definition get_db : M database := fun d => (d, Ok d).

Definition lift {A} (r : result A) : M A := fun d => (d, r).

(** [if c: raise e] *)
Definition raise_if (c : bool) (e : exn) : M unit :=
  if c then raise e else ret tt.

(** [except HTTPException: raise / except Exception: raise
    HTTPException(500, detail)] around a handler body. *)
Definition as_http (detail : pystr) (e : exn) : exn :=
  match e with
  | HTTPException c msg => HTTPException c msg
  | _ => HTTPException 500 detail
  end.

Definition guarded {A} (detail : pystr) (body : M A) : M A :=
  fun d =>
    match body d with
    | (d', Raise e) => (d', Raise (as_http detail e))
    | r => r
    end.

(** [for i in range(n)], collecting what the body appends. *)
Fixpoint for_range {A} (body : nat -> M A) (start n : nat) : M (list A) :=
  match n with
  | O => ret []
  | S n' =>
      x <- body start ;;
      xs <- for_range body (S start) n' ;;
      ret (x :: xs)
  end.

Record user := User { role : pystr; userId : pystr }.

(** What the handler receives from outside at iteration [i] of its loop:
    the clock reading of [time.time()] and the [ObjectId] the driver
    gives the inserted document; and the picture the [qrcode] library
    makes of a string, as base64 of its PNG, [None] where the library
    raises (the data does not fit a QR code). *)
Record env := Env {
  clock : nat -> Z;
  object_id : nat -> pystr;
  image : pystr -> option pystr
}.

(** [QRCode(...)], [add_data], [make(fit=True)], [make_image], [save]
    and [b64encode]: the picture of [qr_data]. *)
Definition render (E : env) (qr_data : pystr) : result pystr :=
  match image E qr_data with
  | Some img_str => Ok img_str
  | None => Raise DataOverflowError
  end.

Definition by_id_batch (i : pystr) (b : Batch.doc) : bool :=
  Py.eqb (Batch._id b) i.

Definition by_id_qr (i : pystr) (q : QRCode.doc) : bool :=
  Py.eqb (QRCode._id q) i.

Definition by_id_installation (i : pystr) (x : Installation.doc) : bool :=
  Py.eqb (Installation._id x) i.

Definition by_qrCodeId (i : pystr) (x : Installation.doc) : bool :=
  Py.eqb (Installation.qrCodeId x) i.

Definition insert_qr_code (q : QRCode.doc) : M unit :=
  fun d =>
    match collection.insert_one qr_codes_unique q (qr_codes d) with
    | Ok c => (Database (fitting_batches d) c (fitting_installations d), Ok tt)
    | Raise e => (d, Raise e)
    end.

Definition insert_installation (x : Installation.doc) : M unit :=
  fun d =>
    match
      collection.insert_one fitting_installations_unique x
        (fitting_installations d)
    with
    | Ok c => (Database (fitting_batches d) (qr_codes d) c, Ok tt)
    | Raise e => (d, Raise e)
    end.

Definition with_batches (f : list Batch.doc -> list Batch.doc)
    (d : database) : database :=
  Database (f (fitting_batches d)) (qr_codes d) (fitting_installations d).

Definition update_batch (i : pystr) (set : Batch.doc -> Batch.doc) : M unit :=
  fun d =>
    (with_batches (collection.update_one (by_id_batch i) set) d, Ok tt).

(** The [$set] of the router and of the service on the batch. *)
Definition set_generated (q : Z) (b : Batch.doc) : Batch.doc :=
  Batch.Doc (Batch._id b) (Some q) (Batch.qrCodeCount b).

Definition set_count (q : Z) (b : Batch.doc) : Batch.doc :=
  Batch.Doc (Batch._id b) (Batch.qrCodesGenerated b) (Some q).

Definition update_qr_code (i : pystr) (set : QRCode.doc -> QRCode.doc)
  : M unit :=
  fun d =>
    (Database (fitting_batches d)
              (collection.update_one (by_id_qr i) set (qr_codes d))
              (fitting_installations d), Ok tt).

Definition update_installation (i : pystr)
    (set : Installation.doc -> Installation.doc) : M unit :=
  fun d =>
    (Database (fitting_batches d) (qr_codes d)
              (collection.update_one (by_id_installation i) set
                 (fitting_installations d)), Ok tt).

(** The body of the generation loops, in one piece: make the code
    string and its picture ([code]), insert the document built from
    them, append it to the result. *)
Definition insert_generated {C : Type} (code : nat -> result C)
    (doc : nat -> C -> QRCode.doc) (i : nat) : M QRCode.doc :=
  made <- lift (code i) ;;
  insert_qr_code (doc i made) ;;;
  ret (doc i made).

(** The code string of iteration [i], sequence number [i + 1] at the
    clock reading of that iteration, and its picture. *)
Definition code_at (E : env) (fitting_batch_id : pystr) (i : nat)
  : result (pystr * pystr) :=
  match
    security.generate_qr_code_data (clock E i) fitting_batch_id
      (Z.of_nat i + 1)
  with
  | Raise e => Raise e
  | Ok qr_data =>
      match render E qr_data with
      | Raise e => Raise e
      | Ok img_str => Ok (qr_data, img_str)
      end
  end.

(** The numbers 1 to [q]. *)
Definition one_to (q : Z) : list Z := map Z.of_nat (seq 1 (Z.to_nat q)).

(** No two stored QR codes have the same code string. *)
Definition unique_codes (d : database) : Prop :=
  NoDup (map QRCode.qrCode (qr_codes d)).

(** The sequence numbers stored for a batch, in insertion order. *)
Definition batch_sequence (b : pystr) (d : database) : list Z :=
  map QRCode.sequenceNumber
    (filter (fun q => Py.eqb (QRCode.fittingBatchId q) b) (qr_codes d)).

(** ** app/routers/qr_codes.py *)

Module qr_codes.

Record batch_data := BatchData {
  fittingBatchId : option pystr;
  quantity : option json.value;
  markingMachineId : option pystr;
  markingOperatorId : option pystr
}.

Definition quantity_error : exn :=
  HTTPException 400 (str_of "Quantity must be between 1 and 10000").

Definition failed_to_generate : exn :=
  HTTPException 500 (str_of "Failed to generate QR codes").

(** [batch_data.get("quantity", 1)] *)
Definition requested (batch_data : batch_data) : json.value :=
  match quantity batch_data with Some q => q | None => json.Int 1 end.

(** The number of codes asked for: the quantity when it is an [int],
    none otherwise. *)
Definition count (batch_data : batch_data) : Z :=
  match requested batch_data with
  | json.Int q => q
  | _ => 0%Z
  end.

(** [quantity <= 0 or quantity > 10000] *)
Definition out_of_range (quantity : json.value) : result bool :=
  match json.le_int quantity 0 with
  | Raise e => Raise e
  | Ok true => Ok true
  | Ok false => json.gt_int quantity 10000
  end.

(** The document inserted at iteration [i], from the code string and its
    picture; the driver adds the [_id], and the handler's [id] is its
    string. *)
Definition qr_doc (E : env) (current_user : user) (batch_data : batch_data)
    (fitting_batch_id : pystr) (i : nat) (made : pystr * pystr)
  : QRCode.doc :=
  QRCode.Doc (object_id E i) (fst made) fitting_batch_id
    (Z.of_nat i + 1) (str_of "generated")
    (markingMachineId batch_data)
    (markingOperatorId batch_data)
    (Some (userId current_user)) None
    (Some (snd made)) None.

Definition generate_batch_qr_codes
    (E : env) (current_user : user) (batch_data : batch_data)
  : M (list QRCode.doc) :=
  guarded (str_of "Failed to generate QR codes")
    (raise_if
       (negb (security.check_permissions (role current_user)
                (str_of "qr_codes")))
       (HTTPException 403 (str_of "Insufficient permissions")) ;;;
     let quantity := requested batch_data in
     match truthy (fittingBatchId batch_data) with
     | None =>
         raise (HTTPException 400 (str_of "Fitting batch ID is required"))
     | Some fitting_batch_id =>
         too_few_or_many <- lift (out_of_range quantity) ;;
         raise_if too_few_or_many quantity_error ;;;
         d <- get_db ;;
         match
           collection.find_one (by_id_batch fitting_batch_id)
             (fitting_batches d)
         with
         | None =>
             raise (HTTPException 404 (str_of "Fitting batch not found"))
         | Some batch =>
             (* [range(quantity)] takes an [int] only *)
             count <- lift (json.index quantity) ;;
             generated_qr_codes <-
               for_range
                 (fun i =>
                    qr_data <-
                      lift (security.generate_qr_code_data (clock E i)
                              fitting_batch_id (Z.of_nat i + 1)) ;;
                    img_str <- lift (render E qr_data) ;;
                    let qr_doc :=
                      qr_doc E current_user batch_data fitting_batch_id i
                        (qr_data, img_str) in
                    insert_qr_code qr_doc ;;;
                    ret qr_doc)
                 0 (Z.to_nat count) ;;
             update_batch fitting_batch_id (set_generated count) ;;;
             ret generated_qr_codes
         end
     end).

End qr_codes.

(** ** app/services/qr_service.py *)

Module qr_service.

(** The document inserted at iteration [i], from the code string and its
    picture. *)
Definition qr_code_doc (E : env) (fitting_batch_id : pystr)
    (marking_machine_id marking_operator_id : option pystr)
    (i : nat) (made : pystr * pystr) : QRCode.doc :=
  QRCode.Doc (object_id E i) (fst made) fitting_batch_id
    (Z.of_nat i + 1) (str_of "generated")
    marking_machine_id marking_operator_id None None
    None (Some (snd made)).

(** [QRCodeService.generate_qr_codes_for_batch]; whatever is raised is
    logged and raised again. *)
Definition generate_qr_codes_for_batch
    (E : env) (fitting_batch_id : pystr) (quantity : Z)
    (marking_machine_id marking_operator_id : option pystr)
  : M (list QRCode.doc) :=
  d <- get_db ;;
  match
    collection.find_one (by_id_batch fitting_batch_id) (fitting_batches d)
  with
  | None => raise (ValueError (str_of "Fitting batch not found"))
  | Some batch =>
      qr_codes <-
        for_range
          (fun i =>
             let sequence_number := (Z.of_nat i + 1)%Z in
             qr_data <-
               lift (security.generate_qr_code_data (clock E i)
                       fitting_batch_id sequence_number) ;;
             qr_image_base64 <- lift (render E qr_data) ;;
             let qr_code_doc :=
               qr_code_doc E fitting_batch_id marking_machine_id
                 marking_operator_id i (qr_data, qr_image_base64) in
             insert_qr_code qr_code_doc ;;;
             ret qr_code_doc)
          0 (Z.to_nat quantity) ;;
      update_batch fitting_batch_id (set_count quantity) ;;;
      ret qr_codes
  end.

End qr_service.

(** ** Dates *)

(** The date of a [datetime]; the time of day plays no part below. *)
Module datetime.

Record t := Datetime { year : Z; month : Z; day : Z }.

Definition is_leap (y : Z) : bool :=
  (y mod 4 =? 0)%Z && (negb (y mod 100 =? 0)%Z || (y mod 400 =? 0)%Z).

Definition days_in_month (y m : Z) : Z :=
  if (m =? 2)%Z then (if is_leap y then 29 else 28)%Z
  else if ((m =? 4) || (m =? 6) || (m =? 9) || (m =? 11))%Z then 30%Z
  else 31%Z.

(** [d.replace(year=y)]: the fields are checked as for a new date. *)
Definition replace_year (d : t) (y : Z) : result t :=
  if negb ((1 <=? y) && (y <=? 9999))%Z then
    Raise (ValueError (str_of "year " ++ str_int y
                         ++ str_of " is out of range"))
  else if negb ((1 <=? month d) && (month d <=? 12))%Z then
    Raise (ValueError (str_of "month must be in 1..12"))
  else if negb ((1 <=? day d) && (day d <=? days_in_month y (month d)))%Z
  then Raise (ValueError (str_of "day is out of range for month"))
  else Ok (Datetime y (month d) (day d)).

(** What [datetime.utcnow()] returns: a date that exists. *)
Definition is_date (d : t) : Prop :=
  (1 <= year d <= 9999)%Z /\ (1 <= month d <= 12)%Z
  /\ (1 <= day d <= days_in_month (year d) (month d))%Z.

End datetime.

(** ** app/routers/installations.py *)

Module installations.

Record installation_data := InstallationData {
  qrCodeId : option pystr;
  zoneId : option pystr;
  divisionId : option pystr;
  stationId : option pystr;
  trackSection : option pystr;
  kilometerPost : option pystr;
  installationCoordinates : option Installation.coordinates;
  remarks : option pystr
}.

Record status_data := StatusData {
  status : option pystr;
  status_remarks : option pystr
}.

Definition already_installed : exn :=
  HTTPException 400 (str_of "QR code is already installed").

Definition failed_to_create : exn :=
  HTTPException 500 (str_of "Failed to create installation").

(** The coordinates are validated when the request has some. *)
Definition coordinates_ok (installation_data : installation_data)
  : result bool :=
  match installationCoordinates installation_data with
  | None => Ok true
  | Some c =>
      security.validate_gps_coordinates (Installation.lat c)
        (Installation.lng c)
  end.

(** The document that [create_installation] inserts. *)
Definition installation_doc (oid : pystr) (current_user : user)
    (installation_data : installation_data)
    (qr_code_id zone_id track_section : pystr) : Installation.doc :=
  Installation.Doc oid qr_code_id zone_id
    (divisionId installation_data)
    (stationId installation_data)
    track_section
    (kilometerPost installation_data)
    (installationCoordinates installation_data)
    (userId current_user)
    (str_of "installed")
    (remarks installation_data)
    None None None.

(** [warrantyEndDate]: [utcnow().replace(year=utcnow().year + 2)], the
    third and the fourth reading of the clock in the request. *)
Definition warranty_end_date (utcnow : nat -> datetime.t)
  : result datetime.t :=
  datetime.replace_year (utcnow 2%nat) (datetime.year (utcnow 3%nat) + 2).

(** [create_installation]; [oid] is the [ObjectId] given to the inserted
    document and [utcnow k] the reading of call number [k] of
    [datetime.utcnow()], counted from 0. The dates are not kept in the
    documents; the one that can fail to exist is computed where the
    source computes it. *)
Definition create_installation
    (oid : pystr) (utcnow : nat -> datetime.t) (current_user : user)
    (installation_data : installation_data)
  : M Installation.doc :=
  guarded (str_of "Failed to create installation")
    (raise_if
       (negb (security.check_permissions (role current_user)
                (str_of "installations")))
       (HTTPException 403 (str_of "Insufficient permissions")) ;;;
     match truthy (qrCodeId installation_data) with
     | None => raise (HTTPException 400 (str_of "QR code ID is required"))
     | Some qr_code_id =>
     match truthy (zoneId installation_data) with
     | None => raise (HTTPException 400 (str_of "Zone ID is required"))
     | Some zone_id =>
     match truthy (trackSection installation_data) with
     | None => raise (HTTPException 400 (str_of "Track section is required"))
     | Some track_section =>
         ok <- lift (coordinates_ok installation_data) ;;
         raise_if (negb ok)
           (HTTPException 400 (str_of "Invalid GPS coordinates")) ;;;
         d <- get_db ;;
         match collection.find_one (by_id_qr qr_code_id) (qr_codes d) with
         | None => raise (HTTPException 404 (str_of "QR code not found"))
         | Some qr_code =>
             match
               collection.find_one (by_qrCodeId qr_code_id)
                 (fitting_installations d)
             with
             | Some existing_installation => raise already_installed
             | None =>
                 lift (warranty_end_date utcnow) ;;;
                 insert_installation
                   (installation_doc oid current_user installation_data
                      qr_code_id zone_id track_section) ;;;
                 update_qr_code qr_code_id
                   (QRCode.set_installed (userId current_user)) ;;;
                 d' <- get_db ;;
                 match
                   collection.find_one (by_id_installation oid)
                     (fitting_installations d')
                 with
                 | Some created_installation => ret created_installation
                 | None => raise AttributeError
                 end
             end
         end
     end end end).

Definition valid_statuses : list pystr :=
  map str_of
    ["installed"; "in_service"; "maintenance_due"; "replaced";
     "retired"]%string.

Definition invalid_status : exn :=
  HTTPException 400
    (str_of "Invalid status. Valid options: ['installed', 'in_service', 'maintenance_due', 'replaced', 'retired']").

(** The [$set] of [update_installation_status] on the installation. *)
Definition update_data (new_status : pystr) (remarks : option pystr)
    (by_user : pystr) (x : Installation.doc) : Installation.doc :=
  Installation.Doc
    (Installation._id x) (Installation.qrCodeId x) (Installation.zoneId x)
    (Installation.divisionId x) (Installation.stationId x)
    (Installation.trackSection x) (Installation.kilometerPost x)
    (Installation.installationCoordinates x) (Installation.installedBy x)
    new_status
    (match truthy remarks with
     | Some r => Some r
     | None => Installation.remarks x
     end)
    (Some by_user)
    (if Py.eqb new_status (str_of "replaced") then Some by_user
     else Installation.replacedBy x)
    (if Py.eqb new_status (str_of "replaced") then Installation.retiredBy x
     else if Py.eqb new_status (str_of "retired") then Some by_user
     else Installation.retiredBy x).

Definition update_installation_status
    (installation_id : pystr) (current_user : user) (status_data : status_data)
  : M Installation.doc :=
  guarded (str_of "Failed to update installation status")
    (raise_if
       (negb (security.check_permissions (role current_user)
                (str_of "installations")))
       (HTTPException 403 (str_of "Insufficient permissions")) ;;;
     match truthy (status status_data) with
     | None => raise (HTTPException 400 (str_of "Status is required"))
     | Some new_status =>
         raise_if (negb (mem new_status valid_statuses)) invalid_status ;;;
         d <- get_db ;;
         match
           collection.find_one (by_id_installation installation_id)
             (fitting_installations d)
         with
         | None =>
             raise (HTTPException 404 (str_of "Installation not found"))
         | Some installation =>
             update_installation installation_id
               (update_data new_status (status_remarks status_data)
                  (userId current_user)) ;;;
             update_qr_code (Installation.qrCodeId installation)
               (QRCode.set_status new_status) ;;;
             d' <- get_db ;;
             match
               collection.find_one (by_id_installation installation_id)
                 (fitting_installations d')
             with
             | Some updated_installation => ret updated_installation
             | None => raise AttributeError
             end
         end
     end).

(** The database an accepted update leaves behind. *)
Definition updated (installation_id new_status : pystr)
    (current_user : user) (status_data : status_data)
    (installation : Installation.doc) (d : database) : database :=
  Database (fitting_batches d)
    (collection.update_one (by_id_qr (Installation.qrCodeId installation))
       (QRCode.set_status new_status) (qr_codes d))
    (collection.update_one (by_id_installation installation_id)
       (update_data new_status (status_remarks status_data)
          (userId current_user))
       (fitting_installations d)).

End installations.

(** ** Runs of the system *)

(** One request that may write to the database, and the database it
    leaves behind, whether it succeeds or raises. *)
Inductive step : database -> database -> Prop :=
| step_generate_batch E u r d :
    step d (fst (qr_codes.generate_batch_qr_codes E u r d))
| step_generate_for_batch E b q m o d :
    step d (fst (qr_service.generate_qr_codes_for_batch E b q m o d))
| step_create_installation oid now u r d :
    step d (fst (installations.create_installation oid now u r d))
| step_update_status i u r d :
    step d (fst (installations.update_installation_status i u r d)).

Inductive run : database -> database -> Prop :=
| run_done d : run d d
| run_step d d1 d2 : step d d1 -> run d1 d2 -> run d d2.

(** ** Sample data *)

Module sample.

Definition admin : user := User (str_of "admin") (str_of "u1").

Definition qr (i code status : string) : QRCode.doc :=
  QRCode.Doc (str_of i) (str_of code) (str_of "B1") 1 (str_of status)
    None None None None None None.

Definition installation (i q status : string) : Installation.doc :=
  Installation.Doc (str_of i) (str_of q) (str_of "z1") None None
    (str_of "Section A-1") None None (str_of "u1") (str_of status)
    None None None None.

(** A retired installation and its retired QR code. *)
Definition retired_db : database :=
  Database [Batch.Doc (str_of "B1") None None]
    [qr "q1" "QRTF_B1_000001_4c554774" "retired"]
    [installation "i1" "q1" "retired"].

(** A batch with one generated, unverified QR code and no installation. *)
Definition generated_db : database :=
  Database [Batch.Doc (str_of "B1") None None]
    [qr "q1" "QRTF_B1_000001_4c554774" "generated"]
    [].

(** A batch without QR codes. *)
Definition batch_db : database :=
  Database [Batch.Doc (str_of "B1") None None] [] [].

Definition install_q1 : installations.installation_data :=
  installations.InstallationData (Some (str_of "q1")) (Some (str_of "z1"))
    None None (Some (str_of "Section A-1")) (Some (str_of "KM 10.5"))
    (Some (Installation.Coordinates (Some (13.0827)%Q) (Some (80.2707)%Q)))
    None.

(** A clock that stands on 15 March 2024, and one on 29 February. *)
Definition march_15 : nat -> datetime.t :=
  fun _ => datetime.Datetime 2024 3 15.

Definition february_29 : nat -> datetime.t :=
  fun _ => datetime.Datetime 2024 2 29.

Definition set_status (s : string) : installations.status_data :=
  installations.StatusData (Some (str_of s)) None.

Definition generate_value (q : json.value) : qr_codes.batch_data :=
  qr_codes.BatchData (Some (str_of "B1")) (Some q)
    (Some (str_of "LASER-001")) (Some (str_of "operator123")).

Definition generate (q : Z) : qr_codes.batch_data :=
  generate_value (json.Int q).

(** A clock that stands at [t], object identifiers [p0], [p1], ... and
    a picture for every string of at most 1000 characters. *)
Definition at_time (t : Z) (p : string) : env :=
  Env (fun _ => t) (fun i => str_of p ++ digits (N.of_nat i))
    (fun s =>
       if (length s <=? 1000)%nat then Some (str_of "PNG:" ++ s) else None).

End sample.

(** * Further functions of the cited modules *)

(** ** app/utils/qr_code.py: generate_batch_qr_codes *)

Module qr_code_batch.

(** The two types that meet in [hash(str(sequence_number))[:8]]. *)
Inductive value :=
| Int (z : Z)
| Str (s : pystr).

(** [v[:n]]: an [int] is not subscriptable. *)
Definition slice_to (n : nat) (v : value) : result pystr :=
  match v with
  | Str s => Ok (firstn n s)
  | Int _ => Raise TypeError
  end.

Record qr_code_info := Info {
  qr_data : pystr;
  sequence_number : Z;
  batch_id : pystr
}.

(** The loop [for i in range(quantity)], from iteration [i] on, with [n]
    iterations left; [hash] is the built-in of the running process. *)
Fixpoint codes (hash : pystr -> Z) (batch : pystr) (start_sequence : Z)
    (i n : nat) : result (list qr_code_info) :=
  match n with
  | O => Ok []
  | S n' =>
      let number := (start_sequence + Z.of_nat i)%Z in
      match slice_to 8 (Int (hash (str_int number))) with
      | Raise e => Raise e
      | Ok fingerprint =>
          let data :=
            str_of "QRTF_" ++ batch ++ str_of "_" ++ format_06d number
              ++ str_of "_" ++ fingerprint in
          match codes hash batch start_sequence (S i) n' with
          | Ok rest => Ok (Info data number batch :: rest)
          | Raise e => Raise e
          end
      end
  end.

Definition generate_batch_qr_codes (hash : pystr -> Z) (batch : pystr)
    (quantity start_sequence : Z) : result (list qr_code_info) :=
  match codes hash batch start_sequence 0 (Z.to_nat quantity) with
  | Ok qr_codes => Ok qr_codes
  | Raise _ => Raise (ValueError (str_of "Failed to generate batch QR codes"))
  end.

End qr_code_batch.

(** ** Permissions that the routers ask for and no role lists *)

Definition unlisted_permissions : list pystr :=
  map str_of
    ["admin"; "ai_analysis"; "batch_operations"; "config"; "mobile"]%string.

Definition known_roles : list pystr :=
  map str_of
    ["super_admin"; "admin"; "manager"; "inspector"; "operator"]%string.

(** ** More sample data *)

Module sample2.

(** A batch whose record number 2 of the second 1700000000 is stored
    already, and nothing else. *)
Definition second_stored_db : database :=
  Database [Batch.Doc (str_of "B1") None None]
    [QRCode.Doc (str_of "q2") (str_of "QRTF_B1_000002_a1ad79da")
       (str_of "B1") 2 (str_of "generated") None None None None None None]
    [].

End sample2.

(** ** The binding of installations to QR codes *)

(** No two installations reference the same QR code, and the QR code
    that an installation references is stored and has the status of the
    installation. *)
Definition bound (d : database) : Prop :=
  NoDup (map Installation.qrCodeId (fitting_installations d))
  /\ forall x,
       In x (fitting_installations d) ->
       exists q,
         collection.find_one (by_id_qr (Installation.qrCodeId x))
           (qr_codes d) = Some q
         /\ QRCode.status q = Installation.status x.

(** ** What identifies a stored document *)

Definition qr_identity (q : QRCode.doc) : pystr * pystr * pystr * Z :=
  (QRCode._id q, QRCode.qrCode q, QRCode.fittingBatchId q,
   QRCode.sequenceNumber q).

Definition installation_identity (x : Installation.doc)
  : pystr * pystr * pystr * pystr * pystr :=
  (Installation._id x, Installation.qrCodeId x, Installation.zoneId x,
   Installation.trackSection x, Installation.installedBy x).

(** [d'] holds the documents of [d], with their identifying fields and
    in their order, followed by new ones; the batches are the same. *)
Definition extends (d d' : database) : Prop :=
  map Batch._id (fitting_batches d') = map Batch._id (fitting_batches d)
  /\ (exists added,
        map qr_identity (qr_codes d')
        = map qr_identity (qr_codes d) ++ added)
  /\ (exists added,
        map installation_identity (fitting_installations d')
        = map installation_identity (fitting_installations d) ++ added).

(** ** app/routers/qr_codes.py: verify_qr_code *)

Module verification.

(** The fields that verification adds to a QR-code document, beside
    [status]. They are kept next to the collection, under the [_id] of
    the document they belong to; the first entry for an [_id] is the
    current one. *)
Record fields := Fields {
  verificationStatus : pystr;
  verifiedBy : pystr;
  printQualityScore : option json.value;
  verificationRemarks : option pystr
}.

Record store := Store {
  db : database;
  verified : list (pystr * fields)
}.

Fixpoint lookup (i : pystr) (l : list (pystr * fields)) : option fields :=
  match l with
  | [] => None
  | (k, f) :: l' => if Py.eqb k i then Some f else lookup i l'
  end.

Module request.
(** [verificationStatus] is [None] when the body has no string there;
    [printQualityScore] is [None] when the body has none or [null]. *)
Record verification_data := Data {
  verificationStatus : option pystr;
  printQualityScore : option json.value;
  remarks : option pystr
}.
End request.

Definition verification_statuses : list pystr :=
  map str_of ["verified"; "rejected"; "needs_reprint"]%string.

Definition invalid_status : exn :=
  HTTPException 400 (str_of "Invalid verification status").

Definition invalid_score : exn :=
  HTTPException 400 (str_of "Print quality score must be between 0 and 1").

Definition failed_to_verify : exn :=
  HTTPException 500 (str_of "Failed to verify QR code").

(** [score is not None and (score < 0 or score > 1)] *)
Definition score_out_of_range (score : option json.value) : result bool :=
  match score with
  | Some v =>
      match json.lt_int v 0 with
      | Raise e => Raise e
      | Ok true => Ok true
      | Ok false => json.gt_int v 1
      end
  | None => Ok false
  end.

(** The [$set] on the verification fields: the score and the remarks are
    written only when the request has them. *)
Definition update_data (verification_status : pystr) (current_user : user)
    (data : request.verification_data) (old : option fields) : fields :=
  Fields verification_status (userId current_user)
    (match request.printQualityScore data with
     | Some q => Some q
     | None =>
         match old with Some f => printQualityScore f | None => None end
     end)
    (match truthy (request.remarks data) with
     | Some r => Some r
     | None =>
         match old with Some f => verificationRemarks f | None => None end
     end).

(** [verify_qr_code]: the checks, the [update_one], then the [find_one]
    whose result is returned; on a missing document the [update_one]
    matches nothing and reading the result of [find_one] raises, which
    the handler turns into the error 500. *)
Definition verify_qr_code (qr_id : pystr) (current_user : user)
    (verification_data : request.verification_data) (s : store)
  : store * result (QRCode.doc * fields) :=
  if negb (security.check_permissions (role current_user)
             (str_of "qr_codes"))
  then (s, Raise (HTTPException 403 (str_of "Insufficient permissions")))
  else
    match request.verificationStatus verification_data with
    | None => (s, Raise invalid_status)
    | Some verification_status =>
        if negb (mem verification_status verification_statuses)
        then (s, Raise invalid_status)
        else
        match
          score_out_of_range (request.printQualityScore verification_data)
        with
        | Raise e => (s, Raise (as_http (str_of "Failed to verify QR code") e))
        | Ok true => (s, Raise invalid_score)
        | Ok false =>
          let written :=
            update_data verification_status current_user verification_data
              (lookup qr_id (verified s)) in
          let s1 :=
            Store
              (Database (fitting_batches (db s))
                 (collection.update_one (by_id_qr qr_id)
                    (QRCode.set_status verification_status)
                    (qr_codes (db s)))
                 (fitting_installations (db s)))
              (match
                 collection.find_one (by_id_qr qr_id) (qr_codes (db s))
               with
               | Some _ => (qr_id, written) :: verified s
               | None => verified s
               end) in
          match
            collection.find_one (by_id_qr qr_id) (qr_codes (db s1))
          with
          | Some updated_qr_code => (s1, Ok (updated_qr_code, written))
          | None =>
              (s1, Raise (as_http (str_of "Failed to verify QR code")
                            AttributeError))
          end
        end
    end.

End verification.

(** ** app/utils/security.py: the format validators *)

(** The part of Python's [re] the validators use: a pattern
    [^ item ... item $] of quantified character sets, matched by
    [re.match] on a [str] without flags. *)
Module re.

Inductive atom :=
| Range (lo hi : N)      (* [lo-hi] inside a set *)
| Lit (c : N)            (* one character *)
| Digit.                 (* [\d]: a Unicode decimal digit *)

Definition atom_matches (a : atom) (c : N) : bool :=
  match a with
  | Range lo hi => ((lo <=? c) && (c <=? hi))%N
  | Lit x => (c =? x)%N
  | Digit => isdecimal_char c
  end.

(** A set [[...]], or a single atom. *)
Definition in_set (set : list atom) (c : N) : bool :=
  existsb (fun a => atom_matches a c) set.

(** [set{at_least,at_most}]; [at_most = None] for [+] and [{n,}]. *)
Record item := Item {
  chars : list atom;
  at_least : nat;
  at_most : option nat
}.

Definition exactly (n : nat) (set : list atom) : item :=
  Item set n (Some n).

Definition or_more (n : nat) (set : list atom) : item :=
  Item set n None.

(** [$] without [re.MULTILINE]: at the end of the string, or before a
    newline that ends the string. *)
Definition dollar (s : pystr) : bool :=
  match s with
  | [] => true
  | [c] => (c =? 10)%N
  | _ => false
  end.

(** The repetition of a set, longest first, backtracking into the
    continuation [k] that matches the rest of the pattern. *)
Fixpoint repetition (k : pystr -> bool) (set : list atom) (lo : nat)
    (hi : option nat) (s : pystr) {struct s} : bool :=
  match s with
  | [] => match lo with O => k [] | S _ => false end
  | c :: s' =>
      let more :=
        in_set set c
        && match hi with
           | Some O => false
           | _ => repetition k set (pred lo) (option_map pred hi) s'
           end in
      match lo with
      | O => more || k s
      | S _ => more
      end
  end.

Fixpoint match_items (p : list item) : pystr -> bool :=
  match p with
  | [] => dollar
  | i :: p' => repetition (match_items p') (chars i) (at_least i) (at_most i)
  end.

(** [re.match('^' + p + '$', s) is not None] *)
Definition matches (p : list item) (s : pystr) : bool := match_items p s.

(** What a match is: the string cut into one piece for each item, each
    piece in the item's set and of an allowed length, and then the end
    of the string. *)
Definition piece (i : item) (pre : pystr) : Prop :=
  Forall (fun c => in_set (chars i) c = true) pre
  /\ (at_least i <= length pre)%nat
  /\ forall h, at_most i = Some h -> (length pre <= h)%nat.

Definition at_end (s : pystr) : Prop := s = [] \/ s = [10%N].

Fixpoint cut (p : list item) (s : pystr) : Prop :=
  match p with
  | [] => at_end s
  | i :: p' => exists pre post, s = pre ++ post /\ piece i pre /\ cut p' post
  end.

End re.

Module validators.

Definition code (c : ascii) : N := N_of_ascii c.

Definition lower : re.atom := re.Range (code "a") (code "z").
Definition upper : re.atom := re.Range (code "A") (code "Z").
Definition digit09 : re.atom := re.Range (code "0") (code "9").

(** [[a-zA-Z0-9._%+-]] *)
Definition local_set : list re.atom :=
  [lower; upper; digit09; re.Lit (code "."); re.Lit (code "_");
   re.Lit (code "%"); re.Lit (code "+"); re.Lit (code "-")].

(** [[a-zA-Z0-9.-]] *)
Definition domain_set : list re.atom :=
  [lower; upper; digit09; re.Lit (code "."); re.Lit (code "-")].

(** [^[a-zA-Z0-9._%+-]+@[a-zA-Z0-9.-]+\.[a-zA-Z]{2,}$] *)
Definition email_pattern : list re.item :=
  [re.or_more 1 local_set;
   re.exactly 1 [re.Lit (code "@")];
   re.or_more 1 domain_set;
   re.exactly 1 [re.Lit (code ".")];
   re.or_more 2 [lower; upper]].

Definition validate_email (email : pystr) : bool :=
  re.matches email_pattern email.

(** [^[6-9]\d{9}$] *)
Definition phone_pattern : list re.item :=
  [re.exactly 1 [re.Range (code "6") (code "9")];
   re.exactly 9 [re.Digit]].

Definition validate_phone_number (phone : pystr) : bool :=
  re.matches phone_pattern phone.

(** [^\d{2}[A-Z]{2}\d{4}[A-Z]{1}\d{1}[A-Z]{1}\d{1}$] *)
Definition gst_pattern : list re.item :=
  [re.exactly 2 [re.Digit];
   re.exactly 2 [upper];
   re.exactly 4 [re.Digit];
   re.exactly 1 [upper];
   re.exactly 1 [re.Digit];
   re.exactly 1 [upper];
   re.exactly 1 [re.Digit]].

Definition validate_gst_number (gst : pystr) : bool :=
  re.matches gst_pattern gst.

Definition decimal (c : N) : Prop := isdecimal_char c = true.
Definition capital (c : N) : Prop := (code "A" <= c <= code "Z")%N.
Definition letter (c : N) : Prop :=
  (code "a" <= c <= code "z")%N \/ (code "A" <= c <= code "Z")%N.
Definition local_char (c : N) : Prop :=
  letter c \/ (code "0" <= c <= code "9")%N
  \/ In c (map code ["."; "_"; "%"; "+"; "-"]%char).
Definition domain_char (c : N) : Prop :=
  letter c \/ (code "0" <= c <= code "9")%N
  \/ In c (map code ["."; "-"]%char).

End validators.

(** ** app/routers/installations.py: get_installations *)

Module installation_list.

Section GetInstallations.

(** What the database decides: the matcher of a [$regex] with option
    [i], [None] for a pattern it cannot compile (the query then
    fails), and the order of [.sort("installationDate", -1)] (the date
    itself is not part of the documents above). *)
Variable regex : pystr -> option (pystr -> bool).
Variable sorted : list Installation.doc -> list Installation.doc.

Record filters := Filters {
  zoneId : option pystr;
  divisionId : option pystr;
  stationId : option pystr;
  status : option pystr;
  trackSection : option pystr
}.

(** A query entry [{field: value}] on a field that may be absent. *)
Definition field_is (field : option pystr) (v : pystr) : bool :=
  match field with
  | Some x => Py.eqb x v
  | None => false
  end.

(** The entries of the query other than [trackSection]: the filters
    that are given and not empty. *)
Definition plain_query (f : filters) (x : Installation.doc) : bool :=
  match truthy (zoneId f) with
  | Some v => Py.eqb (Installation.zoneId x) v
  | None => true
  end
  && match truthy (divisionId f) with
     | Some v => field_is (Installation.divisionId x) v
     | None => true
     end
  && match truthy (stationId f) with
     | Some v => field_is (Installation.stationId x) v
     | None => true
     end
  && match truthy (status f) with
     | Some v => Py.eqb (Installation.status x) v
     | None => true
     end.

(** The query as the database runs it; [None] when it refuses the
    pattern given for [trackSection]. *)
Definition query (f : filters) : option (Installation.doc -> bool) :=
  match truthy (trackSection f) with
  | None => Some (plain_query f)
  | Some pattern =>
      match regex pattern with
      | None => None
      | Some found =>
          Some (fun x => plain_query f x
                         && found (Installation.trackSection x))
      end
  end.

Record pagination := Pagination {
  page : Z;
  limit : Z;
  total : Z;
  pages : Z;
  hasNext : bool;
  hasPrev : bool
}.

(** [status.HTTP_403_FORBIDDEN] and [status.HTTP_500_INTERNAL_SERVER_ERROR]
    inside [get_installations]: there [status] is the query parameter,
    [None] or a [str], not the module [fastapi.status], and has no such
    attribute. *)
Definition status_attribute (status : option pystr) : result Z :=
  Raise AttributeError.

(** [raise HTTPException(status_code=status.<name>, detail=...)] *)
Definition raise_http {A : Type} (status : option pystr) (detail : pystr)
  : result A :=
  match status_attribute status with
  | Ok status_code => Raise (HTTPException status_code detail)
  | Raise e => Raise e
  end.

(** [except HTTPException: raise / except Exception: raise
    HTTPException(status.HTTP_500_INTERNAL_SERVER_ERROR, ...)] *)
Definition handled {A : Type} (status : option pystr) (body : result A)
  : result A :=
  match body with
  | Ok a => Ok a
  | Raise (HTTPException c m) => Raise (HTTPException c m)
  | Raise _ => raise_http status (str_of "Failed to retrieve installations")
  end.

(** [get_installations]; the handler reads the installations and writes
    nothing. *)
Definition get_installations (page limit : Z) (f : filters)
    (current_user : user) (d : database)
  : result (list Installation.doc * pagination) :=
  handled (status f)
    (if negb (security.check_permissions (role current_user)
                (str_of "installations"))
     then raise_http (status f) (str_of "Insufficient permissions")
     else
       let skip := ((page - 1) * limit)%Z in
       match query f with
       | None => Raise OperationFailure
       | Some matches =>
           let found := filter matches (fitting_installations d) in
           let total := Z.of_nat (length found) in
           let installations :=
             firstn (Z.to_nat limit)
               (skipn (Z.to_nat skip) (sorted found)) in
           let pages := ((total + limit - 1) / limit)%Z in
           Ok (installations,
               Pagination page limit total pages (page <? pages)%Z
                 (1 <? page)%Z)
       end).

End GetInstallations.

End installation_list.

(** The picture of a QR-code document, under whichever key it is
    stored. *)
Definition picture (q : QRCode.doc) : option pystr :=
  match QRCode.qrCodeImage q with
  | Some img_str => Some img_str
  | None => QRCode.qrImageBase64 q
  end.

(** A QR-code document without the record of who created it and with
    its picture under the key [qrCodeImage]: the router's documents and
    the service's differ in the creator and in the key of the picture. *)
Definition forget_creator (q : QRCode.doc) : QRCode.doc :=
  QRCode.Doc (QRCode._id q) (QRCode.qrCode q) (QRCode.fittingBatchId q)
    (QRCode.sequenceNumber q) (QRCode.status q) (QRCode.markingMachineId q)
    (QRCode.markingOperatorId q) None (QRCode.installedBy q)
    (picture q) None.

(** The answers of the router and of the service to the same request. *)
Definition same_answer (u : user)
    (router service : result (list QRCode.doc)) : Prop :=
  match router, service with
  | Ok docs, Ok docs' =>
      map forget_creator docs = map forget_creator docs'
      /\ Forall (fun q => QRCode.createdBy q = Some (userId u)
                          /\ QRCode.qrCodeImage q = picture q
                          /\ QRCode.qrImageBase64 q = None) docs
      /\ Forall (fun q => QRCode.createdBy q = None
                          /\ QRCode.qrCodeImage q = None
                          /\ QRCode.qrImageBase64 q = picture q) docs'
  | Raise e, Raise e' =>
      e = as_http (str_of "Failed to generate QR codes") e'
      \/ (e = HTTPException 404 (str_of "Fitting batch not found")
          /\ e' = ValueError (str_of "Fitting batch not found"))
  | _, _ => False
  end.

(** ** app/routers/qr_codes.py: get_qr_code *)

Module qr_lookup.

(** The response, without its [fittingType] and [lastInspection] entries,
    which are read from collections outside this development. *)
Record qr_code_response := Response {
  qrCode : QRCode.doc;
  batch : option Batch.doc;
  installation : option Installation.doc
}.

Definition by_qrCode (qr_code : pystr) (q : QRCode.doc) : bool :=
  Py.eqb (QRCode.qrCode q) qr_code.

(** [str(qr_code_doc["_id"])]: the string form, which is how an [_id] is
    kept here. *)
Definition str_id (_id : pystr) : pystr := _id.

Definition get_qr_code (qr_code : pystr) (current_user : user)
    (d : database) : result qr_code_response :=
  if negb (security.check_permissions (role current_user)
             (str_of "qr_codes"))
  then Raise (HTTPException 403 (str_of "Insufficient permissions"))
  else
    match collection.find_one (by_qrCode qr_code) (qr_codes d) with
    | None => Raise (HTTPException 404 (str_of "QR code not found"))
    | Some qr_code_doc =>
        let batch_data :=
          match truthy (Some (QRCode.fittingBatchId qr_code_doc)) with
          | Some b =>
              collection.find_one (by_id_batch b) (fitting_batches d)
          | None => None
          end in
        let installation_data :=
          collection.find_one (by_qrCodeId (str_id (QRCode._id qr_code_doc)))
            (fitting_installations d) in
        Ok (Response qr_code_doc batch_data installation_data)
    end.

End qr_lookup.

(** * Properties *)

(** ** MD5 test vectors *)

Example md5_empty :
  MD5.hexdigest [] = Py.str_of "d41d8cd98f00b204e9800998ecf8427e".
Proof. vm_compute. reflexivity. Qed.

Example md5_abc :
  option_map MD5.hexdigest (Py.encode (Py.str_of "abc"))
  = Some (Py.str_of "900150983cd24fb0d6963f7d28e17f72").
Proof. vm_compute. reflexivity. Qed.

(** ** Strings *)

Section StringFacts.

Lemma eqb_refl (s : pystr) : Py.eqb s s = true.
Proof.
  induction s as [|c s IH]; simpl; [reflexivity|].
  now rewrite N.eqb_refl.
Qed.

Lemma eqb_eq (s t : pystr) : Py.eqb s t = true <-> s = t.
Proof.
  split; [|intros ->; apply eqb_refl].
  revert t; induction s as [|c s IH]; intros [|d t]; simpl;
    try discriminate; [reflexivity|].
  intros H. apply andb_true_iff in H as [Hc Hs].
  apply N.eqb_eq in Hc. now rewrite Hc, (IH t Hs).
Qed.

Lemma eqb_neq (s t : pystr) : Py.eqb s t = false <-> s <> t.
Proof.
  split.
  - intros H E. apply eqb_eq in E. congruence.
  - intros H. destruct (Py.eqb s t) eqn:E; [|reflexivity].
    apply eqb_eq in E. contradiction.
Qed.

Lemma startswith_app (p r : pystr) : startswith (p ++ r) p = true.
Proof.
  induction p as [|c p IH]; simpl; [reflexivity|].
  now rewrite N.eqb_refl.
Qed.

Lemma startswith_inv (s p : pystr) :
  startswith s p = true -> exists r, s = p ++ r.
Proof.
  revert s; induction p as [|c p IH]; intros s H.
  - now exists s.
  - destruct s as [|d s]; simpl in H; [discriminate|].
    apply andb_true_iff in H as [Hc Hs].
    apply N.eqb_eq in Hc. destruct (IH s Hs) as [r ->].
    exists r. now rewrite Hc.
Qed.

Lemma split_not_nil (sep : N) (s : pystr) : split sep s <> [].
Proof.
  destruct s as [|c s]; simpl; [discriminate|].
  destruct (c =? sep)%N; [discriminate|].
  destruct (split sep s); discriminate.
Qed.

(** A string without the separator is a single part. *)
Lemma split_whole (sep : N) (s : pystr) : ~ In sep s -> split sep s = [s].
Proof.
  induction s as [|c s IH]; intros H; simpl; [reflexivity|].
  destruct (c =? sep)%N eqn:E.
  - apply N.eqb_eq in E. exfalso. apply H. now left.
  - rewrite IH; [reflexivity|]. intros Hin. apply H. now right.
Qed.

(** The first part ends at the first separator. *)
Lemma split_app (sep : N) (a r : pystr) :
  ~ In sep a -> split sep (a ++ sep :: r) = a :: split sep r.
Proof.
  induction a as [|c a IH]; intros H; simpl.
  - now rewrite N.eqb_refl.
  - destruct (c =? sep)%N eqn:E.
    + apply N.eqb_eq in E. exfalso. apply H. now left.
    + rewrite IH; [reflexivity|]. intros Hin. apply H. now right.
Qed.

Lemma join_split (sep : N) (s : pystr) : join sep (split sep s) = s.
Proof.
  induction s as [|c s IH]; simpl; [reflexivity|].
  destruct (c =? sep)%N eqn:E.
  - apply N.eqb_eq in E. subst c.
    pose proof (split_not_nil sep s) as Hne.
    destruct (split sep s) as [|p ps]; [contradiction|].
    simpl in *. now rewrite IH.
  - pose proof (split_not_nil sep s) as Hne.
    destruct (split sep s) as [|p ps]; [contradiction|].
    destruct ps as [|q ps]; simpl in *; now rewrite <- IH.
Qed.

Lemma split_parts_clean (sep : N) (s : pystr) :
  forall p, In p (split sep s) -> ~ In sep p.
Proof.
  induction s as [|c s IH]; simpl.
  - intros p [<-|[]] [].
  - destruct (c =? sep)%N eqn:E.
    + intros p [<-|Hp]; [intros []|now apply IH].
    + pose proof (split_not_nil sep s) as Hne.
      destruct (split sep s) as [|q qs]; [contradiction|].
      intros p [<-|Hp].
      * intros [Hc|Hq].
        -- apply N.eqb_neq in E. congruence.
        -- apply (IH q); [now left|assumption].
      * apply IH. now right.
Qed.

(** The text after the last separator determines the cut. *)
Lemma last_sep_unique (u : N) (x x' y y' : pystr) :
  ~ In u y -> ~ In u y' -> x ++ u :: y = x' ++ u :: y' -> x = x' /\ y = y'.
Proof.
  revert x'; induction x as [|c x IH]; intros [|c' x'] Hy Hy' E; simpl in E.
  - injection E as E. now split.
  - injection E as Ec Ey. exfalso. apply Hy. rewrite Ey.
    apply in_or_app. right. now left.
  - injection E as Ec Ey. exfalso. apply Hy'. rewrite <- Ey.
    apply in_or_app. right. now left.
  - injection E as Ec E. destruct (IH x' Hy Hy' E) as [-> ->].
    now rewrite Ec.
Qed.

End StringFacts.

(** ** Decimal numerals *)

Section NumeralFacts.

Local Open Scope N_scope.

Lemma chars_of_uint_ascii (d : Decimal.uint) :
  Forall ascii_digit (chars_of_uint d).
Proof.
  induction d; simpl; constructor; try assumption; unfold ascii_digit; lia.
Qed.

Lemma digits_ascii (n : N) : Forall ascii_digit (digits n).
Proof. apply chars_of_uint_ascii. Qed.

Lemma decimal_value_ascii (c : N) :
  ascii_digit c -> decimal_value c = Some (c - 48).
Proof.
  intros [Hlo Hhi]. unfold decimal_value, decimal_zeros.
  cbn [decimal_in].
  replace ((48 <=? c) && (c <? 48 + 10))%bool with true; [reflexivity|].
  symmetry. apply andb_true_iff. split.
  - now apply N.leb_le.
  - apply N.ltb_lt. lia.
Qed.

Lemma isdigit_char_ascii (c : N) : ascii_digit c -> isdigit_char c = true.
Proof.
  intros H. unfold isdigit_char, isdecimal_char.
  now rewrite (decimal_value_ascii H).
Qed.

Lemma forallb_isdigit_ascii (s : pystr) :
  Forall ascii_digit s -> forallb isdigit_char s = true.
Proof.
  induction 1 as [|c s Hc _ IH]; simpl; [reflexivity|].
  now rewrite (isdigit_char_ascii Hc).
Qed.

Lemma uint_of_chars_of_uint (d : Decimal.uint) :
  uint_of_chars (chars_of_uint d) = Some d.
Proof.
  induction d; cbn [chars_of_uint uint_of_chars]; try reflexivity;
    rewrite IHd; reflexivity.
Qed.

Lemma uint_of_chars_zeros (k : nat) (s : pystr) :
  uint_of_chars (repeat 48 k ++ s)
  = option_map (Nat.iter k Decimal.D0) (uint_of_chars s).
Proof.
  induction k as [|k IH]; cbn [repeat app uint_of_chars Nat.iter].
  - now destruct (uint_of_chars s).
  - rewrite IH. change (decimal_value 48) with (Some 0).
    now destruct (uint_of_chars s).
Qed.

Lemma of_uint_zeros (k : nat) (d : Decimal.uint) :
  N.of_uint (Nat.iter k Decimal.D0 d) = N.of_uint d.
Proof. induction k as [|k IH]; simpl; [reflexivity|exact IH]. Qed.

(** Reading back a zero-padded numeral gives the number. *)
Lemma int_of_digits_zfill (w : nat) (n : N) :
  int_of_digits (zfill w (digits n)) = Some (Z.of_N n).
Proof.
  unfold int_of_digits, zfill, digits.
  rewrite uint_of_chars_zeros, uint_of_chars_of_uint. simpl.
  now rewrite of_uint_zeros, DecimalN.Unsigned.of_to.
Qed.

Lemma zfill_ascii (w : nat) (s : pystr) :
  Forall ascii_digit s -> Forall ascii_digit (zfill w s).
Proof.
  intros H. unfold zfill. apply Forall_app. split; [|assumption].
  apply Forall_forall. intros c Hc. apply repeat_spec in Hc. subst c.
  unfold ascii_digit. lia.
Qed.

Lemma zfill_length (w : nat) (s : pystr) :
  (length s <= w)%nat -> length (zfill w s) = w.
Proof.
  intros H. unfold zfill. rewrite length_app, repeat_length. lia.
Qed.

Lemma zfill_length_ge (w : nat) (s : pystr) : (w <= length (zfill w s))%nat.
Proof. unfold zfill. rewrite length_app, repeat_length. lia. Qed.

(** *** The number of digits of a numeral *)

Lemma length_chars_of_uint (d : Decimal.uint) :
  length (chars_of_uint d) = Decimal.nb_digits d.
Proof. induction d; simpl; congruence. Qed.

Lemma of_uint_acc_lower (d : Decimal.uint) (acc : positive) :
  Npos acc * 10 ^ N.of_nat (Decimal.nb_digits d)
  <= Npos (Pos.of_uint_acc d acc).
Proof.
  revert acc; induction d; intros acc;
    cbn [Decimal.nb_digits Pos.of_uint_acc];
    [ rewrite N.pow_0_r; lia | .. ];
    rewrite Nat2N.inj_succ, N.pow_succ_r';
    (eapply N.le_trans; [|apply IHd]);
    rewrite N.mul_assoc; apply N.mul_le_mono_r; lia.
Qed.

Lemma to_uint_normal (n : N) : Decimal.unorm (N.to_uint n) = N.to_uint n.
Proof.
  rewrite <- DecimalN.Unsigned.to_of.
  now rewrite DecimalN.Unsigned.of_to.
Qed.

(** A number below [10 ^ w] is written with at most [w] digits. *)
Lemma digits_length (w : nat) (n : N) :
  (1 <= w)%nat -> n < 10 ^ N.of_nat w -> (length (digits n) <= w)%nat.
Proof.
  intros Hw Hn. unfold digits. rewrite length_chars_of_uint.
  pose proof (to_uint_normal n) as Hnorm.
  pose proof (DecimalN.Unsigned.of_to n) as Hval.
  assert (Hnz : forall l (p : positive),
             N.of_uint (N.to_uint n) = Npos (Pos.of_uint_acc l p) ->
             (S (Decimal.nb_digits l) <= w)%nat).
  { intros l p E.
    pose proof (of_uint_acc_lower l p) as Hlow.
    rewrite <- E, Hval in Hlow.
    assert (Hp : 10 ^ N.of_nat (Decimal.nb_digits l) < 10 ^ N.of_nat w).
    { eapply N.le_lt_trans; [|exact Hn].
      eapply N.le_trans; [|exact Hlow].
      rewrite <- (N.mul_1_l (10 ^ _)) at 1.
      apply N.mul_le_mono_r. lia. }
    apply N.pow_lt_mono_r_iff in Hp; lia. }
  destruct (N.to_uint n) as [|l|l|l|l|l|l|l|l|l|l] eqn:E;
    cbn [Decimal.nb_digits];
    try (now apply (Hnz l _ eq_refl)).
  - lia.
  - rewrite DecimalFacts.unorm_D0 in Hnorm.
    destruct l as [|l'|l'|l'|l'|l'|l'|l'|l'|l'|l'];
      [ simpl; lia | .. ];
      match type of Hnorm with
      | Decimal.unorm ?u = _ =>
          assert (Hne : u <> Decimal.Nil) by discriminate;
          pose proof (@DecimalFacts.nb_digits_unorm u Hne) as Hle;
          rewrite Hnorm in Hle; cbn [Decimal.nb_digits] in Hle; lia
      end.
Qed.

End NumeralFacts.

(** ** The sequence field and the fingerprint *)

Section FieldFacts.

Lemma ascii_digit_not (c : N) (s : pystr) :
  Forall ascii_digit s -> ~ ascii_digit c -> ~ In c s.
Proof.
  intros H Hc Hin. rewrite Forall_forall in H. apply Hc. now apply H.
Qed.

Lemma format_06d_chars (n : Z) :
  Forall (fun c => c = 45%N \/ ascii_digit c) (format_06d n).
Proof.
  unfold format_06d.
  assert (H : Forall (fun c => c = 45%N \/ ascii_digit c)
                (zfill 5 (digits (Z.abs_N n)))
              /\ Forall (fun c => c = 45%N \/ ascii_digit c)
                   (zfill 6 (digits (Z.abs_N n)))).
  { split; (eapply Forall_impl; [|apply zfill_ascii, digits_ascii]);
      intros c Hc; now right. }
  destruct H as [H5 H6].
  destruct (n <? 0)%Z; [constructor; [now left|exact H5]|exact H6].
Qed.

Lemma format_06d_no_underscore (n : Z) :
  ~ In qr_code.underscore (format_06d n).
Proof.
  intros Hin. pose proof (format_06d_chars n) as H.
  rewrite Forall_forall in H. specialize (H _ Hin).
  unfold qr_code.underscore, ascii_digit in H. lia.
Qed.

(** Distinct integers are formatted differently. *)
Lemma format_06d_inj (n m : Z) : format_06d n = format_06d m -> n = m.
Proof.
  unfold format_06d.
  assert (Hhead : forall a r, 45%N :: r <> zfill 6 (digits a)).
  { intros a r E.
    pose proof (zfill_ascii 6 (digits_ascii a)) as H.
    rewrite <- E in H. inversion H as [|? ? Hc _]. unfold ascii_digit in Hc.
    lia. }
  assert (Hval : forall w a b,
             zfill w (digits a) = zfill w (digits b) -> a = b).
  { intros w a b E. apply (f_equal int_of_digits) in E.
    rewrite !int_of_digits_zfill in E. injection E as E. lia. }
  destruct (n <? 0)%Z eqn:Hn, (m <? 0)%Z eqn:Hm; intros E.
  - injection E as E. apply Hval in E.
    apply Z.ltb_lt in Hn, Hm. lia.
  - exfalso. exact (Hhead _ _ E).
  - exfalso. exact (Hhead _ _ (eq_sym E)).
  - apply Hval in E. apply Z.ltb_ge in Hn, Hm. lia.
Qed.

(** A sequence number of at most six digits is formatted as six ASCII
    digits that read back as the number. *)
Lemma format_06d_small (n : Z) :
  (0 <= n <= 999999)%Z ->
  length (format_06d n) = 6%nat
  /\ Forall ascii_digit (format_06d n)
  /\ int_of_digits (format_06d n) = Some n.
Proof.
  intros Hn. unfold format_06d.
  replace (n <? 0)%Z with false by (symmetry; apply Z.ltb_ge; lia).
  split; [|split].
  - apply zfill_length. apply digits_length; [lia|].
    change (10 ^ N.of_nat 6)%N with 1000000%N. lia.
  - apply zfill_ascii, digits_ascii.
  - rewrite int_of_digits_zfill. f_equal. lia.
Qed.

Lemma hexchar_not_underscore (d : Z) : MD5.hexchar d <> qr_code.underscore.
Proof.
  unfold MD5.hexchar, qr_code.underscore.
  destruct (d <? 10)%Z eqn:E.
  - apply Z.ltb_lt in E. lia.
  - apply Z.ltb_ge in E. lia.
Qed.

Lemma hexdigest_no_underscore (msg : list N) :
  ~ In qr_code.underscore (MD5.hexdigest msg).
Proof.
  unfold MD5.hexdigest. intros Hin. apply in_flat_map in Hin.
  destruct Hin as [b [_ Hb]]. unfold MD5.hex_of_byte in Hb.
  destruct Hb as [Hb|[Hb|[]]]; exact (hexchar_not_underscore _ Hb).
Qed.

Lemma flat_map_length_const {A B} (f : A -> list B) (k : nat) (l : list A) :
  (forall a, length (f a) = k) -> length (flat_map f l) = (length l * k)%nat.
Proof.
  intros Hf. induction l as [|a l IH]; simpl; [reflexivity|].
  now rewrite length_app, Hf, IH.
Qed.

Lemma hexdigest_length (msg : list N) : length (MD5.hexdigest msg) = 32%nat.
Proof.
  unfold MD5.hexdigest.
  rewrite (@flat_map_length_const _ _ MD5.hex_of_byte 2%nat);
    [|reflexivity].
  unfold MD5.digest.
  destruct (fold_left MD5.process _ MD5.init) as [a b c d].
  unfold MD5.le_bytes. rewrite !length_app, !length_map, !length_seq.
  reflexivity.
Qed.

Lemma hash_hex_length (bytes : list N) :
  length (security.hash_hex bytes) = 8%nat.
Proof.
  unfold security.hash_hex. rewrite length_firstn, hexdigest_length.
  reflexivity.
Qed.

Lemma hash_hex_no_underscore (bytes : list N) :
  ~ In qr_code.underscore (security.hash_hex bytes).
Proof.
  unfold security.hash_hex. intros Hin.
  apply (@hexdigest_no_underscore bytes).
  rewrite <- (firstn_skipn 8 (MD5.hexdigest bytes)).
  apply in_or_app. now left.
Qed.

End FieldFacts.

(** ** The payload: generation and parsing *)

Section Payload.

Import security qr_code.

Lemma utf8_char_encodable (c : N) :
  encodable c -> exists b, utf8_char c = Some b.
Proof.
  intros H. unfold utf8_char.
  destruct (c <? 128)%N; [eauto|].
  destruct (c <? 2048)%N; [eauto|].
  destruct ((55296 <=? c)%N && (c <=? 57343)%N) eqn:E.
  - exfalso. apply H. apply andb_true_iff in E as [E1 E2].
    apply N.leb_le in E1, E2. lia.
  - destruct (c <? 65536)%N; eauto.
Qed.

Lemma encode_encodable (s : pystr) :
  Forall encodable s -> exists bytes, encode s = Some bytes.
Proof.
  induction 1 as [|c s Hc _ [bs IH]]; simpl; [eauto|].
  destruct (utf8_char_encodable Hc) as [b ->]. rewrite IH. eauto.
Qed.

Lemma str_int_encodable (n : Z) : Forall encodable (str_int n).
Proof.
  assert (H : Forall encodable (digits (Z.abs_N n))).
  { eapply Forall_impl; [|apply digits_ascii].
    unfold ascii_digit, encodable. intros c Hc. lia. }
  unfold str_int. destruct (n <? 0)%Z; [constructor|]; try assumption.
  unfold encodable. lia.
Qed.

(** The batch identifier is all that can make generation raise. *)
Lemma generate_qr_code_data_ok (t : Z) (b : pystr) (n : Z) :
  Forall encodable b ->
  exists bytes,
    generate_qr_code_data t b n
    = Ok (str_of "QRTF_" ++ b ++ str_of "_" ++ format_06d n
            ++ str_of "_" ++ hash_hex bytes).
Proof.
  intros Hb. unfold generate_qr_code_data.
  destruct (@encode_encodable
              (b ++ str_of "_" ++ str_int n ++ str_of "_" ++ str_int t))
    as [bytes ->]; [|now exists bytes].
  assert (Hu : Forall encodable (str_of "_")).
  { change (str_of "_") with [95%N]. repeat constructor.
    unfold encodable. lia. }
  apply Forall_app; split; [exact Hb|].
  apply Forall_app; split; [exact Hu|].
  apply Forall_app; split; [apply str_int_encodable|].
  apply Forall_app; split; [exact Hu|apply str_int_encodable].
Qed.

Lemma generate_qr_code_data_shape (t : Z) (b : pystr) (n : Z) (code : pystr) :
  generate_qr_code_data t b n = Ok code ->
  exists bytes,
    code = str_of "QRTF_" ++ b ++ str_of "_" ++ format_06d n
             ++ str_of "_" ++ hash_hex bytes.
Proof.
  unfold generate_qr_code_data.
  destruct (encode _) as [bytes|]; [|discriminate].
  intros E. injection E as <-. now exists bytes.
Qed.

(** The code string determines the batch and the sequence number. *)
Lemma generate_qr_code_data_inj
    (t1 t2 : Z) (b1 b2 : pystr) (n1 n2 : Z) (code : pystr) :
  generate_qr_code_data t1 b1 n1 = Ok code ->
  generate_qr_code_data t2 b2 n2 = Ok code ->
  b1 = b2 /\ n1 = n2.
Proof.
  intros H1 H2.
  apply generate_qr_code_data_shape in H1 as [h1 E1].
  apply generate_qr_code_data_shape in H2 as [h2 E2].
  rewrite E1 in E2. apply app_inv_head in E2.
  change (str_of "_") with [underscore] in E2.
  assert (E : (b1 ++ underscore :: format_06d n1) ++ underscore :: hash_hex h1
              = (b2 ++ underscore :: format_06d n2)
                  ++ underscore :: hash_hex h2).
  { rewrite <- !app_assoc. exact E2. }
  apply last_sep_unique in E as [E _]; try apply hash_hex_no_underscore.
  apply last_sep_unique in E as [Eb En];
    try apply format_06d_no_underscore.
  split; [exact Eb|now apply format_06d_inj].
Qed.

End Payload.

(** ** Validation of scanned strings *)

Section Validation.

Import security qr_code.

(** What [validate_qr_code_data] accepts, part by part. *)
Lemma validate_qr_code_data_spec (data : pystr) :
  validate_qr_code_data data = true
  <-> startswith data (str_of "QRTF_") = true
      /\ exists prefix batch_id sequence hash_value,
           split underscore data = [prefix; batch_id; sequence; hash_value]
           /\ isdigit sequence = true
           /\ length sequence = 6%nat
           /\ length hash_value = 8%nat.
Proof.
  unfold validate_qr_code_data. split.
  - destruct (startswith data (str_of "QRTF_")); simpl; [|discriminate].
    destruct (split underscore data) as [|p [|b [|s [|h [|x l]]]]];
      simpl; try discriminate.
    destruct (isdigit s) eqn:Ed; simpl; [|discriminate].
    destruct (length s =? 6)%nat eqn:Es; simpl; [|discriminate].
    destruct (length h =? 8)%nat eqn:Eh; simpl; [|discriminate].
    intros _. split; [reflexivity|]. exists p, b, s, h.
    apply Nat.eqb_eq in Es, Eh. auto.
  - intros [-> [p [b [s [h [-> [Hd [Hs Hh]]]]]]]]. simpl.
    rewrite Hd, Hs, Hh. reflexivity.
Qed.

Lemma isdecimal_isdigit (c : N) :
  isdecimal_char c = true -> isdigit_char c = true.
Proof. unfold isdigit_char. now intros ->. Qed.

Lemma uint_of_chars_some (s : pystr) :
  (exists d, uint_of_chars s = Some d) <-> forallb isdecimal_char s = true.
Proof.
  unfold isdecimal_char.
  induction s as [|c s IH]; simpl; [split; eauto|].
  destruct (decimal_value c) as [v|]; simpl.
  - rewrite <- IH. destruct (uint_of_chars s) as [d|].
    + split; eauto.
    + split; intros [d E]; discriminate.
  - split; [intros [d E]|]; discriminate.
Qed.

Lemma int_of_digits_some (s : pystr) :
  (exists n, int_of_digits s = Some n) <-> forallb isdecimal_char s = true.
Proof.
  rewrite <- uint_of_chars_some. unfold int_of_digits.
  destruct (uint_of_chars s) as [d|]; split; intros [x E];
    try discriminate; eauto.
Qed.

(** The specified format is accepted. *)
Lemma well_formed_code_validates (data : pystr) :
  well_formed_code data = true -> validate_qr_code_data data = true.
Proof.
  unfold well_formed_code. intros H.
  apply andb_true_iff in H as [Hp H].
  apply validate_qr_code_data_spec. split; [exact Hp|].
  destruct (split underscore data) as [|p [|b [|s [|h [|x l]]]]];
    try discriminate.
  apply andb_true_iff in H as [H Hh].
  apply andb_true_iff in H as [Hs Hd].
  apply Nat.eqb_eq in Hs, Hh.
  exists p, b, s, h. repeat split; try assumption.
  unfold isdigit. destruct s as [|c s]; [discriminate|].
  apply forallb_forall. intros x Hx. apply isdecimal_isdigit.
  rewrite forallb_forall in Hd. now apply Hd.
Qed.

(** [extract_qr_code_info] answers [is_valid = True] exactly on the
    specified format. *)
Lemma extract_valid_iff (data : pystr) :
  is_valid (extract_qr_code_info data) = true
  <-> well_formed_code data = true.
Proof.
  split.
  - unfold extract_qr_code_info.
    destruct (validate_qr_code_data data) eqn:Hv; simpl; [|discriminate].
    apply validate_qr_code_data_spec in Hv
      as [Hp [p [b [s [h [Hsp [Hd [Hs Hh]]]]]]]].
    rewrite Hsp. destruct (int_of_digits s) as [n|] eqn:Hn;
      simpl; [|discriminate].
    intros _. unfold well_formed_code. rewrite Hp, Hsp, Hs, Hh. simpl.
    rewrite andb_true_r. apply int_of_digits_some. eauto.
  - intros Hw. pose proof (well_formed_code_validates _ Hw) as Hv.
    unfold extract_qr_code_info. rewrite Hv. simpl.
    unfold well_formed_code in Hw. apply andb_true_iff in Hw as [_ Hw].
    destruct (split underscore data) as [|p [|b [|s [|h [|x l]]]]];
      try discriminate.
    apply andb_true_iff in Hw as [Hw _].
    apply andb_true_iff in Hw as [_ Hd].
    apply int_of_digits_some in Hd as [n ->]. reflexivity.
Qed.

Lemma split_parts_incl (sep : N) (s p : pystr) (c : N) :
  In p (split sep s) -> In c p -> In c s.
Proof.
  revert p. induction s as [|x s IH]; simpl; intros p Hp Hc.
  - destruct Hp as [<-|[]]. exact Hc.
  - destruct (x =? sep)%N.
    + destruct Hp as [<-|Hp]; [destruct Hc|]. right. now apply (IH p).
    + pose proof (split_not_nil sep s) as Hne.
      destruct (split sep s) as [|q qs]; [contradiction|].
      destruct Hp as [<-|Hp].
      * destruct Hc as [<-|Hc]; [now left|]. right.
        apply (IH q); [now left|exact Hc].
      * right. apply (IH p); [now right|exact Hc].
Qed.

(** Below 128 the only digits are the decimal digits [0] to [9]. *)
Lemma isdigit_char_below_128 (c : N) :
  (c < 128)%N -> isdigit_char c = true -> isdecimal_char c = true.
Proof.
  intros Hc. unfold isdigit_char.
  destruct (isdecimal_char c); [reflexivity|]. cbn [orb]. intros H.
  apply existsb_exists in H as [[lo hi] [Hin H]].
  assert (Hlo : Forall (fun r => (178 <= fst r)%N) digit_only_ranges).
  { unfold digit_only_ranges. repeat constructor; cbn; lia. }
  rewrite Forall_forall in Hlo. specialize (Hlo _ Hin).
  apply andb_true_iff in H as [H _]. apply N.leb_le in H.
  cbn [fst] in *. lia.
Qed.

(** On strings of characters below 128 the validator accepts exactly the
    specified format. *)
Lemma validate_qr_code_data_ascii (data : pystr) :
  Forall (fun c => (c < 128)%N) data ->
  (validate_qr_code_data data = true <-> well_formed_code data = true).
Proof.
  intros Ha. split; [|apply well_formed_code_validates].
  intros Hv. apply validate_qr_code_data_spec in Hv
    as [Hp [p [b [s [h [Hsp [Hd [Hs Hh]]]]]]]].
  unfold well_formed_code. rewrite Hp, Hsp, Hs, Hh. simpl.
  rewrite andb_true_r. apply forallb_forall. intros c Hc.
  apply isdigit_char_below_128.
  - rewrite Forall_forall in Ha. apply Ha.
    apply (@split_parts_incl underscore data s c); [|exact Hc].
    rewrite Hsp. simpl. tauto.
  - unfold isdigit in Hd. destruct s as [|x s]; [discriminate|].
    rewrite forallb_forall in Hd. now apply Hd.
Qed.

(** [extract_qr_code_info] returns in every case: the four fields, the
    format error, or the error of [int] on a validated string. *)
Lemma extract_qr_code_info_cases (data : pystr) :
  (exists p b n h,
      extract_qr_code_info data = Valid p b n h
      /\ validate_qr_code_data data = true)
  \/ (extract_qr_code_info data
      = Invalid (ValueError (str_of "Invalid QR code data format"))
      /\ validate_qr_code_data data = false)
  \/ (exists s,
        extract_qr_code_info data = Invalid (InvalidLiteral s)
        /\ validate_qr_code_data data = true).
Proof.
  unfold extract_qr_code_info.
  destruct (validate_qr_code_data data) eqn:Hv; simpl; [|now right; left].
  apply validate_qr_code_data_spec in Hv
    as [_ [p [b [s [h [-> _]]]]]].
  destruct (int_of_digits s) as [n|].
  - left. now exists p, b, n, h.
  - right. right. now exists s.
Qed.

(** The parts of a generated code. *)
Lemma split_generated (b f h : pystr) :
  ~ In underscore b -> ~ In underscore f -> ~ In underscore h ->
  split underscore
    (str_of "QRTF_" ++ b ++ str_of "_" ++ f ++ str_of "_" ++ h)
  = [str_of "QRTF"; b; f; h].
Proof.
  intros Hb Hf Hh.
  change (str_of "QRTF_") with (str_of "QRTF" ++ [underscore]).
  change (str_of "_") with [underscore].
  rewrite <- app_assoc. simpl ([underscore] ++ _).
  rewrite split_app.
  2:{ vm_compute. intuition discriminate. }
  rewrite (@split_app _ b _ Hb), (@split_app _ f _ Hf), (@split_whole _ h Hh).
  reflexivity.
Qed.

End Validation.

(** ** Round trip, format validation and extraction *)

Section PayloadClaims.

Import security qr_code.

(** C2, as stated, fails: a batch identifier that contains an underscore
    gives a code of five parts, and a sequence number of seven digits
    gives a sequence field that is too long; [extract_qr_code_info]
    answers [is_valid = False] on both. *)
Lemma roundtrip_counterexample :
  generate_qr_code_data 1700000000 (str_of "B_1") 1
    = Ok (str_of "QRTF_B_1_000001_e4d55798")
  /\ extract_qr_code_info (str_of "QRTF_B_1_000001_e4d55798")
     = Invalid (ValueError (str_of "Invalid QR code data format"))
  /\ generate_qr_code_data 1700000000 (str_of "B1") 1000000
     = Ok (str_of "QRTF_B1_1000000_363919c5")
  /\ extract_qr_code_info (str_of "QRTF_B1_1000000_363919c5")
     = Invalid (ValueError (str_of "Invalid QR code data format")).
Proof. vm_compute. repeat split; reflexivity. Qed.

(** C2, amended: for a batch identifier without underscore and without
    lone surrogate, and a sequence number from 0 to 999999, generation
    returns a code from which [extract_qr_code_info] recovers the prefix,
    the batch identifier and the sequence number exactly. *)
Theorem extract_generate_roundtrip (t : Z) (b : pystr) (n : Z) :
  ~ In underscore b ->
  Forall encodable b ->
  (0 <= n <= 999999)%Z ->
  exists code h,
    generate_qr_code_data t b n = Ok code
    /\ extract_qr_code_info code = Valid (str_of "QRTF") b n h.
Proof.
  intros Hb He Hn.
  destruct (generate_qr_code_data_ok t n He) as [bytes Hg].
  exists (str_of "QRTF_" ++ b ++ str_of "_" ++ format_06d n
            ++ str_of "_" ++ hash_hex bytes), (hash_hex bytes).
  split; [exact Hg|].
  destruct (format_06d_small Hn) as [Hlen [Hascii Hint]].
  pose proof (@split_generated b (format_06d n) (hash_hex bytes) Hb
                (@format_06d_no_underscore n)
                (@hash_hex_no_underscore bytes)) as Hsplit.
  assert (Hv : validate_qr_code_data
                 (str_of "QRTF_" ++ b ++ str_of "_" ++ format_06d n
                    ++ str_of "_" ++ hash_hex bytes) = true).
  { apply validate_qr_code_data_spec. split; [apply startswith_app|].
    exists (str_of "QRTF"), b, (format_06d n), (hash_hex bytes).
    repeat split; try assumption; [|apply hash_hex_length].
    unfold isdigit. destruct (format_06d n); [discriminate|].
    now apply forallb_isdigit_ascii. }
  unfold extract_qr_code_info. rewrite Hv, Hsplit, Hint. reflexivity.
Qed.

Lemma extract_generate_roundtrip_witness :
  exists code h,
    generate_qr_code_data 1700000000 (str_of "B1") 1 = Ok code
    /\ extract_qr_code_info code = Valid (str_of "QRTF") (str_of "B1") 1 h.
Proof.
  apply extract_generate_roundtrip.
  - vm_compute. intuition discriminate.
  - change (str_of "B1") with [66%N; 49%N].
    repeat constructor; unfold encodable; lia.
  - lia.
Defined.

(** C8: [validate_qr_code_data] accepts a string whose sequence field is
    six superscript digits, which are not decimal digits: the specified
    format rejects it. *)
Theorem validate_accepts_superscript_sequence :
  validate_qr_code_data superscript_code = true
  /\ well_formed_code superscript_code = false.
Proof. vm_compute. split; reflexivity. Qed.

(** C10: on the same string [validate_qr_code_data] is [True] while
    [extract_qr_code_info] answers [is_valid = False], with the error
    that [int] raised on the sequence field. *)
Theorem extract_rejects_validated_code :
  validate_qr_code_data superscript_code = true
  /\ extract_qr_code_info superscript_code
     = Invalid (InvalidLiteral (repeat 178%N 6)).
Proof. vm_compute. split; reflexivity. Qed.

End PayloadClaims.

(** ** Collections *)

Section CollectionFacts.

Import collection.

Variable doc : Type.

Lemma find_one_update_one (query : doc -> bool) (set : doc -> doc)
    (c : list doc) :
  (forall d, query (set d) = query d) ->
  find_one query (update_one query set c)
  = option_map set (find_one query c).
Proof.
  intros Hq. unfold find_one.
  induction c as [|d c IH]; simpl; [reflexivity|].
  destruct (query d) eqn:E; simpl.
  - now rewrite Hq, E.
  - now rewrite E.
Qed.

Lemma update_one_map (A : Type) (f : doc -> A) (query : doc -> bool)
    (set : doc -> doc) (c : list doc) :
  (forall d, f (set d) = f d) ->
  map f (update_one query set c) = map f c.
Proof.
  intros Hf. induction c as [|d c IH]; simpl; [reflexivity|].
  destruct (query d); simpl; [now rewrite Hf|now rewrite IH].
Qed.

Lemma update_one_length (query : doc -> bool) (set : doc -> doc)
    (c : list doc) :
  length (update_one query set c) = length c.
Proof.
  induction c as [|d c IH]; simpl; [reflexivity|].
  destruct (query d); simpl; congruence.
Qed.

Lemma update_one_none (query : doc -> bool) (set : doc -> doc)
    (c : list doc) :
  find_one query c = None -> update_one query set c = c.
Proof.
  unfold find_one. induction c as [|d c IH]; simpl; [reflexivity|].
  destruct (query d); [discriminate|]. intros H. now rewrite IH.
Qed.

Lemma find_one_app_new (query : doc -> bool) (c : list doc) (d : doc) :
  find_one query c = None -> query d = true ->
  find_one query (c ++ [d]) = Some d.
Proof.
  unfold find_one. induction c as [|x c IH]; simpl; intros Hn Hd.
  - now rewrite Hd.
  - destruct (query x); [discriminate|]. now apply IH.
Qed.

Lemma find_one_none (query : doc -> bool) (c : list doc) :
  find_one query c = None <-> forall d, In d c -> query d = false.
Proof.
  unfold find_one. split.
  - intros H d Hd. exact (find_none _ _ H d Hd).
  - intros H. induction c as [|x c IH]; simpl; [reflexivity|].
    rewrite (H x (or_introl eq_refl)). apply IH.
    intros d Hd. apply H. now right.
Qed.

(** An insertion is refused exactly when an indexed field is taken. *)
Lemma insert_one_ok (unique : list (doc -> pystr)) (d : doc)
    (c c' : list doc) :
  insert_one unique d c = Ok c'
  <-> c' = c ++ [d]
      /\ forall key d', In key unique -> In d' c -> key d <> key d'.
Proof.
  unfold insert_one. destruct (existsb (clashes unique d) c) eqn:E.
  - split; [discriminate|]. intros [_ H]. exfalso.
    apply existsb_exists in E as [d' [Hd' Hc]].
    unfold clashes in Hc. apply existsb_exists in Hc as [key [Hk He]].
    apply eqb_eq in He. exact (H key d' Hk Hd' He).
  - split.
    + intros H. injection H as <-. split; [reflexivity|].
      intros key d' Hk Hd' He.
      assert (Hc : existsb (clashes unique d) c = true);
        [|congruence].
      apply existsb_exists. exists d'. split; [exact Hd'|].
      unfold clashes. apply existsb_exists. exists key.
      split; [exact Hk|]. now apply eqb_eq.
    + now intros [-> _].
Qed.

Lemma insert_one_raise (unique : list (doc -> pystr)) (d : doc)
    (c : list doc) (e : exn) :
  insert_one unique d c = Raise e -> e = DuplicateKeyError.
Proof.
  unfold insert_one. destruct (existsb _ c); [|discriminate].
  intros H. now injection H as <-.
Qed.

(** An indexed field stays free of duplicates. *)
Lemma insert_one_NoDup (unique : list (doc -> pystr)) (key : doc -> pystr)
    (d : doc) (c c' : list doc) :
  In key unique -> insert_one unique d c = Ok c' ->
  NoDup (map key c) -> NoDup (map key c').
Proof.
  intros Hk Hi Hn. apply insert_one_ok in Hi as [-> Hfree].
  rewrite map_app. simpl.
  apply NoDup_rev in Hn. rewrite <- (rev_involutive (map key c ++ [key d])).
  apply NoDup_rev. rewrite rev_app_distr. simpl. constructor; [|exact Hn].
  rewrite <- in_rev. intros Hin. apply in_map_iff in Hin as [d' [He Hd']].
  exact (Hfree key d' Hk Hd' (eq_sym He)).
Qed.

End CollectionFacts.

(** ** Status updates *)

Section StatusUpdate.

Import installations.

Lemma by_id_installation_update_data (i s : pystr) (r : option pystr)
    (u : pystr) (x : Installation.doc) :
  by_id_installation i (update_data s r u x) = by_id_installation i x.
Proof. reflexivity. Qed.

Lemma by_id_qr_set_status (i s : pystr) (q : QRCode.doc) :
  by_id_qr i (QRCode.set_status s q) = by_id_qr i q.
Proof. reflexivity. Qed.

(** [update_installation_status], check by check. *)
Lemma update_installation_status_unfold
    (i : pystr) (u : user) (r : status_data) (d : database) :
  update_installation_status i u r d
  = if negb (security.check_permissions (role u) (str_of "installations"))
    then (d, Raise (HTTPException 403 (str_of "Insufficient permissions")))
    else
      match truthy (status r) with
      | None => (d, Raise (HTTPException 400 (str_of "Status is required")))
      | Some s =>
          if negb (mem s valid_statuses) then (d, Raise invalid_status)
          else
            match
              collection.find_one (by_id_installation i)
                (fitting_installations d)
            with
            | None =>
                (d, Raise (HTTPException 404
                             (str_of "Installation not found")))
            | Some x =>
                (updated i s u r x d,
                 Ok (update_data s (status_remarks r) (userId u) x))
            end
      end.
Proof.
  unfold update_installation_status, guarded, bind, raise_if, raise, ret,
    get_db, update_installation, update_qr_code.
  destruct (negb (security.check_permissions _ _)); [reflexivity|].
  destruct (truthy (status r)) as [s|]; [|reflexivity].
  destruct (negb (mem s valid_statuses)); [reflexivity|].
  destruct (collection.find_one (by_id_installation i)
              (fitting_installations d)) as [x|] eqn:Ex; [|reflexivity].
  cbn [fitting_installations].
  rewrite find_one_update_one by (intros; reflexivity).
  rewrite Ex. reflexivity.
Qed.

Lemma mem_In (x : pystr) (l : list pystr) : mem x l = true <-> In x l.
Proof.
  induction l as [|y l IH]; simpl; [split; [discriminate|tauto]|].
  rewrite orb_true_iff, IH, eqb_eq. split; intros [H|H]; auto.
Qed.

(** Whatever raises in [update_installation_status] raises before the
    first write. *)
Lemma update_installation_status_raise
    (i : pystr) (u : user) (r : status_data) (d : database) (e : exn) :
  snd (update_installation_status i u r d) = Raise e ->
  fst (update_installation_status i u r d) = d.
Proof.
  rewrite update_installation_status_unfold.
  destruct (negb _); [reflexivity|].
  destruct (truthy (status r)) as [s|]; [|reflexivity].
  destruct (negb _); [reflexivity|].
  destruct (collection.find_one _ _) as [x|]; [|reflexivity].
  discriminate.
Qed.

(** The linked QR code, if stored, carries the new status afterwards. *)
Lemma updated_qr_status
    (i s : pystr) (u : user) (r : status_data) (x : Installation.doc)
    (d : database) (q' : QRCode.doc) :
  collection.find_one (by_id_qr (Installation.qrCodeId x))
    (qr_codes (updated i s u r x d)) = Some q' ->
  QRCode.status q' = s
  /\ exists q,
       collection.find_one (by_id_qr (Installation.qrCodeId x)) (qr_codes d)
       = Some q
       /\ q' = QRCode.set_status s q.
Proof.
  unfold updated. cbn [qr_codes].
  rewrite find_one_update_one by (intros; reflexivity).
  destruct (collection.find_one _ (qr_codes d)) as [q|]; [|discriminate].
  simpl. intros H. injection H as <-. split; [reflexivity|].
  now exists q.
Qed.

(** C3: after a successful [update_installation_status] with a status [s]
    of the five installation statuses, the installation found under the
    identifier has status [s], and so has the QR code found under its
    [qrCodeId], which is the one stored there before. *)
Theorem status_propagation
    (i : pystr) (u : user) (r : status_data) (d : database) :
  is_ok (snd (update_installation_status i u r d)) = true ->
  let d' := fst (update_installation_status i u r d) in
  exists s x x',
    truthy (status r) = Some s
    /\ In s valid_statuses
    /\ collection.find_one (by_id_installation i) (fitting_installations d)
       = Some x
    /\ snd (update_installation_status i u r d) = Ok x'
    /\ collection.find_one (by_id_installation i) (fitting_installations d')
       = Some x'
    /\ Installation.status x' = s
    /\ Installation.qrCodeId x' = Installation.qrCodeId x
    /\ (forall q,
          collection.find_one (by_id_qr (Installation.qrCodeId x))
            (qr_codes d) = Some q ->
          collection.find_one (by_id_qr (Installation.qrCodeId x))
            (qr_codes d') = Some (QRCode.set_status s q))
    /\ (forall q',
          collection.find_one (by_id_qr (Installation.qrCodeId x))
            (qr_codes d') = Some q' ->
          QRCode.status q' = s).
Proof.
  rewrite update_installation_status_unfold.
  destruct (negb _); [discriminate|].
  destruct (truthy (status r)) as [s|]; [|discriminate].
  destruct (negb (mem s valid_statuses)) eqn:Hs; [discriminate|].
  destruct (collection.find_one _ _) as [x|] eqn:Hx; [|discriminate].
  intros _. cbn [fst snd].
  exists s, x, (update_data s (status_remarks r) (userId u) x).
  apply negb_false_iff, mem_In in Hs.
  repeat split; try assumption; try reflexivity.
  - unfold updated. cbn [fitting_installations].
    rewrite find_one_update_one by (intros; reflexivity).
    now rewrite Hx.
  - intros q Hq. unfold updated. cbn [qr_codes].
    rewrite find_one_update_one by (intros; reflexivity).
    now rewrite Hq.
  - intros q' Hq'. now apply updated_qr_status in Hq' as [Hq' _].
Qed.

Lemma status_propagation_witness :
  let r := update_installation_status (str_of "i1") sample.admin
             (sample.set_status "maintenance_due") sample.retired_db in
  exists s x x',
    truthy (status (sample.set_status "maintenance_due")) = Some s
    /\ In s valid_statuses
    /\ collection.find_one (by_id_installation (str_of "i1"))
         (fitting_installations sample.retired_db) = Some x
    /\ snd r = Ok x'
    /\ collection.find_one (by_id_installation (str_of "i1"))
         (fitting_installations (fst r)) = Some x'
    /\ Installation.status x' = s
    /\ Installation.qrCodeId x' = Installation.qrCodeId x
    /\ (forall q,
          collection.find_one (by_id_qr (Installation.qrCodeId x))
            (qr_codes sample.retired_db) = Some q ->
          collection.find_one (by_id_qr (Installation.qrCodeId x))
            (qr_codes (fst r)) = Some (QRCode.set_status s q))
    /\ (forall q',
          collection.find_one (by_id_qr (Installation.qrCodeId x))
            (qr_codes (fst r)) = Some q' ->
          QRCode.status q' = s).
Proof.
  apply (@status_propagation (str_of "i1") sample.admin
           (sample.set_status "maintenance_due") sample.retired_db).
  vm_compute. reflexivity.
Defined.

(** C4, as stated, fails: a retired installation whose QR code is retired
    is put back in service, and both records change. *)
Lemma retired_is_not_terminal :
  update_installation_status (str_of "i1") sample.admin
    (sample.set_status "in_service") sample.retired_db
  = (Database [Batch.Doc (str_of "B1") None None]
       [sample.qr "q1" "QRTF_B1_000001_4c554774" "in_service"]
       [Installation.Doc (str_of "i1") (str_of "q1") (str_of "z1") None None
          (str_of "Section A-1") None None (str_of "u1")
          (str_of "in_service") None (Some (str_of "u1")) None None],
     Ok (Installation.Doc (str_of "i1") (str_of "q1") (str_of "z1") None
           None (str_of "Section A-1") None None (str_of "u1")
           (str_of "in_service") None (Some (str_of "u1")) None None)).
Proof. vm_compute. reflexivity. Qed.

(** C4, amended: [update_installation_status] looks at no current status.
    On a stored installation, whatever its status and that of its QR
    code, a permitted request with one of the five statuses succeeds and
    gives both that status; a request that is rejected leaves the
    database as it was. *)
Theorem update_ignores_current_status :
  (forall (i : pystr) (u : user) (r : status_data) (d : database)
          (s : pystr) (x : Installation.doc),
      security.check_permissions (role u) (str_of "installations") = true ->
      truthy (status r) = Some s ->
      In s valid_statuses ->
      collection.find_one (by_id_installation i) (fitting_installations d)
      = Some x ->
      exists x',
        update_installation_status i u r d = (updated i s u r x d, Ok x')
        /\ collection.find_one (by_id_installation i)
             (fitting_installations (updated i s u r x d)) = Some x'
        /\ Installation.status x' = s
        /\ forall q',
             collection.find_one (by_id_qr (Installation.qrCodeId x))
               (qr_codes (updated i s u r x d)) = Some q' ->
             QRCode.status q' = s)
  /\ (forall (i : pystr) (u : user) (r : status_data) (d : database)
             (e : exn),
        snd (update_installation_status i u r d) = Raise e ->
        fst (update_installation_status i u r d) = d).
Proof.
  split; [|exact update_installation_status_raise].
  intros i u r d s x Hp Hs Hv Hx.
  exists (update_data s (status_remarks r) (userId u) x).
  rewrite update_installation_status_unfold, Hp, Hs.
  apply mem_In in Hv. rewrite Hv, Hx. cbn [negb].
  repeat split.
  - unfold updated. cbn [fitting_installations].
    rewrite find_one_update_one by (intros; reflexivity).
    now rewrite Hx.
  - intros q' Hq'. now apply updated_qr_status in Hq' as [Hq' _].
Qed.

Lemma update_ignores_current_status_witness :
  exists x',
    update_installation_status (str_of "i1") sample.admin
      (sample.set_status "installed") sample.retired_db
    = (updated (str_of "i1") (str_of "installed") sample.admin
         (sample.set_status "installed")
         (sample.installation "i1" "q1" "retired") sample.retired_db,
       Ok x')
    /\ collection.find_one (by_id_installation (str_of "i1"))
         (fitting_installations
            (updated (str_of "i1") (str_of "installed") sample.admin
               (sample.set_status "installed")
               (sample.installation "i1" "q1" "retired")
               sample.retired_db)) = Some x'
    /\ Installation.status x' = str_of "installed"
    /\ forall q',
         collection.find_one
           (by_id_qr
              (Installation.qrCodeId
                 (sample.installation "i1" "q1" "retired")))
           (qr_codes
              (updated (str_of "i1") (str_of "installed") sample.admin
                 (sample.set_status "installed")
                 (sample.installation "i1" "q1" "retired")
                 sample.retired_db)) = Some q' ->
         QRCode.status q' = str_of "installed".
Proof.
  apply (proj1 update_ignores_current_status).
  - vm_compute. reflexivity.
  - vm_compute. reflexivity.
  - vm_compute. tauto.
  - vm_compute. reflexivity.
Defined.

End StatusUpdate.

(** ** Installation of a QR code *)

Section Install.

Import installations.

Lemma warranty_end_date_raise (now : nat -> datetime.t) (e : exn) :
  warranty_end_date now = Raise e -> exists m, e = ValueError m.
Proof.
  unfold warranty_end_date, datetime.replace_year.
  repeat match goal with
         | |- context [if ?c then _ else _] => destruct c
         end; intros H; try discriminate; injection H as <-; eauto.
Qed.

(** [create_installation], check by check. *)
Lemma create_installation_unfold
    (oid : pystr) (now : nat -> datetime.t) (u : user)
    (r : installation_data) (d : database) :
  create_installation oid now u r d
  = if negb (security.check_permissions (role u) (str_of "installations"))
    then (d, Raise (HTTPException 403 (str_of "Insufficient permissions")))
    else
      match truthy (qrCodeId r) with
      | None =>
          (d, Raise (HTTPException 400 (str_of "QR code ID is required")))
      | Some qid =>
      match truthy (zoneId r) with
      | None => (d, Raise (HTTPException 400 (str_of "Zone ID is required")))
      | Some z =>
      match truthy (trackSection r) with
      | None =>
          (d, Raise (HTTPException 400 (str_of "Track section is required")))
      | Some t =>
      match coordinates_ok r with
      | Raise _ => (d, Raise failed_to_create)
      | Ok false =>
          (d, Raise (HTTPException 400 (str_of "Invalid GPS coordinates")))
      | Ok true =>
      match collection.find_one (by_id_qr qid) (qr_codes d) with
      | None => (d, Raise (HTTPException 404 (str_of "QR code not found")))
      | Some _ =>
      match
        collection.find_one (by_qrCodeId qid) (fitting_installations d)
      with
      | Some _ => (d, Raise already_installed)
      | None =>
      match warranty_end_date now with
      | Raise _ => (d, Raise failed_to_create)
      | Ok _ =>
      match
        collection.insert_one fitting_installations_unique
          (installation_doc oid u r qid z t) (fitting_installations d)
      with
      | Raise _ => (d, Raise failed_to_create)
      | Ok c =>
          (Database (fitting_batches d)
             (collection.update_one (by_id_qr qid)
                (QRCode.set_installed (userId u)) (qr_codes d))
             c,
           Ok (installation_doc oid u r qid z t))
      end end end end end end end end.
Proof.
  unfold create_installation, guarded, bind, raise_if, raise, ret, lift,
    get_db, insert_installation, update_qr_code.
  destruct (negb (security.check_permissions _ _)); [reflexivity|].
  destruct (truthy (qrCodeId r)) as [qid|]; [|reflexivity].
  destruct (truthy (zoneId r)) as [z|]; [|reflexivity].
  destruct (truthy (trackSection r)) as [t|]; [|reflexivity].
  destruct (coordinates_ok r) as [[|]|e] eqn:Ec; cbn [negb].
  - destruct (collection.find_one (by_id_qr qid) (qr_codes d));
      [|reflexivity].
    destruct (collection.find_one (by_qrCodeId qid) _); [reflexivity|].
    destruct (warranty_end_date now) as [w|e] eqn:Ew.
    2:{ apply warranty_end_date_raise in Ew as [m ->]. reflexivity. }
    destruct (collection.insert_one _ _ _) as [c|e] eqn:Ei.
    + cbn [fitting_installations].
      apply insert_one_ok in Ei as [-> Hfree].
      rewrite find_one_app_new; [reflexivity| |apply eqb_refl].
      apply find_one_none. intros x Hx. apply eqb_neq. intros E.
      apply (Hfree Installation._id x); [now left|exact Hx|].
      now rewrite E.
    + apply insert_one_raise in Ei. now subst e.
  - reflexivity.
  - assert (e = TypeError) as ->; [|reflexivity].
    unfold coordinates_ok, security.validate_gps_coordinates in Ec.
    destruct (installationCoordinates r) as [[[la|] [ln|]]|];
      cbn in Ec; try discriminate; try congruence;
      destruct (Qle_bool (-90) la && Qle_bool la 90); congruence.
Qed.

Lemma create_installation_raise
    (oid : pystr) (now : nat -> datetime.t) (u : user)
    (r : installation_data) (d : database)
    (e : exn) :
  snd (create_installation oid now u r d) = Raise e ->
  fst (create_installation oid now u r d) = d.
Proof.
  rewrite create_installation_unfold.
  repeat match goal with
         | |- context [if ?c then _ else _] => destruct c
         | |- context [match ?x with _ => _ end] => destruct x
         end; try reflexivity; discriminate.
Qed.

Lemma insert_installation_free (x : Installation.doc)
    (c : list Installation.doc) :
  collection.find_one (by_qrCodeId (Installation.qrCodeId x)) c = None ->
  collection.find_one (by_id_installation (Installation._id x)) c = None ->
  collection.insert_one fitting_installations_unique x c = Ok (c ++ [x]).
Proof.
  intros Hq Hi. apply insert_one_ok. split; [reflexivity|].
  intros key x' [<-|[<-|[]]] Hx' E.
  - rewrite find_one_none in Hi. specialize (Hi x' Hx').
    apply eqb_neq in Hi. congruence.
  - rewrite find_one_none in Hq. specialize (Hq x' Hx').
    apply eqb_neq in Hq. congruence.
Qed.

(** The date two years on exists unless the day is 29 February or the
    year passes 9999. *)
Lemma warranty_end_date_exists (now : nat -> datetime.t) :
  datetime.is_date (now 2%nat) ->
  datetime.year (now 3%nat) = datetime.year (now 2%nat) ->
  is_ok (warranty_end_date now) = true
  <-> (datetime.year (now 2%nat) <= 9997)%Z
      /\ ~ (datetime.month (now 2%nat) = 2%Z
            /\ datetime.day (now 2%nat) = 29%Z).
Proof.
  unfold warranty_end_date, datetime.replace_year, datetime.is_date.
  intros [Hy [Hm Hd]] ->.
  destruct (now 2%nat) as [y m dd]. cbn [datetime.year datetime.month
    datetime.day] in *.
  assert (Hleap : datetime.is_leap y = true ->
                  datetime.is_leap (y + 2) = false).
  { unfold datetime.is_leap. intros H.
    apply andb_true_iff in H as [H _]. apply Z.eqb_eq in H.
    apply andb_false_iff. left. apply Z.eqb_neq.
    pose proof (Z.div_mod y 4 ltac:(lia)).
    pose proof (Z.div_mod (y + 2) 4 ltac:(lia)).
    pose proof (Z.mod_pos_bound (y + 2) 4 ltac:(lia)). lia. }
  assert (Hdim : forall yy, m <> 2%Z ->
                 datetime.days_in_month yy m = datetime.days_in_month y m).
  { intros yy Hm2. unfold datetime.days_in_month.
    apply Z.eqb_neq in Hm2. now rewrite Hm2. }
  assert (Hfeb : forall yy,
             (28 <= datetime.days_in_month yy 2 <= 29)%Z
             /\ (datetime.days_in_month yy 2 = 29%Z
                 <-> datetime.is_leap yy = true)).
  { intros yy. unfold datetime.days_in_month. cbn [Z.eqb].
    destruct (datetime.is_leap yy); split; try lia; split;
      intros; try reflexivity; try discriminate; lia. }
  destruct ((1 <=? y + 2) && (y + 2 <=? 9999))%Z eqn:E1; cbn [negb].
  2:{ split; [discriminate|]. intros [H _]. exfalso.
      apply andb_false_iff in E1 as [E1|E1];
        [apply Z.leb_gt in E1|apply Z.leb_gt in E1]; lia. }
  apply andb_true_iff in E1 as [_ E1]. apply Z.leb_le in E1.
  replace ((1 <=? m) && (m <=? 12))%Z with true
    by (symmetry; apply andb_true_iff; split; apply Z.leb_le; lia).
  cbn [negb].
  destruct ((1 <=? dd) && (dd <=? datetime.days_in_month (y + 2) m))%Z
    eqn:E2; cbn [negb is_ok].
  - split; [intros _|reflexivity]. split; [lia|].
    intros [-> ->]. apply andb_true_iff in E2 as [_ E2].
    apply Z.leb_le in E2.
    destruct (Hfeb y) as [_ [Hy29 _]]. destruct (Hfeb (y + 2)%Z) as [Hb [Hl _]].
    assert (datetime.days_in_month y 2 = 29%Z) by (destruct (Hfeb y); lia).
    specialize (Hleap (Hy29 H)).
    assert (datetime.days_in_month (y + 2) 2 = 29%Z) by lia.
    rewrite (Hl H0) in Hleap. discriminate.
  - split; [discriminate|]. intros [_ Hn]. exfalso.
    apply andb_false_iff in E2 as [E2|E2]; apply Z.leb_gt in E2; [lia|].
    destruct (Z.eq_dec m 2) as [->|Hm2].
    + destruct (Hfeb y) as [Hby _]. destruct (Hfeb (y + 2)%Z) as [Hb _].
      assert (dd <> 29%Z) by (intros ->; now apply Hn). lia.
    + rewrite (Hdim (y + 2)%Z Hm2) in E2. lia.
Qed.

(** C5, as stated, fails: a QR code that is only [generated], never
    verified, is installed. *)
Lemma unverified_code_is_installed :
  collection.find_one (by_id_qr (str_of "q1")) (qr_codes sample.generated_db)
  = Some (sample.qr "q1" "QRTF_B1_000001_4c554774" "generated")
  /\ create_installation (str_of "i1") sample.march_15 sample.admin sample.install_q1
       sample.generated_db
     = (Database [Batch.Doc (str_of "B1") None None]
          [QRCode.set_installed (str_of "u1")
             (sample.qr "q1" "QRTF_B1_000001_4c554774" "generated")]
          [installation_doc (str_of "i1") sample.admin sample.install_q1
             (str_of "q1") (str_of "z1") (str_of "Section A-1")],
        Ok (installation_doc (str_of "i1") sample.admin sample.install_q1
              (str_of "q1") (str_of "z1") (str_of "Section A-1"))).
Proof. vm_compute. split; reflexivity. Qed.

(** C5, amended: [create_installation] succeeds exactly when the caller
    may create installations, the three required fields are present, the
    coordinates (if any) are in range, the referenced QR code is stored,
    whatever its status, no installation references it, the warranty end
    date can be computed, and the new object identifier is free; a
    request that is rejected creates no installation and changes
    nothing. The warranty end date of a request made on the date [now 2]
    (the year read again as [now 3], the same year) fails to exist
    exactly on 29 February and in the years from 9998 on. *)
Theorem create_installation_precondition :
  (forall (oid : pystr) (now : nat -> datetime.t) (u : user)
          (r : installation_data) (d : database),
      is_ok (snd (create_installation oid now u r d)) = true
      <-> security.check_permissions (role u) (str_of "installations")
          = true
          /\ exists qid z t,
               truthy (qrCodeId r) = Some qid
               /\ truthy (zoneId r) = Some z
               /\ truthy (trackSection r) = Some t
               /\ coordinates_ok r = Ok true
               /\ (exists q,
                     collection.find_one (by_id_qr qid) (qr_codes d)
                     = Some q)
               /\ collection.find_one (by_qrCodeId qid)
                    (fitting_installations d) = None
               /\ is_ok (warranty_end_date now) = true
               /\ collection.find_one (by_id_installation oid)
                    (fitting_installations d) = None)
  /\ (forall (oid : pystr) (now : nat -> datetime.t) (u : user)
             (r : installation_data) (d : database) (e : exn),
        snd (create_installation oid now u r d) = Raise e ->
        fst (create_installation oid now u r d) = d)
  /\ (forall now : nat -> datetime.t,
        datetime.is_date (now 2%nat) ->
        datetime.year (now 3%nat) = datetime.year (now 2%nat) ->
        is_ok (warranty_end_date now) = true
        <-> (datetime.year (now 2%nat) <= 9997)%Z
            /\ ~ (datetime.month (now 2%nat) = 2%Z
                  /\ datetime.day (now 2%nat) = 29%Z)).
Proof.
  split; [|split; [exact create_installation_raise
                  |exact warranty_end_date_exists]].
  intros oid now u r d. rewrite create_installation_unfold. split.
  - destruct (security.check_permissions _ _); [|discriminate].
    cbn [negb].
    destruct (truthy (qrCodeId r)) as [qid|]; [|discriminate].
    destruct (truthy (zoneId r)) as [z|]; [|discriminate].
    destruct (truthy (trackSection r)) as [t|]; [|discriminate].
    destruct (coordinates_ok r) as [[|]|e]; try discriminate.
    destruct (collection.find_one (by_id_qr qid) _) as [q|] eqn:Hq;
      [|discriminate].
    destruct (collection.find_one (by_qrCodeId qid) _) as [x|] eqn:Hx;
      [discriminate|].
    destruct (warranty_end_date now) as [w|e]; [|discriminate].
    destruct (collection.insert_one _ _ _) as [c|e] eqn:Hi;
      [|discriminate].
    intros _. split; [reflexivity|]. exists qid, z, t.
    do 4 (split; [reflexivity|]). split; [now exists q|].
    split; [exact Hx|]. split; [reflexivity|].
    apply insert_one_ok in Hi as [_ Hfree].
    apply find_one_none. intros x Hin. apply eqb_neq. intros E.
    apply (Hfree Installation._id x); [now left|exact Hin|].
    now rewrite E.
  - intros [-> [qid [z [t [-> [-> [-> [-> [[q ->] [Hx [Hw Hi]]]]]]]]]]].
    cbn [negb]. rewrite Hx.
    destruct (warranty_end_date now) as [w|e]; [|discriminate].
    rewrite insert_installation_free; [reflexivity|exact Hx|exact Hi].
Qed.

Lemma create_installation_precondition_witness :
  is_ok (snd (create_installation (str_of "i1") sample.march_15 sample.admin
                sample.install_q1 sample.generated_db)) = true
  /\ fst (create_installation (str_of "i1") sample.march_15 sample.admin
            sample.install_q1 sample.retired_db) = sample.retired_db.
Proof.
  split.
  - apply (proj1 create_installation_precondition).
    split; [vm_compute; reflexivity|].
    exists (str_of "q1"), (str_of "z1"), (str_of "Section A-1").
    do 4 (split; [vm_compute; reflexivity|]).
    split; [|split; [|split]; vm_compute; reflexivity].
    exists (sample.qr "q1" "QRTF_B1_000001_4c554774" "generated").
    vm_compute; reflexivity.
  - apply (proj1 (proj2 create_installation_precondition))
      with (e := already_installed).
    vm_compute; reflexivity.
Defined.

Lemma filter_find_none (A : Type) (p : A -> bool) (l : list A) :
  find p l = None -> filter p l = [].
Proof.
  induction l as [|a l IH]; simpl; [reflexivity|].
  destruct (p a); [discriminate|exact IH].
Qed.

(** What a successful [create_installation] has done. *)
Lemma create_installation_ok
    (oid : pystr) (now : nat -> datetime.t) (u : user)
    (r : installation_data) (d : database) :
  is_ok (snd (create_installation oid now u r d)) = true ->
  exists qid z t q,
    truthy (qrCodeId r) = Some qid
    /\ truthy (zoneId r) = Some z
    /\ truthy (trackSection r) = Some t
    /\ coordinates_ok r = Ok true
    /\ security.check_permissions (role u) (str_of "installations") = true
    /\ collection.find_one (by_id_qr qid) (qr_codes d) = Some q
    /\ collection.find_one (by_qrCodeId qid) (fitting_installations d)
       = None
    /\ create_installation oid now u r d
       = (Database (fitting_batches d)
            (collection.update_one (by_id_qr qid)
               (QRCode.set_installed (userId u)) (qr_codes d))
            (fitting_installations d ++ [installation_doc oid u r qid z t]),
          Ok (installation_doc oid u r qid z t)).
Proof.
  rewrite create_installation_unfold.
  destruct (security.check_permissions _ _); [|discriminate]. cbn [negb].
  destruct (truthy (qrCodeId r)) as [qid|]; [|discriminate].
  destruct (truthy (zoneId r)) as [z|]; [|discriminate].
  destruct (truthy (trackSection r)) as [t|]; [|discriminate].
  destruct (coordinates_ok r) as [[|]|e]; try discriminate.
  destruct (collection.find_one (by_id_qr qid) _) as [q|] eqn:Hq;
    [|discriminate].
  destruct (collection.find_one (by_qrCodeId qid) _) as [x|] eqn:Hx;
    [discriminate|].
  destruct (warranty_end_date now) as [w|e]; [|discriminate].
  destruct (collection.insert_one _ _ _) as [c|e] eqn:Hi; [|discriminate].
  intros _. apply insert_one_ok in Hi as [-> _].
  exists qid, z, t, q.
  do 7 (split; [first [reflexivity|assumption]|]). reflexivity.
Qed.

(** C6: once [create_installation] has succeeded for a QR code, every
    further call for the same [qrCodeId] raises and leaves the database
    as it is; the same request again is refused with the error
    "QR code is already installed"; and the collection holds exactly one
    installation for that QR code, the one the first call returned. *)
Theorem create_installation_once
    (oid : pystr) (now : nat -> datetime.t) (u : user)
    (r : installation_data) (d : database) :
  is_ok (snd (create_installation oid now u r d)) = true ->
  let d1 := fst (create_installation oid now u r d) in
  exists qid x,
    truthy (qrCodeId r) = Some qid
    /\ snd (create_installation oid now u r d) = Ok x
    /\ filter (by_qrCodeId qid) (fitting_installations d1) = [x]
    /\ (forall oid2 now2, create_installation oid2 now2 u r d1
                     = (d1, Raise already_installed))
    /\ (forall oid2 now2 u2 r2,
          truthy (qrCodeId r2) = Some qid ->
          exists e, create_installation oid2 now2 u2 r2 d1 = (d1, Raise e)).
Proof.
  intros Hok.
  destruct (create_installation_ok _ _ _ _ _ Hok)
    as [qid [z [t [q [Hqid [Hz [Ht [Hc [Hp [Hq [Hx E]]]]]]]]]]].
  rewrite E. cbn [fst snd].
  set (x := installation_doc oid u r qid z t).
  set (d1 := Database _ _ _).
  assert (Hx1 : collection.find_one (by_qrCodeId qid)
                  (fitting_installations d1) = Some x).
  { unfold d1. cbn [fitting_installations].
    apply find_one_app_new; [exact Hx|]. apply eqb_refl. }
  assert (Hq1 : exists q1, collection.find_one (by_id_qr qid) (qr_codes d1)
                           = Some q1).
  { unfold d1. cbn [qr_codes].
    rewrite find_one_update_one by (intros; reflexivity).
    rewrite Hq. now eexists. }
  exists qid, x. split; [exact Hqid|]. split; [reflexivity|]. split.
  { unfold d1. cbn [fitting_installations]. rewrite filter_app.
    rewrite (filter_find_none _ _ Hx). simpl.
    unfold by_qrCodeId. cbn [x installation_doc Installation.qrCodeId].
    now rewrite eqb_refl. }
  split.
  - intros oid2 now2. rewrite create_installation_unfold.
    rewrite Hp, Hqid, Hz, Ht, Hc. cbn [negb].
    destruct Hq1 as [q1 ->]. now rewrite Hx1.
  - intros oid2 now2 u2 r2 Hr2. rewrite create_installation_unfold, Hr2, Hx1.
    destruct Hq1 as [q1 ->].
    repeat match goal with
           | |- context [if ?c then _ else _] => destruct c
           | |- context [match ?x with _ => _ end] => destruct x
           end; eexists; reflexivity.
Qed.

Lemma create_installation_once_witness :
  let d1 := fst (create_installation (str_of "i1") sample.march_15 sample.admin
                   sample.install_q1 sample.generated_db) in
  exists qid x,
    truthy (qrCodeId sample.install_q1) = Some qid
    /\ snd (create_installation (str_of "i1") sample.march_15 sample.admin
              sample.install_q1 sample.generated_db) = Ok x
    /\ filter (by_qrCodeId qid) (fitting_installations d1) = [x]
    /\ (forall oid2 now2, create_installation oid2 now2 sample.admin
                       sample.install_q1 d1
                     = (d1, Raise already_installed))
    /\ (forall oid2 now2 u2 r2,
          truthy (qrCodeId r2) = Some qid ->
          exists e, create_installation oid2 now2 u2 r2 d1 = (d1, Raise e)).
Proof.
  apply (@create_installation_once (str_of "i1") sample.march_15 sample.admin
           sample.install_q1 sample.generated_db).
  vm_compute. reflexivity.
Defined.

End Install.

(** ** Batch generation *)

Section Generation.

Lemma insert_generated_step (C : Type) (code : nat -> result C)
    (doc : nat -> C -> QRCode.doc) (i : nat) (d : database) :
  insert_generated code doc i d
  = match code i with
    | Raise e => (d, Raise e)
    | Ok c =>
        match
          collection.insert_one qr_codes_unique (doc i c) (qr_codes d)
        with
        | Ok l =>
            (Database (fitting_batches d) l (fitting_installations d),
             Ok (doc i c))
        | Raise e => (d, Raise e)
        end
    end.
Proof.
  unfold insert_generated, bind, lift, insert_qr_code, ret.
  destruct (code i) as [c|e]; [|reflexivity].
  destruct (collection.insert_one _ _ _); reflexivity.
Qed.

Lemma for_range_ext (A : Type) (f g : nat -> M A) :
  (forall i d, f i d = g i d) ->
  forall n start d, for_range f start n d = for_range g start n d.
Proof.
  intros H. induction n as [|n IH]; intros start d; [reflexivity|].
  cbn [for_range]. unfold bind. rewrite H.
  destruct (g start d) as [d1 [x|e]]; [|reflexivity]. now rewrite IH.
Qed.

(** The loop body of the handlers is [insert_generated]. *)
Lemma loop_body (E : env) (b : pystr) (doc : nat -> pystr * pystr -> QRCode.doc)
    (i : nat) (d : database) :
  (qr_data <-
     lift (security.generate_qr_code_data (clock E i) b (Z.of_nat i + 1)) ;;
   img_str <- lift (render E qr_data) ;;
   insert_qr_code (doc i (qr_data, img_str)) ;;;
   ret (doc i (qr_data, img_str))) d
  = insert_generated (code_at E b) doc i d.
Proof.
  unfold insert_generated, code_at, bind, lift.
  destruct (security.generate_qr_code_data _ _ _) as [c|e]; [|reflexivity].
  destruct (render E c) as [img|e]; reflexivity.
Qed.

Lemma out_of_range_raise (v : json.value) (e : exn) :
  qr_codes.out_of_range v = Raise e -> v = json.Other /\ e = TypeError.
Proof.
  unfold qr_codes.out_of_range.
  destruct v as [z|[q|n|]|]; cbn [json.le_int json.gt_int];
    try (destruct (_ <=? _)%Z); try (destruct (Qle_bool _ _));
    try destruct n; try discriminate.
  intros H. now injection H as <-.
Qed.

Lemma out_of_range_int (q : Z) :
  qr_codes.out_of_range (json.Int q) = Ok ((q <=? 0) || (q >? 10000))%Z.
Proof.
  unfold qr_codes.out_of_range. cbn [json.le_int json.gt_int].
  destruct (q <=? 0)%Z; reflexivity.
Qed.

Lemma for_range_S (A : Type) (body : nat -> M A) (start n : nat)
    (d : database) :
  for_range body start (S n) d
  = match body start d with
    | (d1, Ok x) =>
        match for_range body (S start) n d1 with
        | (d2, Ok xs) => (d2, Ok (x :: xs))
        | (d2, Raise e) => (d2, Raise e)
        end
    | (d1, Raise e) => (d1, Raise e)
    end.
Proof.
  cbn [for_range]. unfold bind, ret.
  destruct (body start d) as [d1 [x|e]]; [|reflexivity].
  destruct (for_range body (S start) n d1) as [d2 [xs|e]]; reflexivity.
Qed.

(** What the loop leaves behind: the other collections untouched, code
    strings still unique, and on success one document per index,
    appended in order. *)
Lemma for_range_insert_generated (C : Type) (code : nat -> result C)
    (doc : nat -> C -> QRCode.doc) (n start : nat) (d : database) :
  let r := for_range (insert_generated code doc) start n d in
  fitting_batches (fst r) = fitting_batches d
  /\ fitting_installations (fst r) = fitting_installations d
  /\ (unique_codes d -> unique_codes (fst r))
  /\ match snd r with
     | Ok docs =>
         qr_codes (fst r) = qr_codes d ++ docs
         /\ Forall2 (fun i x => exists c, code i = Ok c /\ x = doc i c)
              (seq start n) docs
     | Raise e => e = DuplicateKeyError \/ exists i, code i = Raise e
     end.
Proof.
  revert start d. induction n as [|n IH]; intros start d; cbn zeta.
  - cbn. rewrite app_nil_r. repeat split; auto.
  - rewrite for_range_S, insert_generated_step.
    destruct (code start) as [c|e] eqn:Ec.
    2:{ cbn. split; [reflexivity|]. split; [reflexivity|].
        split; [auto|]. right. now exists start. }
    destruct (collection.insert_one _ _ _) as [l|e] eqn:Ei.
    2:{ cbn. split; [reflexivity|]. split; [reflexivity|].
        split; [auto|]. left. now apply insert_one_raise in Ei. }
    set (d1 := Database (fitting_batches d) l (fitting_installations d)).
    specialize (IH (S start) d1). cbn zeta in IH.
    destruct (for_range (insert_generated code doc) (S start) n d1)
      as [d2 [docs|e]]; cbn [fst snd] in *;
      destruct IH as [Hb [Hi [Hu Hr]]].
    + destruct Hr as [Hq Hf].
      split; [exact Hb|]. split; [exact Hi|]. split.
      * intros Hd. apply Hu. unfold unique_codes, d1. cbn [qr_codes].
        apply (@insert_one_NoDup _ qr_codes_unique QRCode.qrCode
                 (doc start c) (qr_codes d) l);
          [right; now left|exact Ei|exact Hd].
      * apply insert_one_ok in Ei as [-> _]. split.
        -- rewrite Hq. unfold d1. cbn [qr_codes].
           now rewrite <- app_assoc.
        -- cbn [seq]. constructor; [now exists c|exact Hf].
    + split; [exact Hb|]. split; [exact Hi|]. split; [|exact Hr].
      intros Hd. apply Hu. unfold unique_codes, d1. cbn [qr_codes].
        apply (@insert_one_NoDup _ qr_codes_unique QRCode.qrCode
                 (doc start c) (qr_codes d) l);
          [right; now left|exact Ei|exact Hd].
Qed.

(** [generate_batch_qr_codes], check by check. *)
Lemma generate_batch_qr_codes_unfold
    (E : env) (u : user) (r : qr_codes.batch_data) (d : database) :
  qr_codes.generate_batch_qr_codes E u r d
  = if negb (security.check_permissions (role u) (str_of "qr_codes"))
    then (d, Raise (HTTPException 403 (str_of "Insufficient permissions")))
    else
      match truthy (qr_codes.fittingBatchId r) with
      | None =>
          (d, Raise (HTTPException 400
                       (str_of "Fitting batch ID is required")))
      | Some b =>
          match qr_codes.out_of_range (qr_codes.requested r) with
          | Raise _ => (d, Raise qr_codes.failed_to_generate)
          | Ok true => (d, Raise qr_codes.quantity_error)
          | Ok false =>
            match
              collection.find_one (by_id_batch b) (fitting_batches d)
            with
            | None =>
                (d, Raise (HTTPException 404
                             (str_of "Fitting batch not found")))
            | Some _ =>
                match json.index (qr_codes.requested r) with
                | Raise _ => (d, Raise qr_codes.failed_to_generate)
                | Ok count =>
                match
                  for_range
                    (insert_generated (code_at E b) (qr_codes.qr_doc E u r b))
                    0 (Z.to_nat count) d
                with
                | (d', Ok docs) =>
                    (with_batches
                       (collection.update_one (by_id_batch b)
                          (set_generated count)) d',
                     Ok docs)
                | (d', Raise e) =>
                    (d', Raise (as_http
                                  (str_of "Failed to generate QR codes") e))
                end
                end
            end
          end
      end.
Proof.
  unfold qr_codes.generate_batch_qr_codes, guarded, bind, raise_if, raise,
    get_db, update_batch, lift.
  destruct (negb (security.check_permissions _ _)); [reflexivity|].
  destruct (truthy (qr_codes.fittingBatchId r)) as [b|]; [|reflexivity].
  destruct (qr_codes.out_of_range _) as [[|]|e] eqn:Eo; [reflexivity| |].
  2:{ apply out_of_range_raise in Eo as [_ ->]. reflexivity. }
  unfold ret at 1 2. cbn beta iota.
  destruct (collection.find_one _ _); [|reflexivity].
  destruct (json.index _) as [count|e] eqn:Ei.
  2:{ destruct (qr_codes.requested r); cbn in Ei; try discriminate;
        injection Ei as <-; reflexivity. }
  rewrite (for_range_ext _
             (insert_generated (code_at E b) (qr_codes.qr_doc E u r b))
             (loop_body E b (qr_codes.qr_doc E u r b))).
  destruct (for_range _ _ _ d) as [d' [docs|e]]; reflexivity.
Qed.

(** [generate_batch_qr_codes] on an [int] quantity. *)
Lemma generate_batch_qr_codes_int
    (E : env) (u : user) (r : qr_codes.batch_data) (d : database) (q : Z) :
  qr_codes.requested r = json.Int q ->
  qr_codes.generate_batch_qr_codes E u r d
  = if negb (security.check_permissions (role u) (str_of "qr_codes"))
    then (d, Raise (HTTPException 403 (str_of "Insufficient permissions")))
    else
      match truthy (qr_codes.fittingBatchId r) with
      | None =>
          (d, Raise (HTTPException 400
                       (str_of "Fitting batch ID is required")))
      | Some b =>
          if ((q <=? 0) || (q >? 10000))%Z
          then (d, Raise qr_codes.quantity_error)
          else
            match
              collection.find_one (by_id_batch b) (fitting_batches d)
            with
            | None =>
                (d, Raise (HTTPException 404
                             (str_of "Fitting batch not found")))
            | Some _ =>
                match
                  for_range
                    (insert_generated (code_at E b) (qr_codes.qr_doc E u r b))
                    0 (Z.to_nat q) d
                with
                | (d', Ok docs) =>
                    (with_batches
                       (collection.update_one (by_id_batch b)
                          (set_generated q)) d',
                     Ok docs)
                | (d', Raise e) =>
                    (d', Raise (as_http
                                  (str_of "Failed to generate QR codes") e))
                end
            end
      end.
Proof.
  intros Hq. rewrite generate_batch_qr_codes_unfold, Hq, out_of_range_int.
  cbn [json.index]. reflexivity.
Qed.

(** A quantity that is not an [int] is never generated: the answer is an
    error and nothing is written. *)
Lemma generate_batch_qr_codes_not_int
    (E : env) (u : user) (r : qr_codes.batch_data) (d : database) :
  (forall q, qr_codes.requested r <> json.Int q) ->
  fst (qr_codes.generate_batch_qr_codes E u r d) = d
  /\ exists c m,
       snd (qr_codes.generate_batch_qr_codes E u r d)
       = Raise (HTTPException c m).
Proof.
  intros Hq. rewrite generate_batch_qr_codes_unfold.
  destruct (negb (security.check_permissions _ _));
    [split; [reflexivity|do 2 eexists; reflexivity]|].
  destruct (truthy (qr_codes.fittingBatchId r)) as [b|];
    [|split; [reflexivity|do 2 eexists; reflexivity]].
  destruct (qr_codes.out_of_range _) as [[|]|e];
    [split; [reflexivity|do 2 eexists; reflexivity]|
    |split; [reflexivity|do 2 eexists; reflexivity]].
  destruct (collection.find_one _ _);
    [|split; [reflexivity|do 2 eexists; reflexivity]].
  destruct (qr_codes.requested r) as [q| |]; [now destruct (Hq q)| |];
    cbn [json.index]; (split; [reflexivity|do 2 eexists; reflexivity]).
Qed.

(** [generate_qr_codes_for_batch], check by check. *)
Lemma generate_qr_codes_for_batch_unfold
    (E : env) (b : pystr) (q : Z) (m o : option pystr) (d : database) :
  qr_service.generate_qr_codes_for_batch E b q m o d
  = match collection.find_one (by_id_batch b) (fitting_batches d) with
    | None => (d, Raise (ValueError (str_of "Fitting batch not found")))
    | Some _ =>
        match
          for_range
            (insert_generated (code_at E b) (qr_service.qr_code_doc E b m o))
            0 (Z.to_nat q) d
        with
        | (d', Ok docs) =>
            (with_batches
               (collection.update_one (by_id_batch b) (set_count q)) d',
             Ok docs)
        | (d', Raise e) => (d', Raise e)
        end
    end.
Proof.
  unfold qr_service.generate_qr_codes_for_batch, bind, raise, get_db,
    update_batch.
  destruct (collection.find_one _ _); [|reflexivity].
  rewrite (for_range_ext _
             (insert_generated (code_at E b) (qr_service.qr_code_doc E b m o))
             (loop_body E b (qr_service.qr_code_doc E b m o))).
  destruct (for_range _ _ _ d) as [d' [docs|e]]; reflexivity.
Qed.

(** The code string cannot be encoded, or its picture cannot be made. *)
Lemma code_at_raise (E : env) (b : pystr) (i : nat) (e : exn) :
  code_at E b i = Raise e ->
  e = UnicodeEncodeError \/ e = DataOverflowError.
Proof.
  unfold code_at, security.generate_qr_code_data, render.
  destruct (encode _); [|intros H; injection H as <-; now left].
  destruct (image E _); [discriminate|].
  intros H. injection H as <-. now right.
Qed.

Lemma code_at_ok (E : env) (b : pystr) (i : nat) (c : pystr * pystr) :
  code_at E b i = Ok c
  <-> security.generate_qr_code_data (clock E i) b (Z.of_nat i + 1)
      = Ok (fst c)
      /\ image E (fst c) = Some (snd c).
Proof.
  unfold code_at, render. split.
  - destruct (security.generate_qr_code_data _ _ _) as [s|e]; [|discriminate].
    destruct (image E s) as [img|] eqn:Hi; [|discriminate].
    intros H. injection H as <-. now split.
  - destruct c as [s img]. cbn [fst snd]. intros [-> ->]. reflexivity.
Qed.

(** The documents of a successful loop are numbered from [start + 1]
    and belong to the batch. *)
Lemma generated_fields (C : Type) (code : nat -> result C)
    (doc : nat -> C -> QRCode.doc) (b : pystr) (n start : nat)
    (docs : list QRCode.doc) :
  (forall i c, QRCode.sequenceNumber (doc i c) = (Z.of_nat i + 1)%Z) ->
  (forall i c, QRCode.fittingBatchId (doc i c) = b) ->
  Forall2 (fun i x => exists c, code i = Ok c /\ x = doc i c)
    (seq start n) docs ->
  map QRCode.sequenceNumber docs = map Z.of_nat (seq (S start) n)
  /\ filter (fun q => Py.eqb (QRCode.fittingBatchId q) b) docs = docs.
Proof.
  intros Hs Hb. revert start docs.
  induction n as [|n IH]; intros start docs H; cbn [seq] in H;
    inversion H as [|i x l l' [c [_ Hx]] Hl]; subst; [now split|].
  destruct (IH _ _ Hl) as [IHs IHf]. cbn [map filter seq]. split.
  - rewrite Hs, IHs. f_equal. lia.
  - now rewrite Hb, eqb_refl, IHf.
Qed.

Lemma batch_sequence_app (b : pystr) (d d' : database)
    (docs : list QRCode.doc) (l : list Z) :
  qr_codes d' = qr_codes d ++ docs ->
  map QRCode.sequenceNumber docs = l ->
  filter (fun q => Py.eqb (QRCode.fittingBatchId q) b) docs = docs ->
  batch_sequence b d' = batch_sequence b d ++ l.
Proof.
  intros Hq Hs Hf. unfold batch_sequence.
  now rewrite Hq, filter_app, map_app, Hf, Hs.
Qed.

Lemma generate_cases
    (E : env) (u : user) (r : qr_codes.batch_data) (d : database) :
  (exists q, qr_codes.requested r = json.Int q)
  \/ ((forall q, qr_codes.requested r <> json.Int q)
      /\ fst (qr_codes.generate_batch_qr_codes E u r d) = d).
Proof.
  destruct (qr_codes.requested r) as [q|f|] eqn:H; [left; eauto| |];
    right; (split; [discriminate|]);
    apply generate_batch_qr_codes_not_int; rewrite H; discriminate.
Qed.

(** A generation that succeeds was asked for an [int] quantity. *)
Lemma generate_ok_int
    (E : env) (u : user) (r : qr_codes.batch_data) (d : database) :
  is_ok (snd (qr_codes.generate_batch_qr_codes E u r d)) = true ->
  exists q, qr_codes.requested r = json.Int q.
Proof.
  intros Hok. destruct (qr_codes.requested r) as [q|f|] eqn:H; [eauto| |];
    exfalso;
    (destruct (@generate_batch_qr_codes_not_int E u r d) as [_ [c [m Hs]]];
     [rewrite H; discriminate|]); rewrite Hs in Hok; discriminate.
Qed.

(** C7, as stated, fails: a second invocation for a batch that holds the
    sequence numbers 1 and 2 adds a record numbered 1 again. *)
Lemma reinvocation_restarts_at_one :
  let first :=
    qr_codes.generate_batch_qr_codes (sample.at_time 1700000000 "a")
      sample.admin (sample.generate 2) sample.batch_db in
  let second :=
    qr_codes.generate_batch_qr_codes (sample.at_time 1700000060 "b")
      sample.admin (sample.generate 1) (fst first) in
  is_ok (snd first) = true
  /\ is_ok (snd second) = true
  /\ batch_sequence (str_of "B1") (fst first) = [1; 2]%Z
  /\ batch_sequence (str_of "B1") (fst second) = [1; 2; 1]%Z.
Proof. vm_compute. repeat split; reflexivity. Qed.

(** C7, amended: every successful invocation of batch generation, by the
    router or by the service, appends exactly [quantity] records to the
    batch, numbered 1 to [quantity] in order, whatever the batch holds
    already; so after the first invocation on a batch without codes the
    sequence numbers present are exactly 1 to [quantity], each once. *)
Theorem generation_numbers_from_one :
  (forall (E : env) (u : user) (r : qr_codes.batch_data) (d : database),
      is_ok (snd (qr_codes.generate_batch_qr_codes E u r d)) = true ->
      let d' := fst (qr_codes.generate_batch_qr_codes E u r d) in
      exists b q docs,
        truthy (qr_codes.fittingBatchId r) = Some b
        /\ qr_codes.requested r = json.Int q
        /\ snd (qr_codes.generate_batch_qr_codes E u r d) = Ok docs
        /\ qr_codes d' = qr_codes d ++ docs
        /\ map QRCode.sequenceNumber docs = one_to q
        /\ batch_sequence b d' = batch_sequence b d ++ one_to q)
  /\ (forall (E : env) (b : pystr) (q : Z) (m o : option pystr)
             (d : database),
        is_ok (snd (qr_service.generate_qr_codes_for_batch E b q m o d))
        = true ->
        let d' := fst (qr_service.generate_qr_codes_for_batch E b q m o d) in
        exists docs,
          snd (qr_service.generate_qr_codes_for_batch E b q m o d) = Ok docs
          /\ qr_codes d' = qr_codes d ++ docs
          /\ map QRCode.sequenceNumber docs = one_to q
          /\ batch_sequence b d' = batch_sequence b d ++ one_to q).
Proof.
  split.
  - intros E u r d Hok. destruct (generate_ok_int _ _ _ _ Hok) as [q Hr].
    revert Hok. rewrite (generate_batch_qr_codes_int _ _ _ _ Hr).
    destruct (negb _); [discriminate|].
    destruct (truthy (qr_codes.fittingBatchId r)) as [b|]; [|discriminate].
    destruct (_ || _)%bool; [discriminate|].
    destruct (collection.find_one _ _); [|discriminate].
    pose proof (for_range_insert_generated (code_at E b)
                  (qr_codes.qr_doc E u r b) (Z.to_nat q) 0 d) as H.
    cbn zeta in H.
    destruct (for_range _ _ _ d) as [d' [docs|e]]; [|discriminate].
    intros _. cbn [fst snd] in *. destruct H as [_ [_ [_ [Hq Hf]]]].
    apply (@generated_fields _ _ _ b) in Hf as [Hs Hb];
      [|reflexivity|reflexivity].
    exists b, q, docs. unfold with_batches. cbn [qr_codes].
    repeat split; try assumption.
    now apply batch_sequence_app with (docs := docs).
  - intros E b q m o d. rewrite generate_qr_codes_for_batch_unfold.
    destruct (collection.find_one _ _); [|discriminate].
    pose proof (for_range_insert_generated (code_at E b)
                  (qr_service.qr_code_doc E b m o) (Z.to_nat q) 0 d) as H.
    cbn zeta in H.
    destruct (for_range _ _ _ d) as [d' [docs|e]]; [|discriminate].
    intros _. cbn [fst snd] in *. destruct H as [_ [_ [_ [Hq Hf]]]].
    apply (@generated_fields _ _ _ b) in Hf as [Hs Hb];
      [|reflexivity|reflexivity].
    exists docs. unfold with_batches. cbn [qr_codes].
    repeat split; try assumption.
    now apply batch_sequence_app with (docs := docs).
Qed.

Lemma generation_numbers_from_one_witness :
  let E := sample.at_time 1700000000 "a" in
  let d' :=
    fst (qr_codes.generate_batch_qr_codes E sample.admin (sample.generate 3)
           sample.batch_db) in
  exists b q docs,
    truthy (qr_codes.fittingBatchId (sample.generate 3)) = Some b
    /\ qr_codes.requested (sample.generate 3) = json.Int q
    /\ snd (qr_codes.generate_batch_qr_codes E sample.admin
              (sample.generate 3) sample.batch_db) = Ok docs
    /\ qr_codes d' = qr_codes sample.batch_db ++ docs
    /\ map QRCode.sequenceNumber docs = one_to q
    /\ batch_sequence b d' = batch_sequence b sample.batch_db ++ one_to q.
Proof.
  apply (proj1 generation_numbers_from_one
           (sample.at_time 1700000000 "a") sample.admin (sample.generate 3)
           sample.batch_db).
  vm_compute. reflexivity.
Defined.

Lemma Forall2_length_seq (A : Type) (P : nat -> A -> Prop)
    (start n : nat) (l : list A) :
  Forall2 P (seq start n) l -> length l = n.
Proof.
  intros H. apply Forall2_length in H. now rewrite length_seq in H.
Qed.

(** The loop, exactly: the documents of the iterations before the first
    one that fails are stored, in order; the loop succeeds when none
    fails; an iteration fails when its code cannot be made or its
    document clashes with a stored one on an indexed field. *)
Lemma for_range_insert_generated_exact (C : Type) (code : nat -> result C)
    (doc : nat -> C -> QRCode.doc) (n : nat) :
  forall (start : nat) (d : database),
    let r := for_range (insert_generated code doc) start n d in
    exists added,
      qr_codes (fst r) = qr_codes d ++ added
      /\ Forall2 (fun i x => exists c, code i = Ok c /\ x = doc i c)
           (seq start (length added)) added
      /\ match snd r with
         | Ok docs => docs = added /\ length added = n
         | Raise e =>
             (length added < n)%nat
             /\ (code (start + length added)%nat = Raise e
                 \/ exists c,
                      code (start + length added)%nat = Ok c
                      /\ e = DuplicateKeyError
                      /\ existsb
                           (collection.clashes qr_codes_unique
                              (doc (start + length added)%nat c))
                           (qr_codes d ++ added) = true)
         end.
Proof.
  induction n as [|n IH]; intros start d; cbn zeta.
  - exists []. cbn. rewrite List.app_nil_r. repeat split; constructor.
  - rewrite for_range_S, insert_generated_step.
    destruct (code start) as [c|e] eqn:Ec.
    2:{ exists []. cbn [fst snd length]. rewrite List.app_nil_r, Nat.add_0_r.
        split; [reflexivity|]. split; [constructor|].
        split; [lia|now left]. }
    unfold collection.insert_one.
    destruct (existsb _ (qr_codes d)) eqn:Ex.
    { exists []. cbn [fst snd length]. rewrite List.app_nil_r, Nat.add_0_r.
      split; [reflexivity|]. split; [constructor|].
      split; [lia|]. right. exists c. auto. }
    set (d1 := Database _ _ _).
    destruct (IH (S start) d1) as [added [Hq [Hf Hr]]].
    exists (doc start c :: added).
    assert (Hq' : qr_codes
                    (fst (for_range (insert_generated code doc) (S start) n d1))
                  = qr_codes d ++ doc start c :: added).
    { rewrite Hq. unfold d1. cbn [qr_codes]. now rewrite <- app_assoc. }
    destruct (for_range (insert_generated code doc) (S start) n d1)
      as [d2 [docs|e]]; cbn [fst snd] in *.
    + split; [exact Hq'|].
      split; [cbn [length seq]; constructor; [now exists c|exact Hf]|].
      destruct Hr as [-> Hn]. split; [reflexivity|]. cbn [length]. lia.
    + split; [exact Hq'|].
      split; [cbn [length seq]; constructor; [now exists c|exact Hf]|].
      destruct Hr as [Hn Hr]. cbn [length]. split; [lia|].
      replace (start + S (length added))%nat
        with (S start + length added)%nat by lia.
      destruct Hr as [Hr|[c' [Hc' [He Hx]]]]; [now left|].
      right. exists c'. split; [exact Hc'|]. split; [exact He|].
      unfold d1 in Hx. cbn [qr_codes] in Hx.
      now rewrite <- app_assoc in Hx.
Qed.

Lemma clashes_qr (x y : QRCode.doc) :
  collection.clashes qr_codes_unique x y = true ->
  QRCode._id y = QRCode._id x \/ QRCode.qrCode y = QRCode.qrCode x.
Proof.
  unfold collection.clashes, qr_codes_unique. cbn [existsb].
  rewrite orb_false_r, orb_true_iff.
  intros [H|H]; apply eqb_eq in H; auto.
Qed.

(** C9, as stated, fails twice: a quantity of one half is below 1, yet
    the request is not refused with the validation error but ends in the
    internal error 500; and a caller without the permission who asks for
    0 codes is refused with 403, not with a validation error. In both
    cases the request names a stored batch. *)
Lemma half_a_code_is_not_refused :
  let E := sample.at_time 1700000000 "a" in
  let half := json.Float (json.Finite (1 # 2)) in
  collection.find_one (by_id_batch (str_of "B1"))
    (fitting_batches sample.batch_db)
  = Some (Batch.Doc (str_of "B1") None None)
  /\ qr_codes.generate_batch_qr_codes E sample.admin
       (sample.generate_value half) sample.batch_db
     = (sample.batch_db, Raise qr_codes.failed_to_generate)
  /\ qr_codes.failed_to_generate <> qr_codes.quantity_error
  /\ qr_codes.generate_batch_qr_codes E
       (User (str_of "viewer") (str_of "u9")) (sample.generate 0)
       sample.batch_db
     = (sample.batch_db,
        Raise (HTTPException 403 (str_of "Insufficient permissions"))).
Proof.
  cbn zeta. split; [reflexivity|]. split; [vm_compute; reflexivity|].
  split; [discriminate|]. vm_compute. reflexivity.
Qed.

(** C9, amended: for a caller allowed to generate QR codes, a request
    that names a stored batch and an [int] quantity, the answer is the
    validation error "Quantity must be between 1 and 10000" exactly when
    the quantity is below 1 or above 10000, and then nothing is written.
    For a quantity from 1 to 10000 generation proceeds: the documents
    numbered 1, 2, ... are made and stored in order, and the answer is
    the [quantity] documents, all stored, unless an iteration fails,
    because its code string cannot be encoded, its picture cannot be
    made, or its document clashes with a stored one on [_id] or on
    [qrCode]; then the documents of the iterations before it stay stored
    and the answer is the internal error 500, never a validation
    error. *)
Theorem quantity_limit
    (E : env) (u : user) (r : qr_codes.batch_data) (d : database)
    (b : pystr) (x : Batch.doc) (q : Z) :
  security.check_permissions (role u) (str_of "qr_codes") = true ->
  truthy (qr_codes.fittingBatchId r) = Some b ->
  collection.find_one (by_id_batch b) (fitting_batches d) = Some x ->
  qr_codes.requested r = json.Int q ->
  let answer := qr_codes.generate_batch_qr_codes E u r d in
  (snd answer = Raise qr_codes.quantity_error <-> (q < 1 \/ q > 10000)%Z)
  /\ ((q < 1 \/ q > 10000)%Z -> fst answer = d)
  /\ ((1 <= q <= 10000)%Z ->
      exists docs,
        qr_codes (fst answer) = qr_codes d ++ docs
        /\ map QRCode.sequenceNumber docs
           = one_to (Z.of_nat (length docs))
        /\ Forall2
             (fun i y =>
                exists c, code_at E b i = Ok c
                          /\ y = qr_codes.qr_doc E u r b i c)
             (seq 0 (length docs)) docs
        /\ ((snd answer = Ok docs /\ Z.of_nat (length docs) = q)
            \/ (snd answer = Raise qr_codes.failed_to_generate
                /\ (Z.of_nat (length docs) < q)%Z
                /\ (code_at E b (length docs) = Raise UnicodeEncodeError
                    \/ code_at E b (length docs) = Raise DataOverflowError
                    \/ exists c y,
                         code_at E b (length docs) = Ok c
                         /\ In y (qr_codes d ++ docs)
                         /\ (QRCode._id y = object_id E (length docs)
                             \/ QRCode.qrCode y = fst c))))).
Proof.
  intros Hp Hb Hx Hr answer. subst answer.
  rewrite (generate_batch_qr_codes_int _ _ _ _ Hr), Hp, Hb, Hx. cbn [negb].
  destruct ((q <=? 0) || (q >? 10000))%Z eqn:Hq.
  - assert (Hout : (q < 1 \/ q > 10000)%Z).
    { apply orb_true_iff in Hq as [Hq|Hq].
      - apply Z.leb_le in Hq. lia.
      - rewrite Z.gtb_ltb in Hq. apply Z.ltb_lt in Hq. lia. }
    cbn [fst snd]. split; [tauto|]. split; [reflexivity|]. lia.
  - assert (Hin : (1 <= q <= 10000)%Z).
    { apply orb_false_iff in Hq as [Hq1 Hq2].
      apply Z.leb_gt in Hq1. rewrite Z.gtb_ltb in Hq2.
      apply Z.ltb_ge in Hq2. lia. }
    destruct (for_range_insert_generated_exact (code_at E b)
                (qr_codes.qr_doc E u r b) (Z.to_nat q) 0 d)
      as [docs [Hdocs [Hf Hres]]].
    assert (Hseq : map QRCode.sequenceNumber docs
                   = one_to (Z.of_nat (length docs))).
    { destruct (@generated_fields _ (code_at E b) (qr_codes.qr_doc E u r b)
                  b _ _ _ (fun _ _ => eq_refl) (fun _ _ => eq_refl) Hf)
        as [Hs _].
      rewrite Hs. unfold one_to. now rewrite Nat2Z.id. }
    destruct (for_range _ _ _ d) as [d' [l|e]]; cbn [fst snd] in *.
    + destruct Hres as [-> Hn].
      split; [split; [discriminate|lia]|]. split; [lia|].
      intros _. exists docs. unfold with_batches. cbn [qr_codes].
      split; [exact Hdocs|]. split; [exact Hseq|]. split; [exact Hf|].
      left. split; [reflexivity|]. lia.
    + destruct Hres as [Hn Hcause]. cbn [Nat.add] in Hcause.
      assert (He : as_http (str_of "Failed to generate QR codes") e
                   = qr_codes.failed_to_generate
                   /\ (code_at E b (length docs) = Raise UnicodeEncodeError
                       \/ code_at E b (length docs) = Raise DataOverflowError
                       \/ exists c y,
                            code_at E b (length docs) = Ok c
                            /\ In y (qr_codes d ++ docs)
                            /\ (QRCode._id y = object_id E (length docs)
                                \/ QRCode.qrCode y = fst c))).
      { destruct Hcause as [Hc|[c [Hc [-> Hcl]]]].
        - destruct (code_at_raise _ _ _ Hc) as [-> | ->];
            (split; [reflexivity|auto]).
        - split; [reflexivity|]. right. right.
          apply existsb_exists in Hcl as [y [Hy Hcl]].
          exists c, y. split; [exact Hc|]. split; [exact Hy|].
          exact (clashes_qr _ _ Hcl). }
      destruct He as [He Hwhy]. rewrite He.
      split; [split; [discriminate|lia]|]. split; [lia|].
      intros _. exists docs.
      split; [exact Hdocs|]. split; [exact Hseq|]. split; [exact Hf|].
      right. split; [reflexivity|]. split; [lia|exact Hwhy].
Qed.

Lemma quantity_limit_witness :
  let answer (q : Z) :=
    qr_codes.generate_batch_qr_codes (sample.at_time 1700000000 "a")
      sample.admin (sample.generate q) sample.batch_db in
  (snd (answer 10001%Z) = Raise qr_codes.quantity_error
   <-> (10001 < 1 \/ 10001 > 10000)%Z)
  /\ ((10001 < 1 \/ 10001 > 10000)%Z -> fst (answer 10001%Z) = sample.batch_db).
Proof.
  cbn zeta.
  pose proof (@quantity_limit (sample.at_time 1700000000 "a") sample.admin
                (sample.generate 10001) sample.batch_db (str_of "B1")
                (Batch.Doc (str_of "B1") None None) 10001%Z
                ltac:(vm_compute; reflexivity) eq_refl eq_refl eq_refl) as H.
  cbn zeta in H. split; [exact (proj1 H)|exact (proj1 (proj2 H))].
Defined.

(** Status updates and installations leave the code strings alone. *)
Lemma update_qr_codes_codes (i : pystr) (set : QRCode.doc -> QRCode.doc)
    (c : list QRCode.doc) :
  (forall q, QRCode.qrCode (set q) = QRCode.qrCode q) ->
  map QRCode.qrCode (collection.update_one (by_id_qr i) set c)
  = map QRCode.qrCode c.
Proof. intros H. now apply update_one_map. Qed.

Lemma step_unique_codes (d d' : database) :
  step d d' -> unique_codes d -> unique_codes d'.
Proof.
  intros Hstep Hd. destruct Hstep as [E u r d|E b q m o d|oid now u r d|i u r d].
  - destruct (generate_cases E u r d) as [[q Hr]|[_ Hsame]];
      [|now rewrite Hsame].
    rewrite (generate_batch_qr_codes_int _ _ _ _ Hr).
    destruct (negb _); [exact Hd|].
    destruct (truthy _) as [b|]; [|exact Hd].
    destruct (_ || _)%bool; [exact Hd|].
    destruct (collection.find_one _ _); [|exact Hd].
    pose proof (for_range_insert_generated (code_at E b)
                  (qr_codes.qr_doc E u r b) (Z.to_nat q) 0 d) as H.
    cbn zeta in H.
    destruct (for_range _ _ _ d) as [d' [docs|e]]; cbn [fst snd] in *;
      destruct H as [_ [_ [H _]]]; exact (H Hd).
  - rewrite generate_qr_codes_for_batch_unfold.
    destruct (collection.find_one _ _); [|exact Hd].
    pose proof (for_range_insert_generated (code_at E b)
                  (qr_service.qr_code_doc E b m o) (Z.to_nat q) 0 d) as H.
    cbn zeta in H.
    destruct (for_range _ _ _ d) as [d' [docs|e]]; cbn [fst snd] in *;
      destruct H as [_ [_ [H _]]]; exact (H Hd).
  - destruct (is_ok (snd (installations.create_installation oid now u r d)))
      eqn:Hok.
    + destruct (create_installation_ok _ _ _ _ _ Hok)
        as [qid [z [t [q [_ [_ [_ [_ [_ [_ [_ E]]]]]]]]]]].
      rewrite E. unfold unique_codes. cbn [fst qr_codes].
      rewrite update_qr_codes_codes by reflexivity. exact Hd.
    + destruct (snd (installations.create_installation oid now u r d))
        as [x|e] eqn:Hs; [discriminate|].
      now rewrite (create_installation_raise _ _ _ _ _ Hs).
  - rewrite update_installation_status_unfold.
    destruct (negb _); [exact Hd|].
    destruct (truthy _) as [s|]; [|exact Hd].
    destruct (negb _); [exact Hd|].
    destruct (collection.find_one _ _) as [x|]; [|exact Hd].
    unfold unique_codes, installations.updated. cbn [fst qr_codes].
    rewrite update_qr_codes_codes by reflexivity. exact Hd.
Qed.

(** C1: the code string determines the batch identifier and the sequence
    number, so two generations for distinct pairs never return the same
    string, whatever the clock; and along every run of requests that
    write to the database, from a database whose QR codes have pairwise
    distinct code strings, the stored code strings stay pairwise
    distinct. *)
Theorem code_strings_unique :
  (forall (t1 t2 : Z) (b1 b2 : pystr) (n1 n2 : Z) (c1 c2 : pystr),
      security.generate_qr_code_data t1 b1 n1 = Ok c1 ->
      security.generate_qr_code_data t2 b2 n2 = Ok c2 ->
      (b1, n1) <> (b2, n2) ->
      c1 <> c2)
  /\ (forall d d' : database,
        unique_codes d -> run d d' -> unique_codes d').
Proof.
  split.
  - intros t1 t2 b1 b2 n1 n2 c1 c2 H1 H2 Hne E. subst c2.
    destruct (generate_qr_code_data_inj _ _ _ _ _ _ H1 H2) as [-> ->].
    now apply Hne.
  - intros d d' Hd Hrun. induction Hrun as [d|d d1 d2 Hstep _ IH];
      [exact Hd|].
    apply IH. exact (step_unique_codes Hstep Hd).
Qed.

Lemma code_strings_unique_witness :
  str_of "QRTF_B1_000001_4c554774" <> str_of "QRTF_B1_000002_a1ad79da"
  /\ unique_codes
       (fst (qr_codes.generate_batch_qr_codes
               (sample.at_time 1700000000 "a") sample.admin
               (sample.generate 2) sample.generated_db)).
Proof.
  split.
  - apply (proj1 code_strings_unique 1700000000 1700000000
             (str_of "B1") (str_of "B1") 1 2)%Z.
    + vm_compute. reflexivity.
    + vm_compute. reflexivity.
    + intros E. discriminate E.
  - refine (proj2 code_strings_unique sample.generated_db _ _ _).
    + vm_compute. repeat constructor. intros [].
    + eapply run_step; [apply step_generate_batch|apply run_done].
Defined.

End Generation.

(** * Properties of the further functions *)

(** ** Permissions *)

Section Permissions.

Import security.

Lemma get_known (r : string) (l : list pystr) :
  get (str_of r) role_hierarchy = l ->
  mem (str_of "all") l = false ->
  forall p, check_permissions (str_of r) p = mem p l.
Proof.
  intros Hg Hall p. unfold check_permissions. now rewrite Hg, Hall.
Qed.

Ltac known_role H :=
  match type of H with
  | context [check_permissions (str_of ?r) ?p] =>
      let l := eval vm_compute in (get (str_of r) role_hierarchy) in
      rewrite (@get_known r l eq_refl eq_refl p) in H
  end.

Ltac each_permission H :=
  apply mem_In in H; vm_compute in H;
  repeat (destruct H as [H|H]; [subst; vm_compute; reflexivity|]);
  destruct H.

(** X1: the roles are nested: whatever an operator or an inspector may
    do, a manager may do; whatever a manager may do, an admin may do; and
    a super_admin may do everything. *)
Theorem roles_are_nested (p : pystr) :
  (check_permissions (str_of "operator") p = true ->
   check_permissions (str_of "manager") p = true)
  /\ (check_permissions (str_of "inspector") p = true ->
      check_permissions (str_of "manager") p = true)
  /\ (check_permissions (str_of "manager") p = true ->
      check_permissions (str_of "admin") p = true)
  /\ check_permissions (str_of "super_admin") p = true.
Proof.
  repeat split; try reflexivity; intros H; known_role H; each_permission H.
Qed.

Lemma roles_are_nested_witness :
  check_permissions (str_of "manager") (str_of "installations") = true
  /\ check_permissions (str_of "manager") (str_of "inspections") = true
  /\ check_permissions (str_of "admin") (str_of "reports") = true.
Proof.
  split; [|split].
  - apply (proj1 (roles_are_nested (str_of "installations"))).
    vm_compute. reflexivity.
  - apply (proj1 (proj2 (roles_are_nested (str_of "inspections")))).
    vm_compute. reflexivity.
  - apply (proj1 (proj2 (proj2 (roles_are_nested (str_of "reports"))))).
    vm_compute. reflexivity.
Defined.

Lemma get_cases (role : pystr) :
  (role = str_of "super_admin"
   /\ get role role_hierarchy = [str_of "all"])
  \/ (In role (tl known_roles)
      /\ mem (str_of "all") (get role role_hierarchy) = false
      /\ forall p, mem p (get role role_hierarchy) = true ->
                   check_permissions (str_of "admin") p = true)
  \/ (~ In role known_roles /\ get role role_hierarchy = []).
Proof.
  unfold role_hierarchy. cbn [get].
  destruct (Py.eqb role (str_of "super_admin")) eqn:E0.
  { left. apply eqb_eq in E0. now split. }
  destruct (Py.eqb role (str_of "admin")) eqn:E1.
  { right; left. apply eqb_eq in E1. subst role.
    split; [cbn; tauto|]. split; [reflexivity|].
    intros p H. rewrite (@get_known "admin" _ eq_refl eq_refl p).
    exact H. }
  destruct (Py.eqb role (str_of "manager")) eqn:E2.
  { right; left. apply eqb_eq in E2. subst role.
    split; [cbn; tauto|]. split; [reflexivity|].
    intros p H. each_permission H. }
  destruct (Py.eqb role (str_of "inspector")) eqn:E3.
  { right; left. apply eqb_eq in E3. subst role.
    split; [cbn; tauto|]. split; [reflexivity|].
    intros p H. each_permission H. }
  destruct (Py.eqb role (str_of "operator")) eqn:E4.
  { right; left. apply eqb_eq in E4. subst role.
    split; [cbn; tauto|]. split; [reflexivity|].
    intros p H. each_permission H. }
  right; right. split; [|reflexivity].
  apply eqb_neq in E0, E1, E2, E3, E4.
  unfold known_roles. cbn [map In].
  intros [H|[H|[H|[H|[H|[]]]]]]; congruence.
Qed.

(** X2: the permissions "admin", "ai_analysis", "batch_operations",
    "config" and "mobile", which routers require, are in no role's list:
    [check_permissions] grants each of them to the role super_admin and
    to no other role string. *)
Theorem unlisted_permissions_super_admin_only (role p : pystr) :
  In p unlisted_permissions ->
  (check_permissions role p = true <-> role = str_of "super_admin").
Proof.
  intros Hp. split.
  - intros H. unfold check_permissions in H.
    destruct (get_cases role) as [[Hr _]|[[_ [Hall Hadm]]|[_ Hg]]].
    + exact Hr.
    + rewrite Hall in H. apply Hadm in H. exfalso.
      cbn [unlisted_permissions map In] in Hp.
      repeat (destruct Hp as [Hp|Hp];
              [subst p; vm_compute in H; discriminate|]).
      destruct Hp.
    + rewrite Hg in H. discriminate.
  - intros ->. reflexivity.
Qed.

Lemma unlisted_permissions_super_admin_only_witness :
  check_permissions (str_of "admin") (str_of "batch_operations") = true
  <-> str_of "admin" = str_of "super_admin".
Proof.
  apply unlisted_permissions_super_admin_only.
  vm_compute. tauto.
Defined.

(** X3: a role string that is not one of the five role names, exactly
    and in lower case, is granted nothing; and no role but super_admin is
    granted a permission that the admin list lacks. *)
Theorem unknown_role_has_no_permission (role p : pystr) :
  (~ In role known_roles -> check_permissions role p = false)
  /\ (check_permissions role p = true ->
      role = str_of "super_admin"
      \/ check_permissions (str_of "admin") p = true).
Proof.
  unfold check_permissions at 1 2.
  destruct (get_cases role) as [[Hr Hg]|[[Hin [Hall Hadm]]|[Hn Hg]]].
  - split; [|now left]. intros Hn. exfalso. apply Hn. subst role.
    cbn. tauto.
  - rewrite Hall. split; [|intros H; right; now apply Hadm].
    intros Hn. exfalso. apply Hn. now right.
  - rewrite Hg. cbn. split; [reflexivity|discriminate].
Qed.

Lemma unknown_role_has_no_permission_witness :
  check_permissions (str_of "Admin") (str_of "users") = false
  /\ (str_of "manager" = str_of "super_admin"
      \/ check_permissions (str_of "admin") (str_of "zones") = true).
Proof.
  split.
  - apply (proj1 (unknown_role_has_no_permission (str_of "Admin")
                    (str_of "users"))).
    vm_compute. intuition discriminate.
  - apply (proj2 (unknown_role_has_no_permission (str_of "manager")
                    (str_of "zones"))).
    vm_compute. reflexivity.
Defined.

End Permissions.

(** ** The helper that builds codes without the database *)

Section BatchHelper.

Import qr_code_batch.

(** X4: [generate_batch_qr_codes] of [app/utils/qr_code.py] returns the
    empty list for a quantity of zero or less and raises [ValueError]
    for every quantity of one or more, whatever the batch, the start
    sequence and the hash: it slices the integer that [hash] returns. *)
Theorem generate_batch_qr_codes_never_succeeds
    (hash : pystr -> Z) (batch : pystr) (quantity start_sequence : Z) :
  ((quantity <= 0)%Z ->
   generate_batch_qr_codes hash batch quantity start_sequence = Ok [])
  /\ ((1 <= quantity)%Z ->
      generate_batch_qr_codes hash batch quantity start_sequence
      = Raise (ValueError (str_of "Failed to generate batch QR codes"))).
Proof.
  unfold generate_batch_qr_codes. split; intros Hq.
  - replace (Z.to_nat quantity) with 0%nat by lia. reflexivity.
  - destruct (Z.to_nat quantity) as [|n] eqn:E; [lia|]. reflexivity.
Qed.

Lemma generate_batch_qr_codes_never_succeeds_witness :
  generate_batch_qr_codes (fun _ => 0%Z) (str_of "B1") 0 1 = Ok []
  /\ generate_batch_qr_codes (fun _ => 0%Z) (str_of "B1") 3 1
     = Raise (ValueError (str_of "Failed to generate batch QR codes")).
Proof.
  split.
  - apply (proj1 (generate_batch_qr_codes_never_succeeds
                    (fun _ => 0%Z) (str_of "B1") 0 1)). lia.
  - apply (proj2 (generate_batch_qr_codes_never_succeeds
                    (fun _ => 0%Z) (str_of "B1") 3 1)). lia.
Defined.

End BatchHelper.

(** ** What a validated code string is made of *)

Section PayloadFields.

Import security qr_code.

(** The text before the first separator determines the cut. *)
Lemma first_sep_unique (u : N) (x x' y y' : pystr) :
  ~ In u x -> ~ In u x' -> x ++ u :: y = x' ++ u :: y' -> x = x' /\ y = y'.
Proof.
  revert x'; induction x as [|c x IH]; intros [|c' x'] Hx Hx' E; simpl in E.
  - injection E as E. now split.
  - injection E as Ec Ey. exfalso. apply Hx'. now left.
  - injection E as Ec Ey. exfalso. apply Hx. now left.
  - injection E as Ec E.
    destruct (IH x') as [-> ->]; try assumption.
    + intros H. apply Hx. now right.
    + intros H. apply Hx'. now right.
    + now rewrite Ec.
Qed.

(** A validated string is the prefix, a batch identifier, six digits and
    eight characters, joined by underscores that occur nowhere else. *)
Lemma validate_qr_code_data_shape (data : pystr) :
  validate_qr_code_data data = true ->
  exists b s h,
    data = str_of "QRTF_" ++ b ++ str_of "_" ++ s ++ str_of "_" ++ h
    /\ split underscore data = [str_of "QRTF"; b; s; h]
    /\ ~ In underscore b /\ ~ In underscore s /\ ~ In underscore h
    /\ isdigit s = true /\ length s = 6%nat /\ length h = 8%nat.
Proof.
  intros Hv. apply validate_qr_code_data_spec in Hv
    as [Hp [p [b [s [h [Hsp [Hd [Hs Hh]]]]]]]].
  pose proof (split_parts_clean underscore data) as Hclean.
  rewrite Hsp in Hclean.
  assert (Hcp : ~ In underscore p) by (apply Hclean; cbn; tauto).
  assert (Hcb : ~ In underscore b) by (apply Hclean; cbn; tauto).
  assert (Hcs : ~ In underscore s) by (apply Hclean; cbn; tauto).
  assert (Hch : ~ In underscore h) by (apply Hclean; cbn; tauto).
  pose proof (join_split underscore data) as Hj. rewrite Hsp in Hj.
  cbn [join] in Hj.
  apply startswith_inv in Hp as [r Hr].
  assert (Hpq : p = str_of "QRTF").
  { change (str_of "QRTF_") with (str_of "QRTF" ++ [underscore]) in Hr.
    rewrite <- app_assoc in Hr. cbn [app] in Hr.
    rewrite <- Hj in Hr.
    apply first_sep_unique in Hr as [Hr _]; [exact Hr|exact Hcp|].
    vm_compute. intuition discriminate. }
  subst p. exists b, s, h.
  split.
  { rewrite <- Hj.
    change (str_of "QRTF_") with (str_of "QRTF" ++ [underscore]).
    change (str_of "_") with [underscore].
    now rewrite <- app_assoc. }
  repeat split; assumption.
Qed.

End PayloadFields.

(** ** Reading a sequence field *)

Section SequenceField.

Import security qr_code.

Local Open Scope N_scope.

Lemma of_uint_acc_upper (d : Decimal.uint) (acc : positive) :
  Npos (Pos.of_uint_acc d acc)
  < (Npos acc + 1) * 10 ^ N.of_nat (Decimal.nb_digits d).
Proof.
  revert acc; induction d; intros acc;
    cbn [Decimal.nb_digits Pos.of_uint_acc];
    [ rewrite N.pow_0_r; lia | .. ];
    rewrite Nat2N.inj_succ, N.pow_succ_r';
    (eapply N.lt_le_trans; [apply IHd|]);
    rewrite N.mul_assoc; apply N.mul_le_mono_r; lia.
Qed.

(** A numeral of [k] digits is below [10 ^ k]. *)
Lemma of_uint_upper (d : Decimal.uint) :
  N.of_uint d < 10 ^ N.of_nat (Decimal.nb_digits d).
Proof.
  assert (Hpos : forall l (p : positive),
             (Npos p + 1 <= 10) ->
             Npos (Pos.of_uint_acc l p)
             < 10 ^ N.of_nat (S (Decimal.nb_digits l))).
  { intros l p Hp. rewrite Nat2N.inj_succ, N.pow_succ_r'.
    eapply N.lt_le_trans; [apply of_uint_acc_upper|].
    apply N.mul_le_mono_r. exact Hp. }
  induction d; cbn [Decimal.nb_digits];
    try (apply Hpos; lia).
  - cbn. lia.
  - change (N.of_uint (Decimal.D0 d)) with (N.of_uint d).
    eapply N.lt_le_trans; [exact IHd|].
    apply N.pow_le_mono_r; lia.
Qed.

Lemma nb_digits_uint_cons (v : N) (d : Decimal.uint) :
  Decimal.nb_digits (uint_cons v d) = S (Decimal.nb_digits d).
Proof.
  unfold uint_cons.
  repeat match goal with
         | |- context [match ?x with _ => _ end] => destruct x
         end; reflexivity.
Qed.

Lemma uint_of_chars_length (s : pystr) (d : Decimal.uint) :
  uint_of_chars s = Some d -> Decimal.nb_digits d = length s.
Proof.
  revert d; induction s as [|c s IH]; intros d; cbn [uint_of_chars].
  - intros H. injection H as <-. reflexivity.
  - destruct (decimal_value c) as [v|]; [|discriminate].
    destruct (uint_of_chars s) as [d'|]; [|discriminate].
    intros H. injection H as <-. rewrite nb_digits_uint_cons.
    cbn [length]. now rewrite (IH d' eq_refl).
Qed.

(** [int] of [k] decimal digits is a number from 0 to [10 ^ k - 1]. *)
Lemma int_of_digits_bound (s : pystr) (n : Z) :
  int_of_digits s = Some n ->
  (0 <= n < 10 ^ Z.of_nat (length s))%Z.
Proof.
  unfold int_of_digits.
  destruct (uint_of_chars s) as [d|] eqn:E; [|discriminate].
  intros H. injection H as <-.
  pose proof (of_uint_upper d) as Hu.
  rewrite (uint_of_chars_length _ E) in Hu.
  split; [lia|].
  apply N2Z.inj_lt in Hu. rewrite N2Z.inj_pow in Hu.
  now rewrite nat_N_Z in Hu.
Qed.

Lemma decimal_in_above (zs : list N) (c : N) :
  Forall (fun z => c < z) zs -> decimal_in zs c = None.
Proof.
  induction 1 as [|z zs Hz _ IH]; cbn [decimal_in]; [reflexivity|].
  replace (z <=? c) with false by (symmetry; apply N.leb_gt; exact Hz).
  exact IH.
Qed.

(** Below 128 the decimal digits are [0] to [9]. *)
Lemma isdecimal_char_below_128 (c : N) :
  c < 128 -> isdecimal_char c = true -> ascii_digit c.
Proof.
  intros Hc. unfold isdecimal_char, decimal_value.
  assert (Hz : decimal_zeros = 48 :: tl decimal_zeros) by reflexivity.
  rewrite Hz. cbn [decimal_in].
  destruct ((48 <=? c) && (c <? 48 + 10))%bool eqn:E.
  - intros _. apply andb_true_iff in E as [E1 E2].
    apply N.leb_le in E1. apply N.ltb_lt in E2.
    unfold ascii_digit. lia.
  - rewrite decimal_in_above; [discriminate|].
    unfold decimal_zeros. cbn [tl]. repeat constructor; lia.
Qed.

Lemma chars_of_uint_of_chars (s : pystr) (d : Decimal.uint) :
  Forall ascii_digit s -> uint_of_chars s = Some d -> chars_of_uint d = s.
Proof.
  intros Ha. revert d.
  induction Ha as [|c s Hc _ IH]; intros d; cbn [uint_of_chars].
  - intros H. injection H as <-. reflexivity.
  - rewrite (decimal_value_ascii Hc).
    destruct (uint_of_chars s) as [d'|]; [|discriminate].
    intros H. injection H as <-. specialize (IH d' eq_refl).
    unfold ascii_digit in Hc.
    assert (Hv : c = 48 \/ c = 49 \/ c = 50 \/ c = 51 \/ c = 52 \/ c = 53
                 \/ c = 54 \/ c = 55 \/ c = 56 \/ c = 57) by lia.
    repeat (destruct Hv as [Hv|Hv]; [subst c; cbn; now rewrite IH|]).
    subst c; cbn; now rewrite IH.
Qed.

(** A numeral is its normal form behind zeros. *)
Lemma chars_of_uint_unorm (d : Decimal.uint) :
  d <> Decimal.Nil ->
  chars_of_uint d
  = repeat 48 (Decimal.nb_digits d - Decimal.nb_digits (Decimal.unorm d))
      ++ chars_of_uint (Decimal.unorm d).
Proof.
  induction d; intros Hne; try contradiction;
    try (change (Decimal.unorm (Decimal.D1 d)) with (Decimal.D1 d);
         change (Decimal.unorm (Decimal.D2 d)) with (Decimal.D2 d);
         change (Decimal.unorm (Decimal.D3 d)) with (Decimal.D3 d);
         change (Decimal.unorm (Decimal.D4 d)) with (Decimal.D4 d);
         change (Decimal.unorm (Decimal.D5 d)) with (Decimal.D5 d);
         change (Decimal.unorm (Decimal.D6 d)) with (Decimal.D6 d);
         change (Decimal.unorm (Decimal.D7 d)) with (Decimal.D7 d);
         change (Decimal.unorm (Decimal.D8 d)) with (Decimal.D8 d);
         change (Decimal.unorm (Decimal.D9 d)) with (Decimal.D9 d);
         now rewrite Nat.sub_diag).
  rewrite DecimalFacts.unorm_D0.
  destruct (Decimal.uint_eq_dec d Decimal.Nil) as [->|Hd];
    [reflexivity|].
  pose proof (@DecimalFacts.nb_digits_unorm d Hd) as Hle.
  cbn [chars_of_uint Decimal.nb_digits]. rewrite (IHd Hd) at 1.
  replace (S (Decimal.nb_digits d) - Decimal.nb_digits (Decimal.unorm d))%nat
    with (S (Decimal.nb_digits d - Decimal.nb_digits (Decimal.unorm d)))
    by lia.
  reflexivity.
Qed.

(** Six ASCII digits are the six-digit format of the number they spell. *)
Lemma format_06d_int_of_digits (s : pystr) (n : Z) :
  length s = 6%nat -> Forall ascii_digit s ->
  int_of_digits s = Some n -> format_06d n = s.
Proof.
  intros Hlen Ha. unfold int_of_digits.
  destruct (uint_of_chars s) as [d|] eqn:E; [|discriminate].
  intros H. injection H as <-.
  pose proof (uint_of_chars_length _ E) as Hnb.
  pose proof (chars_of_uint_of_chars Ha E) as Hs.
  assert (Hne : d <> Decimal.Nil).
  { intros ->. cbn in Hnb. lia. }
  unfold format_06d.
  replace (Z.of_N (N.of_uint d) <? 0)%Z with false
    by (symmetry; apply Z.ltb_ge; lia).
  rewrite Zabs2N.id.
  unfold digits, zfill.
  rewrite DecimalN.Unsigned.to_of, length_chars_of_uint.
  rewrite <- Hs. rewrite (chars_of_uint_unorm Hne).
  now rewrite Hnb, Hlen.
Qed.

End SequenceField.

(** ** What validation and extraction guarantee *)

Section PayloadGuarantees.

Import security qr_code.

Lemma extract_valid_inv (data p b : pystr) (n : Z) (h : pystr) :
  extract_qr_code_info data = Valid p b n h ->
  exists s,
    validate_qr_code_data data = true
    /\ split underscore data = [p; b; s; h]
    /\ int_of_digits s = Some n.
Proof.
  unfold extract_qr_code_info.
  destruct (validate_qr_code_data data) eqn:Hv; cbn [negb]; [|discriminate].
  destruct (split underscore data) as [|p' [|b' [|s [|h' [|x l]]]]];
    try discriminate.
  destruct (int_of_digits s) as [m|] eqn:Hs; [|discriminate].
  intros H. injection H as <- <- <- <-. now exists s.
Qed.

(** X5: whenever [extract_qr_code_info] answers [is_valid = True], the
    prefix is "QRTF", the batch identifier and the hash hold no
    underscore, the hash has eight characters and the sequence number is
    an integer from 0 to 999999. *)
Theorem extracted_fields (data p b : pystr) (n : Z) (h : pystr) :
  extract_qr_code_info data = Valid p b n h ->
  p = str_of "QRTF"
  /\ ~ In underscore b
  /\ ~ In underscore h
  /\ length h = 8%nat
  /\ (0 <= n <= 999999)%Z.
Proof.
  intros H. apply extract_valid_inv in H as [s [Hv [Hsp Hn]]].
  apply validate_qr_code_data_shape in Hv
    as [b' [s' [h' [_ [Hsp' [Hb [_ [Hh [_ [Hs Hl]]]]]]]]]].
  rewrite Hsp in Hsp'. injection Hsp' as -> -> -> ->.
  repeat split; try assumption.
  - apply int_of_digits_bound in Hn. lia.
  - apply int_of_digits_bound in Hn. rewrite Hs in Hn.
    change (10 ^ Z.of_nat 6)%Z with 1000000%Z in Hn. lia.
Qed.

Lemma extracted_fields_witness :
  str_of "QRTF" = str_of "QRTF"
  /\ ~ In underscore (str_of "B1")
  /\ ~ In underscore (str_of "4c554774")
  /\ length (str_of "4c554774") = 8%nat
  /\ (0 <= 1 <= 999999)%Z.
Proof.
  apply (@extracted_fields (str_of "QRTF_B1_000001_4c554774")).
  vm_compute. reflexivity.
Defined.

(** X6: extraction followed by formatting gives the string back: when
    [extract_qr_code_info] answers [is_valid = True] on a string of
    characters below 128, the string is "QRTF_", the batch identifier,
    "_", the sequence number in the six-digit format of the generator,
    "_" and the hash. *)
Theorem extract_then_format (data p b : pystr) (n : Z) (h : pystr) :
  Forall (fun c => (c < 128)%N) data ->
  extract_qr_code_info data = Valid p b n h ->
  data = str_of "QRTF_" ++ b ++ str_of "_" ++ format_06d n
           ++ str_of "_" ++ h.
Proof.
  intros Ha H. apply extract_valid_inv in H as [s [Hv [Hsp Hn]]].
  apply validate_qr_code_data_shape in Hv
    as [b' [s' [h' [Hd [Hsp' [_ [_ [_ [Hdig [Hs _]]]]]]]]]].
  rewrite Hsp in Hsp'. injection Hsp' as -> -> -> ->.
  rewrite (@format_06d_int_of_digits s' n); [exact Hd|exact Hs| |exact Hn].
  apply Forall_forall. intros c Hc.
  assert (Hlt : (c < 128)%N).
  { rewrite Forall_forall in Ha. apply Ha.
    apply (@split_parts_incl underscore data s' c); [|exact Hc].
    rewrite Hsp. cbn. tauto. }
  apply isdecimal_char_below_128; [exact Hlt|].
  apply isdigit_char_below_128; [exact Hlt|].
  unfold isdigit in Hdig. destruct s' as [|x s']; [discriminate|].
  rewrite forallb_forall in Hdig. now apply Hdig.
Qed.

Lemma extract_then_format_witness :
  str_of "QRTF_B1_000120_abcdefgh"
  = str_of "QRTF_" ++ str_of "B1" ++ str_of "_" ++ format_06d 120
      ++ str_of "_" ++ str_of "abcdefgh".
Proof.
  apply (@extract_then_format (str_of "QRTF_B1_000120_abcdefgh")
           (str_of "QRTF")).
  - vm_compute. repeat constructor.
  - vm_compute. reflexivity.
Defined.

(** X7: the fingerprint is never checked: in a string that
    [validate_qr_code_data] accepts, the last eight characters can be
    replaced by any eight characters without underscore; the result is
    accepted too, and [extract_qr_code_info] reads the same batch
    identifier and sequence number from it. *)
Theorem fingerprint_is_not_checked (data h' : pystr) :
  validate_qr_code_data data = true ->
  length h' = 8%nat ->
  ~ In underscore h' ->
  let data' := firstn (length data - 8) data ++ h' in
  validate_qr_code_data data' = true
  /\ forall p b n h,
       extract_qr_code_info data = Valid p b n h ->
       extract_qr_code_info data' = Valid p b n h'.
Proof.
  intros Hv Hl Hu data'.
  pose proof Hv as Hshape.
  apply validate_qr_code_data_shape in Hshape
    as [b [s [h [Hd [Hsp [Hb [Hs [Hh [Hdig [Hls Hlh]]]]]]]]]].
  assert (Hd' : data' = str_of "QRTF_" ++ b ++ str_of "_" ++ s
                          ++ str_of "_" ++ h').
  { unfold data'. rewrite Hd at 2.
    replace (length data - 8)%nat
      with (length (str_of "QRTF_" ++ b ++ str_of "_" ++ s ++ str_of "_")).
    - rewrite !app_assoc. rewrite firstn_app, Nat.sub_diag, firstn_all.
      cbn [firstn]. now rewrite List.app_nil_r.
    - rewrite Hd, !length_app, Hlh. lia. }
  assert (Hsp' : split underscore data' = [str_of "QRTF"; b; s; h']).
  { rewrite Hd'. now apply split_generated. }
  assert (Hv' : validate_qr_code_data data' = true).
  { apply validate_qr_code_data_spec. split.
    - rewrite Hd'. apply startswith_app.
    - exists (str_of "QRTF"), b, s, h'. repeat split; assumption. }
  split; [exact Hv'|].
  intros p b0 n h0 H. apply extract_valid_inv in H as [s0 [_ [Hsp0 Hn]]].
  rewrite Hsp in Hsp0. injection Hsp0 as <- <- <- <-.
  unfold extract_qr_code_info. rewrite Hv', Hsp', Hn. reflexivity.
Qed.

Lemma fingerprint_is_not_checked_witness :
  let data' :=
    firstn (length (str_of "QRTF_B1_000001_4c554774") - 8)
      (str_of "QRTF_B1_000001_4c554774") ++ str_of "XXXXXXXX" in
  validate_qr_code_data data' = true
  /\ forall p b n h,
       extract_qr_code_info (str_of "QRTF_B1_000001_4c554774")
       = Valid p b n h ->
       extract_qr_code_info data' = Valid p b n (str_of "XXXXXXXX").
Proof.
  apply (@fingerprint_is_not_checked (str_of "QRTF_B1_000001_4c554774")
           (str_of "XXXXXXXX")).
  - vm_compute. reflexivity.
  - vm_compute. reflexivity.
  - vm_compute. intuition discriminate.
Defined.

End PayloadGuarantees.

(** ** What batch generation writes *)

Section GenerationWrites.

(** The loop appends a document per completed iteration, in order, also
    when a later iteration raises. *)
Lemma for_range_insert_generated_added (C : Type) (code : nat -> result C)
    (doc : nat -> C -> QRCode.doc) (n start : nat) (d : database) :
  let r := for_range (insert_generated code doc) start n d in
  exists added,
    qr_codes (fst r) = qr_codes d ++ added
    /\ Forall2 (fun i x => exists c, code i = Ok c /\ x = doc i c)
         (seq start (length added)) added
    /\ (length added <= n)%nat
    /\ (forall e, snd r = Raise e -> (length added < n)%nat).
Proof.
  revert start d. induction n as [|n IH]; intros start d; cbn zeta.
  - exists []. cbn. rewrite List.app_nil_r.
    repeat split; auto. discriminate.
  - rewrite for_range_S, insert_generated_step.
    destruct (code start) as [c|e] eqn:Ec.
    2:{ exists []. cbn. rewrite List.app_nil_r.
        repeat split; auto; lia. }
    destruct (collection.insert_one _ _ _) as [l|e] eqn:Ei.
    2:{ exists []. cbn. rewrite List.app_nil_r.
        repeat split; auto; lia. }
    apply insert_one_ok in Ei as [-> _].
    set (d1 := Database _ _ _).
    destruct (IH (S start) d1) as [added [Hq [Hf [Hle Hlt]]]].
    exists (doc start c :: added).
    destruct (for_range (insert_generated code doc) (S start) n d1)
      as [d2 [docs|e]]; cbn [fst snd] in *.
    + split; [rewrite Hq; unfold d1; cbn [qr_codes];
              now rewrite <- app_assoc|].
      split; [cbn [length seq]; constructor; [now exists c|exact Hf]|].
      split; [cbn [length]; lia|discriminate].
    + split; [rewrite Hq; unfold d1; cbn [qr_codes];
              now rewrite <- app_assoc|].
      split; [cbn [length seq]; constructor; [now exists c|exact Hf]|].
      split; [cbn [length]; lia|].
      intros e' _. specialize (Hlt e eq_refl). cbn [length]. lia.
Qed.

Lemma generated_status (C : Type) (code : nat -> result C)
    (doc : nat -> C -> QRCode.doc) (l : list nat)
    (docs : list QRCode.doc) :
  (forall i c, QRCode.status (doc i c) = str_of "generated") ->
  Forall2 (fun i x => exists c, code i = Ok c /\ x = doc i c) l docs ->
  Forall (fun x => QRCode.status x = str_of "generated") docs.
Proof.
  intros Hs H. induction H as [|i x l docs [c [_ ->]] _ IH];
    constructor; auto.
Qed.

(** X8: whatever [generate_batch_qr_codes] answers, it leaves the
    installations alone and only appends to the QR codes: the appended
    records are in status "generated", belong to the requested batch and
    are numbered 1, 2, ... in order, at most [quantity] of them and fewer
    when the answer is an error; an error leaves the batches as they
    were, and an error other than the internal error 500 leaves the
    whole database as it was. *)
Theorem generation_writes
    (E : env) (u : user) (r : qr_codes.batch_data) (d : database) :
  let answer := qr_codes.generate_batch_qr_codes E u r d in
  fitting_installations (fst answer) = fitting_installations d
  /\ (exists added,
        qr_codes (fst answer) = qr_codes d ++ added
        /\ map QRCode.sequenceNumber added = one_to (Z.of_nat (length added))
        /\ Forall (fun x => QRCode.status x = str_of "generated"
                            /\ Some (QRCode.fittingBatchId x)
                               = truthy (qr_codes.fittingBatchId r)) added
        /\ (Z.of_nat (length added) <= Z.max 0 (qr_codes.count r))%Z
        /\ (forall e, snd answer = Raise e ->
                      (Z.of_nat (length added)
                       < Z.max 1 (qr_codes.count r))%Z))
  /\ (forall e, snd answer = Raise e ->
        fitting_batches (fst answer) = fitting_batches d
        /\ (e <> qr_codes.failed_to_generate -> fst answer = d)).
Proof.
  cbn zeta.
  assert (Hnone : forall e0,
             fitting_installations (fst (d, @Raise (list QRCode.doc) e0))
             = fitting_installations d
             /\ (exists added,
                   qr_codes (fst (d, @Raise (list QRCode.doc) e0))
                   = qr_codes d ++ added
                   /\ map QRCode.sequenceNumber added
                      = one_to (Z.of_nat (length added))
                   /\ Forall (fun x => QRCode.status x = str_of "generated"
                                       /\ Some (QRCode.fittingBatchId x)
                                          = truthy (qr_codes.fittingBatchId r))
                        added
                   /\ (Z.of_nat (length added)
                       <= Z.max 0 (qr_codes.count r))%Z
                   /\ (forall e, snd (d, @Raise (list QRCode.doc) e0) = Raise e ->
                                 (Z.of_nat (length added)
                                  < Z.max 1 (qr_codes.count r))%Z))
             /\ (forall e, snd (d, @Raise (list QRCode.doc) e0) = Raise e ->
                   fitting_batches (fst (d, @Raise (list QRCode.doc) e0))
                   = fitting_batches d
                   /\ (e <> qr_codes.failed_to_generate ->
                       fst (d, @Raise (list QRCode.doc) e0) = d))).
  { intros e0. cbn [fst snd]. split; [reflexivity|]. split.
    - exists []. rewrite List.app_nil_r. cbn.
      repeat split; auto; lia.
    - intros e _. now split. }
  destruct (generate_cases E u r d) as [[q Hr]|[Hn Hsame]].
  2:{ destruct (@generate_batch_qr_codes_not_int E u r d Hn)
        as [_ [c [m Hs]]].
      destruct (qr_codes.generate_batch_qr_codes E u r d) as [d0 res].
      cbn [fst snd] in Hsame, Hs. subst d0 res. apply Hnone. }
  rewrite (generate_batch_qr_codes_int _ _ _ _ Hr).
  assert (Hc : qr_codes.count r = q)
    by (unfold qr_codes.count; now rewrite Hr).
  rewrite Hc in *.
  destruct (negb _); [apply Hnone|].
  destruct (truthy (qr_codes.fittingBatchId r)) as [b|]; [|apply Hnone].
  destruct (_ || _)%bool eqn:Hq; [apply Hnone|].
  destruct (collection.find_one _ _); [|apply Hnone].
  apply orb_false_iff in Hq as [Hq1 Hq2].
  apply Z.leb_gt in Hq1. rewrite Z.gtb_ltb in Hq2. apply Z.ltb_ge in Hq2.
  pose proof (for_range_insert_generated (code_at E b)
                (qr_codes.qr_doc E u r b) (Z.to_nat q) 0 d) as H.
  pose proof (for_range_insert_generated_added (code_at E b)
                (qr_codes.qr_doc E u r b) (Z.to_nat q) 0 d) as Ha.
  cbn zeta in H, Ha.
  destruct (for_range _ _ _ d) as [d' [docs|e]]; cbn [fst snd] in *;
    destruct H as [Hb [Hi [_ Hres]]];
    destruct Ha as [added [Hadd [Hf [Hle Hlt]]]].
  - split; [exact Hi|]. split.
    + exists added. unfold with_batches. cbn [qr_codes].
      split; [exact Hadd|].
      pose proof (@generated_status _ _ (qr_codes.qr_doc E u r b) _ _
                    (fun _ _ => eq_refl) Hf) as Hst.
      apply (@generated_fields _ _ _ b) in Hf as [Hs Hfb];
        [|reflexivity|reflexivity].
      split; [unfold one_to; now rewrite Nat2Z.id|]. split.
      * rewrite <- Hfb. apply Forall_forall. intros x Hx.
        apply filter_In in Hx as [Hx Hbx].
        rewrite Forall_forall in Hst. split; [now apply Hst|].
        apply eqb_eq in Hbx. now rewrite Hbx.
      * split; [lia|discriminate].
    + discriminate.
  - split; [exact Hi|]. split.
    + exists added. split; [exact Hadd|].
      pose proof (@generated_status _ _ (qr_codes.qr_doc E u r b) _ _
                    (fun _ _ => eq_refl) Hf) as Hst.
      apply (@generated_fields _ _ _ b) in Hf as [Hs Hfb];
        [|reflexivity|reflexivity].
      split; [unfold one_to; now rewrite Nat2Z.id|]. split.
      * rewrite <- Hfb. apply Forall_forall. intros x Hx.
        apply filter_In in Hx as [Hx Hbx].
        rewrite Forall_forall in Hst. split; [now apply Hst|].
        apply eqb_eq in Hbx. now rewrite Hbx.
      * split; [lia|]. intros e' _. specialize (Hlt e eq_refl). lia.
    + intros e' He'. split; [exact Hb|]. intros Hne. exfalso. apply Hne.
      injection He' as <-.
      destruct Hres as [->|[i Hi']]; [reflexivity|].
      destruct (code_at_raise _ _ _ Hi') as [-> | ->]; reflexivity.
Qed.

End GenerationWrites.

Section GenerationRuns.

Lemma generation_writes_witness :
  let answer :=
    qr_codes.generate_batch_qr_codes (sample.at_time 1700000000 "a")
      sample.admin (sample.generate 0) sample.batch_db in
  fitting_batches (fst answer) = fitting_batches sample.batch_db
  /\ (qr_codes.quantity_error <> qr_codes.failed_to_generate ->
      fst answer = sample.batch_db).
Proof.
  apply (proj2 (proj2 (generation_writes (sample.at_time 1700000000 "a")
                         sample.admin (sample.generate 0) sample.batch_db))
           qr_codes.quantity_error).
  vm_compute. reflexivity.
Defined.

(** A failure in the second iteration keeps the record of the first and
    does not update the batch. *)
Example partial_generation :
  let answer :=
    qr_codes.generate_batch_qr_codes (sample.at_time 1700000000 "a")
      sample.admin (sample.generate 3) sample2.second_stored_db in
  snd answer = Raise qr_codes.failed_to_generate
  /\ batch_sequence (str_of "B1") (fst answer) = [2; 1]%Z
  /\ fitting_batches (fst answer) = [Batch.Doc (str_of "B1") None None].
Proof. vm_compute. repeat split; reflexivity. Qed.

Lemma find_one_some_in (A : Type) (p : A -> bool) (l : list A) (x : A) :
  collection.find_one p l = Some x -> In x l /\ p x = true.
Proof. unfold collection.find_one. apply find_some. Qed.

(** X9: a second run for the same batch in the same clock second stores
    nothing: after a successful generation, a permitted request for the
    same batch with a quantity from 1 to 10000 whose first clock reading
    equals the first clock reading of the earlier run is answered with
    the internal error 500, and the database is left as it was. *)
Theorem same_second_rerun_fails
    (E E' : env) (u u' : user) (r r' : qr_codes.batch_data) (d : database)
    (q' : Z) :
  is_ok (snd (qr_codes.generate_batch_qr_codes E u r d)) = true ->
  security.check_permissions (role u') (str_of "qr_codes") = true ->
  truthy (qr_codes.fittingBatchId r') = truthy (qr_codes.fittingBatchId r) ->
  qr_codes.requested r' = json.Int q' ->
  (1 <= q' <= 10000)%Z ->
  clock E' 0 = clock E 0 ->
  let d1 := fst (qr_codes.generate_batch_qr_codes E u r d) in
  qr_codes.generate_batch_qr_codes E' u' r' d1
  = (d1, Raise qr_codes.failed_to_generate).
Proof.
  intros Hok Hp' Hb' Hr' Hq' Hclock.
  destruct (generate_ok_int _ _ _ _ Hok) as [q Hr].
  rewrite (generate_batch_qr_codes_int _ _ _ _ Hr) in Hok.
  rewrite (generate_batch_qr_codes_int E u _ d Hr).
  destruct (negb _); [discriminate|].
  destruct (truthy (qr_codes.fittingBatchId r)) as [b|]; [|discriminate].
  destruct (_ || _)%bool eqn:Hq; [discriminate|].
  destruct (collection.find_one _ _) as [x|] eqn:Hx; [|discriminate].
  apply orb_false_iff in Hq as [Hq1 _]. apply Z.leb_gt in Hq1.
  pose proof (for_range_insert_generated (code_at E b)
                (qr_codes.qr_doc E u r b) (Z.to_nat q) 0 d) as H.
  cbn zeta in H.
  destruct (for_range _ _ _ d) as [d' [docs|e]]; [|discriminate].
  cbn [fst snd] in *. destruct H as [Hbat [_ [_ [Hqr Hf]]]].
  destruct (Z.to_nat q) as [|n] eqn:En; [lia|].
  cbn [seq] in Hf. inversion Hf as [|i0 x0 l0 docs0 [c [Hc Hx0]] Hrest];
    subst.
  set (d1 := with_batches _ d').
  rewrite (generate_batch_qr_codes_int _ _ _ _ Hr'), Hp', Hb'. cbn [negb].
  replace ((q' <=? 0) || (q' >? 10000))%Z with false.
  2:{ symmetry. apply orb_false_iff. split.
      - apply Z.leb_gt. lia.
      - rewrite Z.gtb_ltb. apply Z.ltb_ge. lia. }
  assert (Hfind : exists x1,
             collection.find_one (by_id_batch b) (fitting_batches d1)
             = Some x1).
  { unfold d1, with_batches. cbn [fitting_batches].
    rewrite find_one_update_one by (intros; reflexivity).
    rewrite Hbat, Hx. now eexists. }
  destruct Hfind as [x1 ->].
  destruct (Z.to_nat q') as [|n'] eqn:En'; [lia|].
  rewrite for_range_S, insert_generated_step.
  apply code_at_ok in Hc as [Hg _].
  destruct (code_at E' b 0) as [c'|e'] eqn:Hc'.
  2:{ destruct (code_at_raise _ _ _ Hc') as [-> | ->]; reflexivity. }
  apply code_at_ok in Hc' as [Hg' _]. rewrite Hclock, Hg in Hg'.
  injection Hg' as Hfst.
  assert (Hclash : collection.insert_one qr_codes_unique
                     (qr_codes.qr_doc E' u' r' b 0 c') (qr_codes d1)
                   = Raise DuplicateKeyError).
  { unfold collection.insert_one.
    replace (existsb _ (qr_codes d1)) with true; [reflexivity|].
    symmetry. apply existsb_exists.
    exists (qr_codes.qr_doc E u r b 0 c). split.
    - unfold d1, with_batches. cbn [qr_codes]. rewrite Hqr.
      apply in_or_app. right. now left.
    - unfold collection.clashes, qr_codes_unique. cbn [existsb].
      cbn [qr_codes.qr_doc QRCode.qrCode]. rewrite Hfst, eqb_refl.
      now rewrite orb_true_r. }
  rewrite Hclash. reflexivity.
Qed.

Lemma same_second_rerun_fails_witness :
  let E := sample.at_time 1700000000 "a" in
  let d1 :=
    fst (qr_codes.generate_batch_qr_codes E sample.admin (sample.generate 2)
           sample.batch_db) in
  qr_codes.generate_batch_qr_codes (sample.at_time 1700000000 "b")
    sample.admin (sample.generate 5) d1
  = (d1, Raise qr_codes.failed_to_generate).
Proof.
  apply (@same_second_rerun_fails (sample.at_time 1700000000 "a")
           (sample.at_time 1700000000 "b") sample.admin sample.admin
           (sample.generate 2) (sample.generate 5) sample.batch_db 5%Z).
  - vm_compute. reflexivity.
  - vm_compute. reflexivity.
  - reflexivity.
  - reflexivity.
  - lia.
  - reflexivity.
Defined.

End GenerationRuns.

Section GenerationSucceeds.

(** The loop completes when every code can be made and neither the
    identifiers nor the codes clash, with the stored documents or with
    each other. *)
Lemma for_range_insert_generated_ok (C : Type) (code : nat -> result C)
    (doc : nat -> C -> QRCode.doc) (n start : nat) (d : database) :
  (forall i, (start <= i < start + n)%nat -> exists c, code i = Ok c) ->
  (forall i c y, (start <= i < start + n)%nat -> code i = Ok c ->
                 In y (qr_codes d) ->
                 QRCode._id (doc i c) <> QRCode._id y
                 /\ QRCode.qrCode (doc i c) <> QRCode.qrCode y) ->
  (forall i j ci cj, (start <= i < j)%nat -> (j < start + n)%nat ->
                     code i = Ok ci -> code j = Ok cj ->
                     QRCode._id (doc j cj) <> QRCode._id (doc i ci)
                     /\ QRCode.qrCode (doc j cj) <> QRCode.qrCode (doc i ci)) ->
  is_ok (snd (for_range (insert_generated code doc) start n d)) = true.
Proof.
  revert start d. induction n as [|n IH]; intros start d Hc Hold Hnew;
    [reflexivity|].
  rewrite for_range_S, insert_generated_step.
  destruct (Hc start) as [c Ec]; [lia|]. rewrite Ec.
  assert (Hins : collection.insert_one qr_codes_unique (doc start c)
                   (qr_codes d) = Ok (qr_codes d ++ [doc start c])).
  { apply insert_one_ok. split; [reflexivity|].
    intros key y [<-|[<-|[]]] Hy; apply (Hold start c y); auto; lia. }
  rewrite Hins.
  set (d1 := Database _ _ _).
  assert (H1 : is_ok (snd (for_range (insert_generated code doc)
                             (S start) n d1)) = true).
  { apply IH.
    - intros i Hi. apply Hc. lia.
    - intros i ci y Hi Hci Hy. unfold d1 in Hy. cbn [qr_codes] in Hy.
      apply in_app_or in Hy as [Hy|[<-|[]]].
      + apply Hold; auto; lia.
      + apply (Hnew start i c ci); auto; lia.
    - intros i j ci cj Hij Hj. apply Hnew; lia. }
  destruct (for_range (insert_generated code doc) (S start) n d1)
    as [d2 [docs|e]]; [reflexivity|discriminate].
Qed.

(** X10: a first generation succeeds: for a permitted caller, a stored
    batch whose identifier has no lone surrogate and an [int] quantity
    from 1 to 10000, when the library makes a picture of each of the
    code strings, the object identifiers handed out are new and pairwise
    distinct and every stored code string was generated for another
    batch, [generate_batch_qr_codes] answers with exactly [quantity]
    documents. *)
Theorem first_generation_succeeds
    (E : env) (u : user) (r : qr_codes.batch_data) (d : database)
    (b : pystr) (x : Batch.doc) (q : Z) :
  security.check_permissions (role u) (str_of "qr_codes") = true ->
  truthy (qr_codes.fittingBatchId r) = Some b ->
  collection.find_one (by_id_batch b) (fitting_batches d) = Some x ->
  qr_codes.requested r = json.Int q ->
  (1 <= q <= 10000)%Z ->
  Forall encodable b ->
  (forall i s, (Z.of_nat i < q)%Z ->
               security.generate_qr_code_data (clock E i) b (Z.of_nat i + 1)
               = Ok s ->
               image E s <> None) ->
  (forall i j, (i < j)%nat -> (Z.of_nat j < q)%Z ->
               object_id E j <> object_id E i) ->
  (forall i y, (Z.of_nat i < q)%Z ->
               In y (qr_codes d) -> object_id E i <> QRCode._id y) ->
  (forall y, In y (qr_codes d) ->
             exists t b' m,
               security.generate_qr_code_data t b' m = Ok (QRCode.qrCode y)
               /\ b' <> b) ->
  exists docs,
    snd (qr_codes.generate_batch_qr_codes E u r d) = Ok docs
    /\ Z.of_nat (length docs) = q.
Proof.
  intros Hp Hb Hx Hr Hq Henc Himg Hids Hfresh Hother.
  rewrite (generate_batch_qr_codes_int _ _ _ _ Hr), Hp, Hb, Hx. cbn [negb].
  replace ((q <=? 0) || (q >? 10000))%Z with false.
  2:{ symmetry. apply orb_false_iff. split.
      - apply Z.leb_gt. lia.
      - rewrite Z.gtb_ltb. apply Z.ltb_ge. lia. }
  assert (Hloop : is_ok (snd (for_range
                                (insert_generated (code_at E b)
                                   (qr_codes.qr_doc E u r b))
                                0 (Z.to_nat q) d))
                  = true).
  { apply for_range_insert_generated_ok.
    - intros i Hi.
      destruct (generate_qr_code_data_ok (clock E i) (Z.of_nat i + 1) Henc)
        as [bytes Hg].
      set (s := str_of "QRTF_" ++ b ++ str_of "_"
                  ++ format_06d (Z.of_nat i + 1) ++ str_of "_"
                  ++ security.hash_hex bytes) in Hg.
      destruct (image E s) as [img|] eqn:Hm.
      + exists (s, img). apply code_at_ok. now split.
      + exfalso. apply (Himg i s); [lia|exact Hg|exact Hm].
    - intros i c y Hi Hc Hy. cbn [qr_codes.qr_doc QRCode._id QRCode.qrCode].
      split; [apply Hfresh; [lia|exact Hy]|].
      intros Heq. destruct (Hother y Hy) as [t [b' [m [Hg Hne]]]].
      rewrite <- Heq in Hg. apply code_at_ok in Hc as [Hc _].
      destruct (generate_qr_code_data_inj _ _ _ _ _ _ Hg Hc) as [Hbb _].
      contradiction.
    - intros i j ci cj Hij Hj Hci Hcj.
      cbn [qr_codes.qr_doc QRCode._id QRCode.qrCode].
      split; [apply Hids; lia|].
      intros Heq. apply code_at_ok in Hci as [Hci _].
      apply code_at_ok in Hcj as [Hcj _]. rewrite Heq in Hcj.
      destruct (generate_qr_code_data_inj _ _ _ _ _ _ Hci Hcj) as [_ Hn].
      lia. }
  pose proof (for_range_insert_generated (code_at E b)
                (qr_codes.qr_doc E u r b) (Z.to_nat q) 0 d) as H.
  cbn zeta in H.
  destruct (for_range _ _ _ d) as [d' [docs|e]]; [|discriminate].
  cbn [fst snd] in *. destruct H as [_ [_ [_ [_ Hf]]]].
  exists docs. split; [reflexivity|].
  apply Forall2_length_seq in Hf. lia.
Qed.

Lemma first_generation_succeeds_witness :
  exists docs,
    snd (qr_codes.generate_batch_qr_codes (sample.at_time 1700000000 "a")
           sample.admin (sample.generate 3) sample.batch_db) = Ok docs
    /\ Z.of_nat (length docs) = 3%Z.
Proof.
  apply (@first_generation_succeeds (sample.at_time 1700000000 "a")
           sample.admin (sample.generate 3) sample.batch_db (str_of "B1")
           (Batch.Doc (str_of "B1") None None) 3%Z).
  - vm_compute. reflexivity.
  - reflexivity.
  - vm_compute. reflexivity.
  - reflexivity.
  - lia.
  - change (str_of "B1") with [66%N; 49%N].
    repeat constructor; unfold encodable; lia.
  - intros i s Hi Hs.
    assert (Hi' : (i = 0 \/ i = 1 \/ i = 2)%nat) by lia.
    destruct Hi' as [-> | [-> | ->]]; vm_compute in Hs;
      injection Hs as <-; vm_compute; discriminate.
  - intros i j Hij Hj Heq. cbn in Hj.
    assert (Hi : (i = 0 \/ i = 1)%nat) by lia.
    assert (Hj' : (j = 1 \/ j = 2)%nat) by lia.
    destruct Hi as [-> | ->], Hj' as [-> | ->];
      try lia; vm_compute in Heq; discriminate.
  - intros i y _ [].
  - intros y [].
Defined.

End GenerationSucceeds.

(** ** Installations and QR codes stay in step *)

Section Binding.

Import installations.

Lemma find_one_update_one_other (A : Type) (query query' : A -> bool)
    (set : A -> A) (c : list A) :
  (forall z, query z = true -> query' z = false /\ query' (set z) = false) ->
  collection.find_one query' (collection.update_one query set c)
  = collection.find_one query' c.
Proof.
  intros H. unfold collection.find_one.
  induction c as [|z c IH]; cbn [collection.update_one find];
    [reflexivity|].
  destruct (query z) eqn:E; cbn [find].
  - destruct (H z E) as [-> ->]. reflexivity.
  - now rewrite IH.
Qed.

Lemma update_one_first (A : Type) (query : A -> bool) (set : A -> A)
    (c : list A) (z : A) :
  collection.find_one query c = Some z ->
  exists c1 c2,
    c = c1 ++ z :: c2
    /\ collection.update_one query set c = c1 ++ set z :: c2.
Proof.
  unfold collection.find_one.
  induction c as [|y c IH]; cbn [find collection.update_one];
    [discriminate|].
  destruct (query y) eqn:E.
  - intros H. injection H as ->. now exists [], c.
  - intros H. destruct (IH H) as [c1 [c2 [-> ->]]].
    now exists (y :: c1), c2.
Qed.

Lemma find_one_app_old (A : Type) (query : A -> bool) (c c' : list A)
    (z : A) :
  collection.find_one query c = Some z ->
  collection.find_one query (c ++ c') = Some z.
Proof.
  unfold collection.find_one.
  induction c as [|y c IH]; cbn [find app]; [discriminate|].
  destruct (query y); [auto|exact IH].
Qed.

Lemma by_id_qr_other (a a' : pystr) (set : QRCode.doc -> QRCode.doc) :
  a' <> a ->
  (forall z, QRCode._id (set z) = QRCode._id z) ->
  forall z, by_id_qr a z = true ->
            by_id_qr a' z = false /\ by_id_qr a' (set z) = false.
Proof.
  intros Hne Hid z Hz. unfold by_id_qr in *. rewrite Hid.
  apply eqb_eq in Hz. assert (H : Py.eqb (QRCode._id z) a' = false).
  { apply eqb_neq. congruence. }
  now split.
Qed.

(** Generation only appends QR codes and keeps the installations. *)
Lemma generation_appends (C : Type) (code : nat -> result C)
    (doc : nat -> C -> QRCode.doc) (n : nat) (d : database) :
  let r := for_range (insert_generated code doc) 0 n d in
  fitting_installations (fst r) = fitting_installations d
  /\ exists added, qr_codes (fst r) = qr_codes d ++ added.
Proof.
  cbn zeta.
  destruct (for_range_insert_generated code doc n 0 d) as [_ [Hi _]].
  destruct (for_range_insert_generated_added code doc n 0 d)
    as [added [Ha _]].
  split; [exact Hi|now exists added].
Qed.

Lemma bound_appended (d d' : database) (added : list QRCode.doc) :
  fitting_installations d' = fitting_installations d ->
  qr_codes d' = qr_codes d ++ added ->
  bound d -> bound d'.
Proof.
  intros Hi Hq [Hn Hb]. unfold bound. rewrite Hi, Hq.
  split; [exact Hn|]. intros x Hx. destruct (Hb x Hx) as [q [Hf Hs]].
  exists q. split; [now apply find_one_app_old|exact Hs].
Qed.

Lemma step_bound (d d' : database) : step d d' -> bound d -> bound d'.
Proof.
  intros Hstep Hd.
  destruct Hstep as [E u r d|E b q m o d|oid now u r d|i u r d].
  - destruct (generate_cases E u r d) as [[q Hr]|[_ Hsame]];
      [|now rewrite Hsame].
    rewrite (generate_batch_qr_codes_int _ _ _ _ Hr).
    destruct (negb _); [exact Hd|].
    destruct (truthy _) as [b|]; [|exact Hd].
    destruct (_ || _)%bool; [exact Hd|].
    destruct (collection.find_one _ _); [|exact Hd].
    destruct (generation_appends (code_at E b) (qr_codes.qr_doc E u r b)
                (Z.to_nat q) d)
      as [Hi [added Ha]].
    destruct (for_range _ _ _ d) as [d1 [docs|e]]; cbn [fst snd] in *;
      now apply (@bound_appended d _ added).
  - rewrite generate_qr_codes_for_batch_unfold.
    destruct (collection.find_one _ _); [|exact Hd].
    destruct (generation_appends (code_at E b)
                (qr_service.qr_code_doc E b m o) (Z.to_nat q) d)
      as [Hi [added Ha]].
    destruct (for_range _ _ _ d) as [d1 [docs|e]]; cbn [fst snd] in *;
      now apply (@bound_appended d _ added).
  - destruct (is_ok (snd (create_installation oid now u r d))) eqn:Hok.
    2:{ destruct (snd (create_installation oid now u r d)) as [x|e] eqn:Hs;
          [discriminate|].
        now rewrite (create_installation_raise _ _ _ _ _ Hs). }
    destruct (create_installation_ok _ _ _ _ _ Hok)
      as [qid [z [t [q [_ [_ [_ [_ [_ [Hq [Hx E]]]]]]]]]]].
    rewrite E. cbn [fst]. destruct Hd as [Hn Hb].
    assert (Hfree : forall y, In y (fitting_installations d) ->
                              Installation.qrCodeId y <> qid).
    { intros y Hy. rewrite find_one_none in Hx. specialize (Hx y Hy).
      now apply eqb_neq in Hx. }
    split; cbn [fitting_installations qr_codes].
    + rewrite map_app. cbn [map].
      apply NoDup_rev in Hn.
      rewrite <- (rev_involutive (map _ _ ++ _)).
      apply NoDup_rev. rewrite rev_app_distr. cbn [rev app].
      constructor; [|exact Hn].
      rewrite <- in_rev. intros Hin.
      apply in_map_iff in Hin as [y [Hy Hin]].
      exact (Hfree y Hin Hy).
    + intros y Hy. apply in_app_or in Hy as [Hy|[<-|[]]].
      * destruct (Hb y Hy) as [qy [Hfy Hsy]]. exists qy.
        split; [|exact Hsy].
        rewrite find_one_update_one_other; [exact Hfy|].
        apply by_id_qr_other; [now apply Hfree|reflexivity].
      * exists (QRCode.set_installed (userId u) q).
        cbn [installation_doc Installation.qrCodeId Installation.status].
        rewrite find_one_update_one by (intros; reflexivity).
        rewrite Hq. now split.
  - rewrite update_installation_status_unfold.
    destruct (negb _); [exact Hd|].
    destruct (truthy _) as [s|]; [|exact Hd].
    destruct (negb _); [exact Hd|].
    destruct (collection.find_one _ _) as [x|] eqn:Hx; [|exact Hd].
    cbn [fst]. destruct Hd as [Hn Hb]. unfold updated.
    destruct (@update_one_first _ _
                (update_data s (status_remarks r) (userId u)) _ _ Hx)
      as [c1 [c2 [Hc Hu]]].
    assert (Hxin : In x (fitting_installations d)).
    { rewrite Hc. apply in_or_app. right. now left. }
    destruct (Hb x Hxin) as [q [Hq _]].
    split; cbn [fitting_installations qr_codes].
    + rewrite update_one_map; [exact Hn|reflexivity].
    + rewrite Hu. intros y Hy.
      assert (Hcases : y = update_data s (status_remarks r) (userId u) x
                       \/ (In y (c1 ++ c2))).
      { apply in_app_or in Hy as [Hy|[Hy|Hy]].
        - right. apply in_or_app. now left.
        - left. now symmetry.
        - right. apply in_or_app. now right. }
      destruct Hcases as [->|Hy'].
      * exists (QRCode.set_status s q).
        cbn [update_data Installation.qrCodeId Installation.status].
        rewrite find_one_update_one by (intros; reflexivity).
        rewrite Hq. now split.
      * assert (Hne : Installation.qrCodeId y <> Installation.qrCodeId x).
        { rewrite Hc, map_app in Hn. cbn [map] in Hn.
          apply NoDup_remove_2 in Hn. intros Heq. apply Hn.
          rewrite <- Heq, <- map_app. now apply in_map. }
        assert (Hyin : In y (fitting_installations d)).
        { rewrite Hc. apply in_app_or in Hy' as [Hy'|Hy'];
            apply in_or_app; [now left|right; now right]. }
        destruct (Hb y Hyin) as [qy [Hfy Hsy]]. exists qy.
        split; [|exact Hsy].
        rewrite find_one_update_one_other; [exact Hfy|].
        apply by_id_qr_other; [exact Hne|reflexivity].
Qed.

(** X11: installations and QR codes stay in step: along every run of
    generation, installation and status-update requests, from a database
    in which no two installations reference the same QR code and every
    referenced QR code is stored with the status of its installation,
    the same holds of every database reached. *)
Theorem binding_is_kept (d d' : database) :
  bound d -> run d d' -> bound d'.
Proof.
  intros Hd Hrun. induction Hrun as [d|d d1 d2 Hstep _ IH]; [exact Hd|].
  apply IH. exact (step_bound Hstep Hd).
Qed.

Lemma binding_is_kept_witness :
  bound (fst (update_installation_status (str_of "i1") sample.admin
                (sample.set_status "maintenance_due")
                (fst (create_installation (str_of "i1") sample.march_15 sample.admin
                        sample.install_q1 sample.generated_db)))).
Proof.
  apply (@binding_is_kept sample.generated_db).
  - split; [constructor|]. intros x [].
  - eapply run_step; [apply step_create_installation|].
    eapply run_step; [apply step_update_status|apply run_done].
Defined.

End Binding.

(** ** Nothing is deleted or re-identified *)

Section AppendOnly.

Import installations.

Lemma extends_refl (d : database) : extends d d.
Proof.
  split; [reflexivity|].
  split; exists []; now rewrite List.app_nil_r.
Qed.

Lemma extends_trans (d1 d2 d3 : database) :
  extends d1 d2 -> extends d2 d3 -> extends d1 d3.
Proof.
  intros [Hb [[a Hq] [a' Hi]]] [Hb' [[b Hq'] [b' Hi']]].
  split; [congruence|]. split.
  - exists (a ++ b). now rewrite Hq', Hq, app_assoc.
  - exists (a' ++ b'). now rewrite Hi', Hi, app_assoc.
Qed.

Lemma extends_generated (d d1 : database) (added : list QRCode.doc)
    (f : Batch.doc -> Batch.doc) (b : pystr) :
  fitting_batches d1 = fitting_batches d ->
  fitting_installations d1 = fitting_installations d ->
  qr_codes d1 = qr_codes d ++ added ->
  (forall x, Batch._id (f x) = Batch._id x) ->
  extends d d1
  /\ extends d (with_batches (collection.update_one (by_id_batch b) f) d1).
Proof.
  intros Hb Hi Hq Hf.
  assert (H1 : extends d d1).
  { split; [now rewrite Hb|]. split.
    - exists (map qr_identity added). now rewrite Hq, map_app.
    - exists []. now rewrite Hi, List.app_nil_r. }
  split; [exact H1|].
  destruct H1 as [H1b [H1q H1i]]. unfold with_batches.
  split; [|split; assumption]. cbn [fitting_batches].
  rewrite update_one_map; [exact H1b|exact Hf].
Qed.

Lemma step_extends (d d' : database) : step d d' -> extends d d'.
Proof.
  intros Hstep.
  destruct Hstep as [E u r d|E b q m o d|oid now u r d|i u r d].
  - destruct (generate_cases E u r d) as [[q Hr]|[_ Hsame]];
      [|rewrite Hsame; apply extends_refl].
    rewrite (generate_batch_qr_codes_int _ _ _ _ Hr).
    destruct (negb _); [apply extends_refl|].
    destruct (truthy _) as [b|]; [|apply extends_refl].
    destruct (_ || _)%bool; [apply extends_refl|].
    destruct (collection.find_one _ _); [|apply extends_refl].
    destruct (for_range_insert_generated (code_at E b)
                (qr_codes.qr_doc E u r b) (Z.to_nat q) 0 d) as [Hb [Hi _]].
    destruct (for_range_insert_generated_added (code_at E b)
                (qr_codes.qr_doc E u r b) (Z.to_nat q) 0 d)
      as [added [Ha _]].
    destruct (for_range _ _ _ d) as [d1 [docs|e]]; cbn [fst snd] in *.
    + apply (@extends_generated d d1 added); auto.
    + apply (@extends_generated d d1 added (fun x => x) b); auto.
  - rewrite generate_qr_codes_for_batch_unfold.
    destruct (collection.find_one _ _); [|apply extends_refl].
    destruct (for_range_insert_generated (code_at E b)
                (qr_service.qr_code_doc E b m o) (Z.to_nat q) 0 d)
      as [Hb [Hi _]].
    destruct (for_range_insert_generated_added (code_at E b)
                (qr_service.qr_code_doc E b m o) (Z.to_nat q) 0 d)
      as [added [Ha _]].
    destruct (for_range _ _ _ d) as [d1 [docs|e]]; cbn [fst snd] in *.
    + apply (@extends_generated d d1 added); auto.
    + apply (@extends_generated d d1 added (fun x => x) b); auto.
  - destruct (is_ok (snd (create_installation oid now u r d))) eqn:Hok.
    2:{ destruct (snd (create_installation oid now u r d)) as [x|e] eqn:Hs;
          [discriminate|].
        rewrite (create_installation_raise _ _ _ _ _ Hs).
        apply extends_refl. }
    destruct (create_installation_ok _ _ _ _ _ Hok)
      as [qid [z [t [q [_ [_ [_ [_ [_ [_ [_ E]]]]]]]]]]].
    rewrite E. cbn [fst]. split; [reflexivity|]. split.
    + exists []. cbn [qr_codes].
      rewrite update_one_map by reflexivity. now rewrite List.app_nil_r.
    + eexists. cbn [fitting_installations]. now rewrite map_app.
  - rewrite update_installation_status_unfold.
    destruct (negb _); [apply extends_refl|].
    destruct (truthy _) as [s|]; [|apply extends_refl].
    destruct (negb _); [apply extends_refl|].
    destruct (collection.find_one _ _) as [x|]; [|apply extends_refl].
    cbn [fst]. unfold updated. split; [reflexivity|]. split.
    + exists []. cbn [qr_codes].
      rewrite update_one_map by reflexivity. now rewrite List.app_nil_r.
    + exists []. cbn [fitting_installations].
      rewrite update_one_map by reflexivity. now rewrite List.app_nil_r.
Qed.

(** X12: nothing is deleted or re-identified: along every run of
    generation, installation and status-update requests the batches
    stay the same set of identifiers, and the QR codes and the
    installations stored at the start are still stored at the end, in
    the same order and with the same identifying fields (for a QR code
    its [_id], code string, batch and sequence number; for an
    installation its [_id], QR code, zone, track section and installer);
    new documents come after them. *)
Theorem stored_documents_persist (d d' : database) :
  run d d' -> extends d d'.
Proof.
  intros Hrun. induction Hrun as [d|d d1 d2 Hstep _ IH];
    [apply extends_refl|].
  eapply extends_trans; [exact (step_extends Hstep)|exact IH].
Qed.

Lemma stored_documents_persist_witness :
  extends sample.generated_db
    (fst (create_installation (str_of "i1") sample.march_15 sample.admin
            sample.install_q1 sample.generated_db)).
Proof.
  apply stored_documents_persist.
  eapply run_step; [apply step_create_installation|apply run_done].
Defined.

End AppendOnly.

(** ** Verification of a QR code *)

Section Verification.

Import verification.

Lemma score_out_of_range_raise (score : option json.value) (e : exn) :
  score_out_of_range score = Raise e ->
  score = Some json.Other /\ e = TypeError.
Proof.
  unfold score_out_of_range.
  destruct score as [[z|[q|n|]|]|]; cbn [json.lt_int json.gt_int];
    try (destruct (_ <? _)%Z); try (destruct (Qle_bool _ _));
    try destruct n; cbn [negb]; try discriminate.
  intros H. now injection H as <-.
Qed.

(** The scores that pass the check: none, a number from 0 to 1, and
    NaN, which is neither below 0 nor above 1. *)
Lemma score_accepted (score : option json.value) :
  score_out_of_range score = Ok false
  <-> score = None
      \/ score = Some (json.Float json.NaN)
      \/ (exists z, score = Some (json.Int z) /\ (0 <= z <= 1)%Z)
      \/ (exists q, score = Some (json.Float (json.Finite q))
                    /\ (0 <= q)%Q /\ (q <= 1)%Q).
Proof.
  unfold score_out_of_range.
  destruct score as [[z|[q|n|]|]|]; cbn [json.lt_int json.gt_int].
  - destruct (z <? 0)%Z eqn:E1.
    + apply Z.ltb_lt in E1. split; [discriminate|].
      intros [H|[H|[[z' [H Hz]]|[q [H _]]]]]; try discriminate.
      injection H as <-. lia.
    + apply Z.ltb_ge in E1. split.
      * intros H. injection H as H. right. right. left. exists z.
        split; [reflexivity|]. rewrite Z.gtb_ltb in H.
        apply Z.ltb_ge in H. lia.
      * intros [H|[H|[[z' [H Hz]]|[q [H _]]]]]; try discriminate.
        injection H as <-. f_equal. rewrite Z.gtb_ltb.
        apply Z.ltb_ge. lia.
  - change (inject_Z 0) with 0%Q. change (inject_Z 1) with 1%Q.
    destruct (Qle_bool 0 q) eqn:E1; cbn [negb].
    + apply Qle_bool_iff in E1. destruct (Qle_bool q 1) eqn:E2; cbn [negb].
      * apply Qle_bool_iff in E2. split; [intros _|reflexivity].
        right. right. right. now exists q.
      * split; [discriminate|].
        intros [H|[H|[[z' [H Hz]]|[q' [H [_ Hq]]]]]]; try discriminate.
        injection H as <-. apply Qle_bool_iff in Hq. congruence.
    + split; [discriminate|].
      intros [H|[H|[[z' [H Hz]]|[q' [H [Hq _]]]]]]; try discriminate.
      injection H as <-. apply Qle_bool_iff in Hq. congruence.
  - destruct n; cbn [negb]; (split; [discriminate|]);
      intros [H|[H|[[z' [H Hz]]|[q' [H _]]]]]; discriminate.
  - split; [intros _; right; now left|reflexivity].
  - split; [discriminate|].
    intros [H|[H|[[z' [H Hz]]|[q' [H _]]]]]; discriminate.
  - split; [intros _; now left|reflexivity].
Qed.

(** [verify_qr_code], by cases on the stored document. *)
Lemma verify_qr_code_unfold (i : pystr) (u : user)
    (r : request.verification_data) (s : store) :
  verify_qr_code i u r s
  = if negb (security.check_permissions (role u) (str_of "qr_codes"))
    then (s, Raise (HTTPException 403 (str_of "Insufficient permissions")))
    else
      match request.verificationStatus r with
      | None => (s, Raise invalid_status)
      | Some vs =>
          if negb (mem vs verification_statuses)
          then (s, Raise invalid_status)
          else
            match score_out_of_range (request.printQualityScore r) with
            | Raise _ => (s, Raise failed_to_verify)
            | Ok true => (s, Raise invalid_score)
            | Ok false =>
            match collection.find_one (by_id_qr i) (qr_codes (db s)) with
            | None => (s, Raise failed_to_verify)
            | Some q =>
                (Store
                   (Database (fitting_batches (db s))
                      (collection.update_one (by_id_qr i)
                         (QRCode.set_status vs) (qr_codes (db s)))
                      (fitting_installations (db s)))
                   ((i, update_data vs u r (lookup i (verified s)))
                      :: verified s),
                 Ok (QRCode.set_status vs q,
                     update_data vs u r (lookup i (verified s))))
            end
            end
      end.
Proof.
  unfold verify_qr_code.
  destruct (negb (security.check_permissions _ _)); [reflexivity|].
  destruct (request.verificationStatus r) as [vs|]; [|reflexivity].
  destruct (negb (mem vs verification_statuses)); [reflexivity|].
  destruct (score_out_of_range _) as [[|]|e] eqn:Hs; [reflexivity| |].
  2:{ apply score_out_of_range_raise in Hs as [_ ->]. reflexivity. }
  cbn zeta. cbn [db qr_codes].
  rewrite find_one_update_one by (intros; reflexivity).
  destruct (collection.find_one (by_id_qr i) (qr_codes (db s)))
    as [q|] eqn:Hq; cbn [option_map]; [reflexivity|].
  rewrite (update_one_none _ _ _ Hq).
  destruct s as [[b q0 x] v]. reflexivity.
Qed.

(** X13: [verify_qr_code] succeeds exactly when the caller has the
    qr_codes permission, the verification status is verified, rejected
    or needs_reprint, the print quality score passes the check, and a
    QR code is stored under the identifier. The scores that pass are:
    none, an [int] or [float] from 0 to 1, and NaN, which is stored as
    the score although it is not within 0 to 1. For a missing QR code
    the answer is the internal error 500, not 404; on success the stored
    code gets the verification status as its status, whatever status it
    had, keeps its identifying fields, a score that was given is the
    score recorded, and batches and installations are untouched; every
    error leaves the store as it was. *)
Theorem verify_qr_code_outcomes (i : pystr) (u : user)
    (r : request.verification_data) (s : store) :
  let answer := verify_qr_code i u r s in
  let score := request.printQualityScore r in
  let acceptable :=
    security.check_permissions (role u) (str_of "qr_codes") = true
    /\ (exists vs, request.verificationStatus r = Some vs
                   /\ In vs verification_statuses)
    /\ (score = None
        \/ score = Some (json.Float json.NaN)
        \/ (exists z, score = Some (json.Int z) /\ (0 <= z <= 1)%Z)
        \/ (exists q, score = Some (json.Float (json.Finite q))
                      /\ (0 <= q)%Q /\ (q <= 1)%Q)) in
  (is_ok (snd answer) = true
   <-> acceptable
       /\ exists q, collection.find_one (by_id_qr i) (qr_codes (db s))
                    = Some q)
  /\ (acceptable ->
      collection.find_one (by_id_qr i) (qr_codes (db s)) = None ->
      answer = (s, Raise failed_to_verify))
  /\ (forall e, snd answer = Raise e -> fst answer = s)
  /\ (forall q' f, snd answer = Ok (q', f) ->
        Some (QRCode.status q') = request.verificationStatus r
        /\ verificationStatus f = QRCode.status q'
        /\ verifiedBy f = userId u
        /\ (forall v, score = Some v -> printQualityScore f = Some v)
        /\ collection.find_one (by_id_qr i) (qr_codes (db (fst answer)))
           = Some q'
        /\ map qr_identity (qr_codes (db (fst answer)))
           = map qr_identity (qr_codes (db s))
        /\ fitting_batches (db (fst answer)) = fitting_batches (db s)
        /\ fitting_installations (db (fst answer))
           = fitting_installations (db s)).
Proof.
  cbn zeta. rewrite <- score_accepted. rewrite verify_qr_code_unfold.
  destruct (security.check_permissions _ _); cbn [negb].
  2:{ repeat split; try discriminate; try reflexivity.
      - intros [[H _] _]. discriminate.
      - intros [H _]. discriminate. }
  destruct (request.verificationStatus r) as [vs|].
  2:{ repeat split; try discriminate; try reflexivity.
      - intros [[_ [[vs [H _]] _]] _]. discriminate.
      - intros [_ [[vs [H _]] _]]. discriminate. }
  destruct (mem vs verification_statuses) eqn:Hm; cbn [negb].
  2:{ assert (Hn : ~ In vs verification_statuses).
      { intros H. apply mem_In in H. congruence. }
      repeat split; try discriminate; try reflexivity.
      - intros [[_ [[vs' [H Hin]] _]] _]. injection H as <-. contradiction.
      - intros [_ [[vs' [H Hin]] _]]. injection H as <-. contradiction. }
  apply mem_In in Hm.
  destruct (score_out_of_range _) as [[|]|e] eqn:Hsc.
  1,3: (split; [split; [discriminate|intros [[_ [_ H]] _]; discriminate]|]);
       (split; [intros [_ [_ H]]; discriminate|]);
       (split; [intros; reflexivity|intros; discriminate]).
  destruct (collection.find_one (by_id_qr i) (qr_codes (db s)))
    as [q|] eqn:Hq; cbn [fst snd is_ok].
  - split.
    { split; [intros _|reflexivity].
      split; [|now exists q].
      split; [reflexivity|]. split; [now exists vs|reflexivity]. }
    split; [discriminate|]. split; [discriminate|].
    intros q' f H. injection H as <- <-. cbn [db qr_codes fitting_batches
      fitting_installations QRCode.set_status QRCode.status update_data
      verificationStatus verifiedBy printQualityScore].
    rewrite find_one_update_one by (intros; reflexivity). rewrite Hq.
    rewrite update_one_map by reflexivity.
    repeat split; try reflexivity.
    intros v Hv. now rewrite Hv.
  - split.
    { split; [discriminate|]. intros [_ [q H]]. discriminate. }
    split; [reflexivity|]. split; [reflexivity|]. discriminate.
Qed.

Lemma verify_qr_code_outcomes_witness :
  let s := Store sample.generated_db [] in
  let r :=
    request.Data (Some (str_of "verified")) (Some (json.Float json.NaN))
      None in
  is_ok (snd (verify_qr_code (str_of "q1") sample.admin r s)) = true.
Proof.
  cbn zeta.
  apply (proj2 (proj1 (verify_qr_code_outcomes (str_of "q1")
                         sample.admin
                         (request.Data (Some (str_of "verified"))
                            (Some (json.Float json.NaN)) None)
                         (Store sample.generated_db [])))).
  split.
  - split; [vm_compute; reflexivity|].
    split; [|right; left; reflexivity].
    exists (str_of "verified"). split; [reflexivity|].
    vm_compute. tauto.
  - eexists. vm_compute. reflexivity.
Defined.

(** X14: verification of an installed code breaks the binding: when a
    stored installation with one of the five installation statuses
    references the QR code, a successful [verify_qr_code] leaves that QR
    code with a status that differs from the status of its installation,
    so the database is no longer [bound]. *)
Theorem verification_unbinds (i : pystr) (u : user)
    (r : request.verification_data) (s : store) (x : Installation.doc) :
  In x (fitting_installations (db s)) ->
  Installation.qrCodeId x = i ->
  In (Installation.status x) installations.valid_statuses ->
  is_ok (snd (verify_qr_code i u r s)) = true ->
  (forall q',
      collection.find_one (by_id_qr i)
        (qr_codes (db (fst (verify_qr_code i u r s)))) = Some q' ->
      QRCode.status q' <> Installation.status x)
  /\ ~ bound (db (fst (verify_qr_code i u r s))).
Proof.
  intros Hx Hi Hst. rewrite verify_qr_code_unfold.
  destruct (negb _); [discriminate|].
  destruct (request.verificationStatus r) as [vs|]; [|discriminate].
  destruct (negb (mem vs verification_statuses)) eqn:Hm; [discriminate|].
  destruct (score_out_of_range _) as [[|]|e]; [discriminate| |discriminate].
  destruct (collection.find_one (by_id_qr i) (qr_codes (db s)))
    as [q|] eqn:Hq; [|discriminate].
  intros _. cbn [fst db qr_codes fitting_installations].
  apply negb_false_iff, mem_In in Hm.
  assert (Hne : vs <> Installation.status x).
  { intros Heq. rewrite <- Heq in Hst.
    unfold verification_statuses in Hm. cbn [map In] in Hm.
    unfold installations.valid_statuses in Hst. cbn [map In] in Hst.
    repeat (destruct Hm as [Hm|Hm];
            [subst vs;
             repeat (destruct Hst as [Hst|Hst];
                     [vm_compute in Hst; discriminate|]);
             destruct Hst|]).
    destruct Hm. }
  assert (Hfind : forall q',
             collection.find_one (by_id_qr i)
               (collection.update_one (by_id_qr i) (QRCode.set_status vs)
                  (qr_codes (db s))) = Some q' ->
             QRCode.status q' <> Installation.status x).
  { intros q'. rewrite find_one_update_one by (intros; reflexivity).
    rewrite Hq. cbn [option_map]. intros H. injection H as <-. exact Hne. }
  split; [exact Hfind|].
  intros [_ Hb]. destruct (Hb x Hx) as [q' [Hq' Hs']].
  cbn [qr_codes] in Hq'. rewrite Hi in Hq'.
  exact (Hfind q' Hq' Hs').
Qed.

Lemma verification_unbinds_witness :
  let s := Store sample.retired_db [] in
  let r := request.Data (Some (str_of "rejected")) None None in
  (forall q',
      collection.find_one (by_id_qr (str_of "q1"))
        (qr_codes (db (fst (verify_qr_code (str_of "q1") sample.admin r s))))
      = Some q' ->
      QRCode.status q'
      <> Installation.status (sample.installation "i1" "q1" "retired"))
  /\ ~ bound (db (fst (verify_qr_code (str_of "q1") sample.admin r s))).
Proof.
  cbn zeta.
  apply (@verification_unbinds (str_of "q1") sample.admin
           (request.Data (Some (str_of "rejected")) None None)
           (Store sample.retired_db [])
           (sample.installation "i1" "q1" "retired")).
  - left. reflexivity.
  - reflexivity.
  - vm_compute. tauto.
  - vm_compute. reflexivity.
Defined.

End Verification.

(** ** The format validators *)

Section Validators.

Import re validators.
Local Open Scope nat_scope.

Lemma dollar_spec (s : pystr) : dollar s = true <-> at_end s.
Proof.
  unfold at_end. destruct s as [|c [|c' s]]; cbn [dollar].
  - split; [now left|reflexivity].
  - rewrite N.eqb_eq. split.
    + intros ->. now right.
    + intros [H|H]; [discriminate|now injection H].
  - split; [discriminate|]. intros [H|H]; discriminate.
Qed.

(** A repetition matches when some prefix of allowed length lies in the
    set and the continuation matches what follows. *)
Lemma repetition_spec (k : pystr -> bool) (set : list atom) (s : pystr) :
  forall lo hi,
    repetition k set lo hi s = true
    <-> exists pre post,
          s = pre ++ post
          /\ Forall (fun c => in_set set c = true) pre
          /\ (lo <= length pre)%nat
          /\ (forall h, hi = Some h -> (length pre <= h)%nat)
          /\ k post = true.
Proof.
  induction s as [|c s IH]; intros lo hi.
  - cbn [repetition]. split.
    + destruct lo; [|discriminate]. intros H. exists [], [].
      repeat split; auto. intros h _. cbn. lia.
    + intros [pre [post [Hs [_ [Hlo [_ Hk]]]]]].
      symmetry in Hs. apply app_eq_nil in Hs as [-> ->].
      destruct lo; [assumption|]. cbn in Hlo. lia.
  - assert (Hmore :
        in_set set c
        && match hi with
           | Some O => false
           | _ => repetition k set (pred lo) (option_map pred hi) s
           end = true
        <-> exists pre post,
              s = pre ++ post
              /\ Forall (fun c => in_set set c = true) (c :: pre)
              /\ (lo <= length (c :: pre))%nat
              /\ (forall h, hi = Some h -> (length (c :: pre) <= h)%nat)
              /\ k post = true).
    { rewrite andb_true_iff. split.
      - intros [Hc H].
        assert (H' : repetition k set (pred lo) (option_map pred hi) s
                     = true /\ hi <> Some O).
        { destruct hi as [[|h]|]; [discriminate| |];
            (split; [exact H|discriminate]). }
        destruct H' as [H' Hhi].
        apply IH in H' as [pre [post [Hs [Hall [Hlo [Hmax Hk]]]]]].
        exists pre, post. split; [assumption|].
        split; [now constructor|]. split; [cbn; lia|].
        split; [|assumption].
        intros h ->. destruct h as [|h]; [congruence|].
        specialize (Hmax h eq_refl). cbn. lia.
      - intros [pre [post [Hs [Hall [Hlo [Hmax Hk]]]]]].
        inversion Hall as [|? ? Hc Hall']; subst.
        split; [assumption|].
        assert (H : repetition k set (pred lo) (option_map pred hi)
                      (pre ++ post) = true).
        { apply IH. exists pre, post. split; [reflexivity|].
          split; [assumption|]. split; [cbn in Hlo; lia|].
          split; [|assumption].
          intros h Hh. destruct hi as [h'|]; [|discriminate].
          injection Hh as <-. specialize (Hmax h' eq_refl).
          cbn in Hmax. lia. }
        destruct hi as [[|h]|]; [|exact H|exact H].
        specialize (Hmax 0 eq_refl). cbn in Hmax. lia. }
    cbn [repetition]. cbn zeta. destruct lo as [|lo].
    + rewrite orb_true_iff, Hmore. split.
      * intros [[pre [post [Hs H]]]|Hk].
        -- exists (c :: pre), post. split; [now rewrite Hs|exact H].
        -- exists [], (c :: s). split; [reflexivity|].
           split; [constructor|]. split; [cbn; lia|].
           split; [intros; cbn; lia|assumption].
      * intros [[|c' pre] [post [Hs H]]].
        -- right. cbn in Hs. subst post. apply H.
        -- left. cbn in Hs. injection Hs as <- ->. now exists pre, post.
    + rewrite Hmore. split.
      * intros [pre [post [Hs H]]].
        exists (c :: pre), post. split; [now rewrite Hs|exact H].
      * intros [[|c' pre] [post [Hs H]]].
        -- destruct H as [_ [H _]]. cbn in H. lia.
        -- cbn in Hs. injection Hs as <- ->. now exists pre, post.
Qed.

Lemma matches_cut (p : list item) :
  forall s, matches p s = true <-> cut p s.
Proof.
  unfold matches. induction p as [|i p IH]; intros s;
    cbn [match_items cut].
  - apply dollar_spec.
  - rewrite repetition_spec. unfold piece. split.
    + intros [pre [post [Hs [Ha [Hlo [Hhi Hk]]]]]].
      exists pre, post. apply IH in Hk. auto.
    + intros [pre [post [Hs [[Ha [Hlo Hhi]] Hk]]]].
      exists pre, post. apply IH in Hk. auto.
Qed.

Lemma piece_exactly_1 (set : list atom) (pre : pystr) :
  piece (exactly 1 set) pre
  <-> exists c, pre = [c] /\ in_set set c = true.
Proof.
  unfold piece, exactly. cbn [chars at_least at_most]. split.
  - intros [Ha [Hlo Hhi]]. specialize (Hhi 1 eq_refl).
    destruct pre as [|c [|c' pre]]; cbn in Hlo, Hhi; try lia.
    exists c. split; [reflexivity|]. now inversion Ha.
  - intros [c [-> Hc]]. split; [now repeat constructor|].
    split; [cbn; lia|]. intros h Hh. injection Hh as <-. cbn. lia.
Qed.

Lemma piece_exactly (n : nat) (set : list atom) (pre : pystr) :
  piece (exactly n set) pre
  <-> length pre = n /\ Forall (fun c => in_set set c = true) pre.
Proof.
  unfold piece, exactly. cbn [chars at_least at_most]. split.
  - intros [Ha [Hlo Hhi]]. specialize (Hhi n eq_refl).
    split; [lia|assumption].
  - intros [Hn Ha]. split; [assumption|]. split; [lia|].
    intros h Hh. injection Hh as <-. lia.
Qed.

Lemma piece_or_more (n : nat) (set : list atom) (pre : pystr) :
  piece (or_more n set) pre
  <-> (n <= length pre)%nat /\ Forall (fun c => in_set set c = true) pre.
Proof.
  unfold piece, or_more. cbn [chars at_least at_most]. split.
  - intros [Ha [Hlo _]]. now split.
  - intros [Hn Ha]. split; [assumption|]. split; [assumption|].
    discriminate.
Qed.

Lemma in_set_digit (c : N) : in_set [Digit] c = true <-> decimal c.
Proof.
  unfold in_set, decimal. cbn [existsb atom_matches].
  now rewrite orb_false_r.
Qed.

Lemma in_range (lo hi c : N) :
  atom_matches (Range lo hi) c = true <-> (lo <= c <= hi)%N.
Proof.
  cbn [atom_matches]. rewrite andb_true_iff, !N.leb_le. reflexivity.
Qed.

Lemma in_set_upper (c : N) : in_set [upper] c = true <-> capital c.
Proof.
  unfold in_set, capital, upper. cbn [existsb].
  rewrite orb_false_r. apply in_range.
Qed.

Lemma in_set_letter (c : N) : in_set [lower; upper] c = true <-> letter c.
Proof.
  unfold in_set, letter, lower, upper. cbn [existsb].
  rewrite orb_false_r, orb_true_iff, !in_range. reflexivity.
Qed.

Lemma in_set_local (c : N) : in_set local_set c = true <-> local_char c.
Proof.
  unfold in_set, local_set, local_char, letter, lower, upper, digit09.
  cbn [existsb map In].
  rewrite !orb_true_iff, !in_range. cbn [atom_matches].
  rewrite !N.eqb_eq. intuition (auto; try discriminate).
Qed.

Lemma in_set_domain (c : N) : in_set domain_set c = true <-> domain_char c.
Proof.
  unfold in_set, domain_set, domain_char, letter, lower, upper, digit09.
  cbn [existsb map In].
  rewrite !orb_true_iff, !in_range. cbn [atom_matches].
  rewrite !N.eqb_eq. intuition (auto; try discriminate).
Qed.

Lemma count_occ_none (P : N -> Prop) (x : N) (l : pystr) :
  ~ P x -> Forall P l -> count_occ N.eq_dec l x = 0.
Proof.
  intros Hx HF. apply count_occ_not_In. intros Hin.
  rewrite Forall_forall in HF. exact (Hx (HF x Hin)).
Qed.

Lemma at_end_no (x : N) (tail : pystr) :
  at_end tail -> x <> 10%N -> count_occ N.eq_dec tail x = 0.
Proof.
  intros [->| ->] Hx; [reflexivity|].
  cbn [count_occ]. destruct (N.eq_dec 10 x); [congruence|reflexivity].
Qed.

(** X15: [validate_phone_number] accepts exactly a character 6..9
    followed by nine Unicode decimal digits (of any script, not only
    0..9), optionally followed by one newline. So every accepted string
    has 10 or 11 characters, and an accepted string need not consist of
    ASCII digits. *)
Theorem validate_phone_number_accepts (phone : pystr) :
  validate_phone_number phone = true
  <-> exists c ds tail,
        phone = c :: ds ++ tail
        /\ (code "6" <= c <= code "9")%N
        /\ length ds = 9
        /\ Forall decimal ds
        /\ at_end tail.
Proof.
  unfold validate_phone_number, phone_pattern. rewrite matches_cut.
  cbn [cut]. split.
  - intros [p1 [r1 [H1 [Hp1 [p2 [r2 [H2 [Hp2 He]]]]]]]].
    apply piece_exactly_1 in Hp1 as [c [-> Hc]].
    apply piece_exactly in Hp2 as [Hn Ha].
    exists c, p2, r2. subst. split; [reflexivity|].
    split.
    { unfold in_set in Hc. cbn [existsb] in Hc.
      rewrite orb_false_r in Hc. now apply in_range. }
    split; [assumption|]. split; [|assumption].
    eapply Forall_impl; [|exact Ha]; intros ?; apply in_set_digit.
  - intros [c [ds [tail [-> [Hc [Hn [Ha He]]]]]]].
    exists [c], (ds ++ tail). split; [reflexivity|]. split.
    { apply piece_exactly_1. exists c. split; [reflexivity|].
      unfold in_set. cbn [existsb]. rewrite orb_false_r.
      now apply in_range. }
    exists ds, tail. split; [reflexivity|]. split; [|assumption].
    apply piece_exactly. split; [assumption|].
    eapply Forall_impl; [|exact Ha]; intros ?; apply in_set_digit.
Qed.

Lemma validate_phone_number_accepts_witness :
  validate_phone_number
    ([57; 2407; 2408; 2409; 2410; 2411; 2412; 2413; 2414; 2415; 10]%N)
  = true.
Proof.
  apply (proj2 (validate_phone_number_accepts
                  [57; 2407; 2408; 2409; 2410; 2411; 2412; 2413; 2414;
                   2415; 10]%N)).
  exists 57%N, [2407; 2408; 2409; 2410; 2411; 2412; 2413; 2414; 2415]%N,
    [10%N].
  split; [reflexivity|]. split; [vm_compute; split; discriminate|].
  split; [reflexivity|]. split; [|now right].
  repeat constructor.
Defined.

(** X16: [validate_gst_number] accepts exactly: two decimal digits, two
    capital letters A..Z, four decimal digits, a capital, a digit, a
    capital, a digit, optionally followed by one newline. Every accepted
    string therefore has 12 characters, or 13 with the newline: a string
    of 15 characters is never accepted. *)
Theorem validate_gst_number_accepts (gst : pystr) :
  (validate_gst_number gst = true
   <-> exists d1 l1 d2 l2 d3 l3 d4 tail,
         gst = d1 ++ l1 ++ d2 ++ [l2; d3; l3; d4] ++ tail
         /\ length d1 = 2 /\ Forall decimal d1
         /\ length l1 = 2 /\ Forall capital l1
         /\ length d2 = 4 /\ Forall decimal d2
         /\ capital l2 /\ decimal d3 /\ capital l3 /\ decimal d4
         /\ at_end tail)
  /\ (validate_gst_number gst = true ->
      length gst = 12 \/ length gst = 13).
Proof.
  assert (Hiff :
    validate_gst_number gst = true
    <-> exists d1 l1 d2 l2 d3 l3 d4 tail,
          gst = d1 ++ l1 ++ d2 ++ [l2; d3; l3; d4] ++ tail
          /\ length d1 = 2 /\ Forall decimal d1
          /\ length l1 = 2 /\ Forall capital l1
          /\ length d2 = 4 /\ Forall decimal d2
          /\ capital l2 /\ decimal d3 /\ capital l3 /\ decimal d4
          /\ at_end tail).
  { unfold validate_gst_number, gst_pattern. rewrite matches_cut.
    cbn [cut]. split.
    - intros [p1 [r1 [H1 [Hp1 [p2 [r2 [H2 [Hp2 [p3 [r3 [H3 [Hp3
             [p4 [r4 [H4 [Hp4 [p5 [r5 [H5 [Hp5 [p6 [r6 [H6 [Hp6
             [p7 [r7 [H7 [Hp7 He]]]]]]]]]]]]]]]]]]]]]]]]]]]].
      apply piece_exactly in Hp1 as [Hn1 Ha1].
      apply piece_exactly in Hp2 as [Hn2 Ha2].
      apply piece_exactly in Hp3 as [Hn3 Ha3].
      apply piece_exactly_1 in Hp4 as [l2 [-> Hl2]].
      apply piece_exactly_1 in Hp5 as [d3 [-> Hd3]].
      apply piece_exactly_1 in Hp6 as [l3 [-> Hl3]].
      apply piece_exactly_1 in Hp7 as [d4 [-> Hd4]].
      exists p1, p2, p3, l2, d3, l3, d4, r7. subst.
      split; [reflexivity|].
      split; [assumption|].
      split; [eapply Forall_impl; [|exact Ha1]; intros ?; apply in_set_digit|].
      split; [assumption|].
      split; [eapply Forall_impl; [|exact Ha2]; intros ?; apply in_set_upper|].
      split; [assumption|].
      split; [eapply Forall_impl; [|exact Ha3]; intros ?; apply in_set_digit|].
      split; [now apply in_set_upper|].
      split; [now apply in_set_digit|].
      split; [now apply in_set_upper|].
      split; [now apply in_set_digit|assumption].
    - intros [d1 [l1 [d2 [l2 [d3 [l3 [d4 [tail
             [-> [Hn1 [Ha1 [Hn2 [Ha2 [Hn3 [Ha3 [Hl2 [Hd3 [Hl3 [Hd4 He
             ]]]]]]]]]]]]]]]]]]].
      exists d1, (l1 ++ d2 ++ [l2; d3; l3; d4] ++ tail).
      split; [reflexivity|]. split.
      { apply piece_exactly. split; [assumption|].
        eapply Forall_impl; [|exact Ha1]; intros ?; apply in_set_digit. }
      exists l1, (d2 ++ [l2; d3; l3; d4] ++ tail).
      split; [reflexivity|]. split.
      { apply piece_exactly. split; [assumption|].
        eapply Forall_impl; [|exact Ha2]; intros ?; apply in_set_upper. }
      exists d2, ([l2; d3; l3; d4] ++ tail).
      split; [reflexivity|]. split.
      { apply piece_exactly. split; [assumption|].
        eapply Forall_impl; [|exact Ha3]; intros ?; apply in_set_digit. }
      exists [l2], ([d3; l3; d4] ++ tail). split; [reflexivity|]. split.
      { apply piece_exactly_1. exists l2. split; [reflexivity|].
        now apply in_set_upper. }
      exists [d3], ([l3; d4] ++ tail). split; [reflexivity|]. split.
      { apply piece_exactly_1. exists d3. split; [reflexivity|].
        now apply in_set_digit. }
      exists [l3], ([d4] ++ tail). split; [reflexivity|]. split.
      { apply piece_exactly_1. exists l3. split; [reflexivity|].
        now apply in_set_upper. }
      exists [d4], tail. split; [reflexivity|]. split; [|assumption].
      apply piece_exactly_1. exists d4. split; [reflexivity|].
      now apply in_set_digit. }
  split; [exact Hiff|].
  intros H. apply Hiff in H
    as [d1 [l1 [d2 [l2 [d3 [l3 [d4 [tail
         [-> [Hn1 [_ [Hn2 [_ [Hn3 [_ [_ [_ [_ [_ He]]]]]]]]]]]]]]]]]]].
  rewrite !length_app, Hn1, Hn2, Hn3.
  destruct He as [-> | ->]; cbn [length]; [left|right]; lia.
Qed.

Lemma validate_gst_number_accepts_witness :
  length (str_of "22AAAAA0000A1Z5") = 15
  /\ validate_gst_number (str_of "22AAAAA0000A1Z5") <> true
  /\ validate_gst_number (str_of "22AA0000A1Z5") = true.
Proof.
  split; [reflexivity|]. split.
  - intros H.
    destruct (proj2 (validate_gst_number_accepts
                       (str_of "22AAAAA0000A1Z5")) H) as [H'|H'];
      vm_compute in H'; discriminate.
  - apply (proj2 (proj1 (validate_gst_number_accepts
                           (str_of "22AA0000A1Z5")))).
    exists (str_of "22"), (str_of "AA"), (str_of "0000"),
      (code "A"), (code "1"), (code "Z"), (code "5"), [].
    split; [reflexivity|].
    split; [reflexivity|]. split; [repeat constructor|].
    split; [reflexivity|].
    split; [repeat constructor; vm_compute; discriminate|].
    split; [reflexivity|]. split; [repeat constructor|].
    split; [vm_compute; split; discriminate|].
    split; [reflexivity|].
    split; [vm_compute; split; discriminate|].
    split; [reflexivity|now left].
Defined.

(** X17: [validate_email] accepts exactly: a non-empty local part of
    ASCII letters, digits and [._%+-], an [@], a non-empty domain of
    ASCII letters, digits, dots and hyphens, a dot, and at least two
    ASCII letters, optionally followed by one newline. An accepted
    address therefore contains exactly one [@]; the domain part may
    start or end with a dot or a hyphen and may contain consecutive
    dots. *)
Theorem validate_email_accepts (email : pystr) :
  (validate_email email = true
   <-> exists local domain tld tail,
         email = local ++ [code "@"] ++ domain ++ [code "."] ++ tld ++ tail
         /\ local <> [] /\ Forall local_char local
         /\ domain <> [] /\ Forall domain_char domain
         /\ (2 <= length tld)%nat /\ Forall letter tld
         /\ at_end tail)
  /\ (validate_email email = true ->
      count_occ N.eq_dec email (code "@") = 1).
Proof.
  assert (Hiff :
    validate_email email = true
    <-> exists local domain tld tail,
          email = local ++ [code "@"] ++ domain ++ [code "."] ++ tld ++ tail
          /\ local <> [] /\ Forall local_char local
          /\ domain <> [] /\ Forall domain_char domain
          /\ (2 <= length tld)%nat /\ Forall letter tld
          /\ at_end tail).
  { unfold validate_email, email_pattern. rewrite matches_cut.
    cbn [cut]. split.
    - intros [p1 [r1 [H1 [Hp1 [p2 [r2 [H2 [Hp2 [p3 [r3 [H3 [Hp3
             [p4 [r4 [H4 [Hp4 [p5 [r5 [H5 [Hp5 He]]]]]]]]]]]]]]]]]]]].
      apply piece_or_more in Hp1 as [Hn1 Ha1].
      apply piece_exactly_1 in Hp2 as [c2 [-> Hc2]].
      apply piece_or_more in Hp3 as [Hn3 Ha3].
      apply piece_exactly_1 in Hp4 as [c4 [-> Hc4]].
      apply piece_or_more in Hp5 as [Hn5 Ha5].
      unfold in_set in Hc2, Hc4. cbn [existsb atom_matches] in Hc2, Hc4.
      rewrite orb_false_r in Hc2, Hc4.
      apply N.eqb_eq in Hc2, Hc4. subst c2 c4.
      exists p1, p3, p5, r5. subst. split; [reflexivity|].
      split; [intros ->; cbn in Hn1; lia|].
      split; [eapply Forall_impl; [|exact Ha1]; intros ?; apply in_set_local|].
      split; [intros ->; cbn in Hn3; lia|].
      split; [eapply Forall_impl; [|exact Ha3]; intros ?; apply in_set_domain|].
      split; [assumption|].
      split; [eapply Forall_impl; [|exact Ha5]; intros ?; apply in_set_letter|].
      assumption.
    - intros [local [domain [tld [tail
             [-> [Hn1 [Ha1 [Hn3 [Ha3 [Hn5 [Ha5 He]]]]]]]]]]].
      exists local, ([code "@"] ++ domain ++ [code "."] ++ tld ++ tail).
      split; [reflexivity|]. split.
      { apply piece_or_more. split.
        - destruct local; [congruence|cbn; lia].
        - eapply Forall_impl; [|exact Ha1]; intros ?; apply in_set_local. }
      exists [code "@"], (domain ++ [code "."] ++ tld ++ tail).
      split; [reflexivity|]. split.
      { apply piece_exactly_1. exists (code "@"). now split. }
      exists domain, ([code "."] ++ tld ++ tail).
      split; [reflexivity|]. split.
      { apply piece_or_more. split.
        - destruct domain; [congruence|cbn; lia].
        - eapply Forall_impl; [|exact Ha3]; intros ?; apply in_set_domain. }
      exists [code "."], (tld ++ tail). split; [reflexivity|]. split.
      { apply piece_exactly_1. exists (code "."). now split. }
      exists tld, tail. split; [reflexivity|]. split; [|assumption].
      apply piece_or_more. split; [assumption|].
      eapply Forall_impl; [|exact Ha5]; intros ?; apply in_set_letter. }
  split; [exact Hiff|].
  intros H. apply Hiff in H
    as [local [domain [tld [tail
         [-> [_ [Ha1 [_ [Ha3 [_ [Ha5 He]]]]]]]]]]].
  assert (Hl : ~ local_char (code "@")).
  { unfold local_char, letter. cbn [map In]. vm_compute.
    intuition (try discriminate; auto). }
  assert (Hd : ~ domain_char (code "@")).
  { unfold domain_char, letter. cbn [map In]. vm_compute.
    intuition (try discriminate; auto). }
  assert (Ht : ~ letter (code "@")).
  { unfold letter. vm_compute. intuition (try discriminate; auto). }
  rewrite !count_occ_app.
  rewrite (count_occ_none _ Hl Ha1), (count_occ_none _ Hd Ha3),
    (count_occ_none _ Ht Ha5), (at_end_no He) by discriminate.
  reflexivity.
Qed.

Lemma validate_email_accepts_witness :
  validate_email (str_of "a@-..in") = true
  /\ count_occ N.eq_dec (str_of "a@-..in") (code "@") = 1.
Proof.
  assert (H : validate_email (str_of "a@-..in") = true).
  { apply (proj2 (proj1 (validate_email_accepts (str_of "a@-..in")))).
    exists (str_of "a"), (str_of "-."), (str_of "in"), [].
    split; [reflexivity|].
    split; [discriminate|].
    split.
    { apply Forall_cons; [|apply Forall_nil].
      left. left. vm_compute. split; discriminate. }
    split; [discriminate|].
    split.
    { apply Forall_cons; [|apply Forall_cons; [|apply Forall_nil]];
        right; right; cbn [map In]; auto. }
    split; [cbn; lia|].
    split; [|now left].
    repeat (apply Forall_cons; [left; vm_compute; split; discriminate|]).
    apply Forall_nil. }
  split; [exact H|].
  exact (proj2 (validate_email_accepts (str_of "a@-..in")) H).
Defined.

End Validators.

(** ** Pages of installations *)

Section Pages.

Import installation_list.
Local Open Scope nat_scope.

Variable regex : pystr -> option (pystr -> bool).
Variable sorted : list Installation.doc -> list Installation.doc.

(** Sorting neither drops nor adds documents. *)
Hypothesis sorted_length : forall l, length (sorted l) = length l.

Lemma firstn_add (A : Type) (n m : nat) (l : list A) :
  firstn (n + m) l = firstn n l ++ firstn m (skipn n l).
Proof.
  revert l. induction n as [|n IH]; intros l; [reflexivity|].
  destruct l as [|a l]; cbn [Nat.add firstn skipn app].
  - now rewrite firstn_nil.
  - now rewrite IH.
Qed.

Lemma chunks_concat (A : Type) (L : nat) (l : list A) (k : nat) :
  concat (map (fun p => firstn L (skipn (p * L) l)) (seq 0 k))
  = firstn (k * L) l.
Proof.
  induction k as [|k IH]; [reflexivity|].
  rewrite seq_S, map_app, concat_app, IH. cbn [Nat.add map concat].
  rewrite List.app_nil_r, Nat.mul_succ_l. symmetry. apply firstn_add.
Qed.

Lemma Forall2_map_seq (A B : Type) (R : A -> B -> Prop) (g : nat -> A)
    (h : nat -> B) (l : list nat) :
  (forall p, R (g p) (h p)) -> Forall2 R (map g l) (map h l).
Proof.
  intros H. induction l; cbn [map]; constructor; auto.
Qed.

Lemma pages_bounds (T L : Z) :
  (0 <= T)%Z -> (1 <= L)%Z ->
  (T <= (T + L - 1) / L * L < T + L)%Z.
Proof.
  intros HT HL.
  pose proof (Z.div_mod (T + L - 1) L ltac:(lia)) as Hd.
  pose proof (Z.mod_pos_bound (T + L - 1) L ltac:(lia)) as Hm.
  nia.
Qed.

Lemma get_installations_ok (page limit : Z) (f : filters) (u : user)
    (d : database) (matches : Installation.doc -> bool) :
  security.check_permissions (role u) (str_of "installations") = true ->
  query regex f = Some matches ->
  get_installations regex sorted page limit f u d
  = let found := sorted (filter matches (fitting_installations d)) in
    let total := Z.of_nat (length found) in
    Ok (firstn (Z.to_nat limit)
          (skipn (Z.to_nat ((page - 1) * limit)) found),
        Pagination page limit total ((total + limit - 1) / limit)
          (page <? (total + limit - 1) / limit)%Z (1 <? page)%Z).
Proof.
  intros Hp Hq. unfold get_installations. rewrite Hp, Hq.
  cbn [negb handled]. cbn zeta. now rewrite sorted_length.
Qed.

(** X18: [get_installations]. The handler never answers 403 or 500: in
    it [status] is the query parameter, so a caller without the
    installations permission, and a request whose [trackSection] the
    database cannot compile as a pattern, end in an [AttributeError]
    that leaves the handler; every other request is answered. For those
    (page and limit at least 1 as the route requires, a database that
    orders the same matches the same way on each request): [total]
    counts the matches; [pages] is the least number of pages of [limit]
    documents that hold them; the page holds
    min(limit, total - (page - 1) * limit) documents, none beyond the
    last page; [hasNext] is true exactly when matches remain after this
    page; and the pages 1 to [pages], one after the other, are the
    sorted matches, each exactly once. *)
Theorem get_installations_pages (page limit : Z) (f : filters) (u : user)
    (d : database) :
  let answer := get_installations regex sorted page limit f u d in
  (answer = Raise AttributeError
   <-> security.check_permissions (role u) (str_of "installations") = false
       \/ query regex f = None)
  /\ (forall e, answer = Raise e -> e = AttributeError)
  /\ (forall matches,
        security.check_permissions (role u) (str_of "installations") = true ->
        query regex f = Some matches ->
        (1 <= page)%Z -> (1 <= limit)%Z ->
        let found := sorted (filter matches (fitting_installations d)) in
        exists data pg,
          answer = Ok (data, pg)
          /\ total pg = Z.of_nat (length found)
          /\ (total pg <= pages pg * limit < total pg + limit)%Z
          /\ Z.of_nat (length data)
             = Z.min limit (Z.max 0 (total pg - (page - 1) * limit))
          /\ (data <> [] <-> (page <= pages pg)%Z)
          /\ (hasNext pg = true <-> (page * limit < total pg)%Z)
          /\ exists chunks,
               Forall2
                 (fun p chunk =>
                    exists pg',
                      get_installations regex sorted (Z.of_nat p) limit
                        f u d = Ok (chunk, pg'))
                 (seq 1 (Z.to_nat (pages pg))) chunks
               /\ concat chunks = found).
Proof.
  cbn zeta.
  assert (Herr :
    (get_installations regex sorted page limit f u d = Raise AttributeError
     <-> security.check_permissions (role u) (str_of "installations") = false
         \/ query regex f = None)
    /\ (forall e, get_installations regex sorted page limit f u d = Raise e ->
                  e = AttributeError)).
  { unfold get_installations.
    destruct (security.check_permissions _ _); cbn [negb].
    - destruct (query regex f) as [matches|]; cbn [handled].
      + split; [|discriminate]. split; [discriminate|].
        intros [H|H]; discriminate.
      + split; [split; auto|]. intros e H. now injection H as <-.
    - unfold raise_http, status_attribute. cbn [handled].
      unfold raise_http, status_attribute.
      split; [split; auto|]. intros e H. now injection H as <-. }
  destruct Herr as [Herr1 Herr2]. split; [exact Herr1|].
  split; [exact Herr2|].
  intros matches Hp Hquery Hpage Hlimit.
  set (found := sorted (filter matches (fitting_installations d))).
  rewrite (@get_installations_ok page limit f u d matches Hp Hquery).
  cbn zeta. fold found. eexists. eexists. split; [reflexivity|].
  cbn [total pages hasNext].
  set (T := Z.of_nat (length found)).
  set (P := ((T + limit - 1) / limit)%Z).
  assert (HT : (0 <= T)%Z) by (unfold T; lia).
  pose proof (pages_bounds HT Hlimit) as HP. fold P in HP.
  assert (Hlen :
    Z.of_nat (length (firstn (Z.to_nat limit)
                        (skipn (Z.to_nat ((page - 1) * limit)) found)))
    = Z.min limit (Z.max 0 (T - (page - 1) * limit))).
  { rewrite length_firstn, length_skipn. unfold T.
    assert (0 <= (page - 1) * limit)%Z by nia. lia. }
  split; [reflexivity|]. split; [exact HP|]. split; [exact Hlen|].
  split.
  { split.
    - intros Hne.
      assert (0 < Z.of_nat (length (firstn (Z.to_nat limit)
                 (skipn (Z.to_nat ((page - 1) * limit)) found))))%Z.
      { destruct (firstn _ _); [congruence|cbn [length]; lia]. }
      rewrite Hlen in H. nia.
    - intros Hle Hnil. rewrite Hnil in Hlen. cbn [length] in Hlen.
      nia. }
  split.
  { rewrite Z.ltb_lt. split; intros H; nia. }
  exists (map (fun p => firstn (Z.to_nat limit)
                          (skipn (p * Z.to_nat limit) found))
            (seq 0 (Z.to_nat P))).
  split.
  - rewrite <- seq_shift. apply Forall2_map_seq. intros p.
    rewrite (@get_installations_ok (Z.of_nat (S p)) limit f u d matches
               Hp Hquery).
    cbn zeta. fold found. eexists.
    replace (Z.to_nat ((Z.of_nat (S p) - 1) * limit))
      with (p * Z.to_nat limit); [reflexivity|].
    replace (Z.of_nat (S p) - 1)%Z with (Z.of_nat p) by lia.
    rewrite Z2Nat.inj_mul by lia. now rewrite Nat2Z.id.
  - rewrite chunks_concat. apply firstn_all2.
    assert (Z.of_nat (length found) <= Z.of_nat (Z.to_nat P * Z.to_nat limit))%Z;
      [|lia].
    rewrite Nat2Z.inj_mul, !Z2Nat.id by nia. apply HP.
Qed.

End Pages.

Lemma get_installations_pages_witness :
  let regex := fun _ : pystr => @None (pystr -> bool) in
  let viewer := User (str_of "viewer") (str_of "u9") in
  let f :=
    installation_list.Filters None None None (Some (str_of "retired"))
      None in
  installation_list.get_installations regex (@rev _) 1 10 f viewer
    sample.retired_db = Raise AttributeError
  /\ installation_list.get_installations regex (@rev _) 1 10
       (installation_list.Filters None None None None (Some (str_of "(")))
       sample.admin sample.retired_db = Raise AttributeError
  /\ exists data pg,
       installation_list.get_installations regex (@rev _) 1 10 f
         sample.admin sample.retired_db = Ok (data, pg)
       /\ installation_list.total pg = 1%Z.
Proof.
  cbn zeta. split; [|split].
  - apply (proj1 (@get_installations_pages (fun _ => None) (@rev _)
                    (@length_rev _) 1%Z 10%Z
                    (installation_list.Filters None None None
                       (Some (str_of "retired")) None)
                    (User (str_of "viewer") (str_of "u9"))
                    sample.retired_db)).
    left. vm_compute. reflexivity.
  - apply (proj1 (@get_installations_pages (fun _ => None) (@rev _)
                    (@length_rev _) 1%Z 10%Z
                    (installation_list.Filters None None None None
                       (Some (str_of "(")))
                    sample.admin sample.retired_db)).
    right. reflexivity.
  - destruct (proj2 (proj2 (@get_installations_pages (fun _ => None)
                              (@rev _) (@length_rev _) 1%Z 10%Z
                              (installation_list.Filters None None None
                                 (Some (str_of "retired")) None)
                              sample.admin sample.retired_db))
                _ ltac:(vm_compute; reflexivity) eq_refl ltac:(lia)
                ltac:(lia))
      as [data [pg [Ha [Ht _]]]].
    exists data, pg. split; [exact Ha|]. rewrite Ht. reflexivity.
Defined.

(** ** The router and the service generate the same codes *)

Section RouterAndService.

Lemma clashes_forget_creator (x y : QRCode.doc) :
  collection.clashes qr_codes_unique (forget_creator x) (forget_creator y)
  = collection.clashes qr_codes_unique x y.
Proof. reflexivity. Qed.

Lemma existsb_clashes_forget (x : QRCode.doc) (c : list QRCode.doc) :
  existsb (collection.clashes qr_codes_unique (forget_creator x))
    (map forget_creator c)
  = existsb (collection.clashes qr_codes_unique x) c.
Proof.
  induction c as [|y c IH]; [reflexivity|].
  cbn [map existsb]. now rewrite clashes_forget_creator, IH.
Qed.

Lemma insert_one_forget (x1 x2 : QRCode.doc) (c1 c2 : list QRCode.doc) :
  forget_creator x1 = forget_creator x2 ->
  map forget_creator c1 = map forget_creator c2 ->
  match
    collection.insert_one qr_codes_unique x1 c1,
    collection.insert_one qr_codes_unique x2 c2
  with
  | Ok l1, Ok l2 => map forget_creator l1 = map forget_creator l2
  | Raise e1, Raise e2 => e1 = e2
  | _, _ => False
  end.
Proof.
  intros Hx Hc. unfold collection.insert_one.
  rewrite <- (existsb_clashes_forget x1 c1),
    <- (existsb_clashes_forget x2 c2), Hx, Hc.
  destruct (existsb _ _); [reflexivity|].
  now rewrite !map_app, Hc; cbn [map]; rewrite Hx.
Qed.

(** The two loops, run side by side. *)
Lemma for_range_insert_generated_sim (C : Type) (code : nat -> result C)
    (doc1 doc2 : nat -> C -> QRCode.doc) (n : nat) :
  (forall i c, forget_creator (doc1 i c) = forget_creator (doc2 i c)) ->
  forall start d1 d2,
    map forget_creator (qr_codes d1) = map forget_creator (qr_codes d2) ->
    let r1 := for_range (insert_generated code doc1) start n d1 in
    let r2 := for_range (insert_generated code doc2) start n d2 in
    map forget_creator (qr_codes (fst r1))
    = map forget_creator (qr_codes (fst r2))
    /\ match snd r1, snd r2 with
       | Ok l1, Ok l2 =>
           map forget_creator l1 = map forget_creator l2
           /\ Forall2 (fun i x => exists c, x = doc1 i c) (seq start n) l1
           /\ Forall2 (fun i x => exists c, x = doc2 i c) (seq start n) l2
       | Raise e1, Raise e2 => e1 = e2
       | _, _ => False
       end.
Proof.
  intros Hdoc. induction n as [|n IH]; intros start d1 d2 Hd; cbn zeta.
  - cbn. repeat split; auto.
  - rewrite !for_range_S, !insert_generated_step.
    destruct (code start) as [c|e]; [|cbn; now split].
    pose proof (@insert_one_forget _ _ _ _ (Hdoc start c) Hd) as Hi.
    destruct (collection.insert_one qr_codes_unique (doc1 start c) _)
      as [l1|e1];
      destruct (collection.insert_one qr_codes_unique (doc2 start c) _)
        as [l2|e2]; try contradiction; [|cbn; now split].
    set (a1 := Database (fitting_batches d1) l1 (fitting_installations d1)).
    set (a2 := Database (fitting_batches d2) l2 (fitting_installations d2)).
    specialize (IH (S start) a1 a2 Hi). cbn zeta in IH.
    destruct (for_range (insert_generated code doc1) (S start) n a1)
      as [b1 [x1|e1]];
      destruct (for_range (insert_generated code doc2) (S start) n a2)
        as [b2 [x2|e2]]; cbn [fst snd] in *;
      destruct IH as [IH1 IH2]; try contradiction; split; auto.
    destruct IH2 as [IH2 [IH3 IH4]]. cbn [map seq].
    split; [now rewrite Hdoc, IH2|].
    split; constructor; eauto.
Qed.

Lemma Forall2_docs (C : Type) (doc : nat -> C -> QRCode.doc)
    (P : QRCode.doc -> Prop) (l : list nat) (docs : list QRCode.doc) :
  (forall i c, P (doc i c)) ->
  Forall2 (fun i x => exists c, x = doc i c) l docs ->
  Forall P docs.
Proof.
  intros H HF. induction HF as [|i x l docs [c ->] _ IH]; constructor; auto.
Qed.

(** X19: for a caller with the qr_codes permission and an [int] quantity
    from 1 to 10000, the router's [generate_batch_qr_codes] and the
    service's [generate_qr_codes_for_batch], given the same batch,
    quantity, clock, object ids and pictures, on the same database: both
    succeed or both fail; the documents they store and return agree in
    every field but two: the router records the creator and keeps the
    picture under [qrCodeImage], the service records no creator and
    keeps the picture under [qrImageBase64]; they leave the
    installations alike; and the router never writes [qrCodeCount] while
    the service never writes [qrCodesGenerated]. A failure of the service
    reaches the router's caller as HTTP 500, or as 404 for the missing
    batch. *)
Theorem router_and_service_agree (E : env) (u : user)
    (r : qr_codes.batch_data) (b : pystr) (d : database) (q : Z) :
  security.check_permissions (role u) (str_of "qr_codes") = true ->
  truthy (qr_codes.fittingBatchId r) = Some b ->
  qr_codes.requested r = json.Int q ->
  (1 <= q <= 10000)%Z ->
  let router := qr_codes.generate_batch_qr_codes E u r d in
  let service :=
    qr_service.generate_qr_codes_for_batch E b q
      (qr_codes.markingMachineId r) (qr_codes.markingOperatorId r) d in
  map forget_creator (qr_codes (fst router))
  = map forget_creator (qr_codes (fst service))
  /\ fitting_installations (fst router) = fitting_installations (fst service)
  /\ map Batch._id (fitting_batches (fst router))
     = map Batch._id (fitting_batches (fst service))
  /\ map Batch.qrCodeCount (fitting_batches (fst router))
     = map Batch.qrCodeCount (fitting_batches d)
  /\ map Batch.qrCodesGenerated (fitting_batches (fst service))
     = map Batch.qrCodesGenerated (fitting_batches d)
  /\ same_answer u (snd router) (snd service).
Proof.
  intros Hp Hb Hr Hq. cbn zeta.
  rewrite (generate_batch_qr_codes_int _ _ _ _ Hr),
    generate_qr_codes_for_batch_unfold, Hp, Hb.
  cbn [negb].
  replace ((q <=? 0) || (q >? 10000))%Z with false
    by (symmetry; apply orb_false_iff; split;
        [apply Z.leb_gt|rewrite Z.gtb_ltb; apply Z.ltb_ge]; lia).
  destruct (collection.find_one (by_id_batch b) (fitting_batches d));
    [|cbn; repeat split; auto].
  set (n := Z.to_nat q).
  pose proof (@for_range_insert_generated_sim _ (code_at E b)
                (qr_codes.qr_doc E u r b)
                (qr_service.qr_code_doc E b (qr_codes.markingMachineId r)
                   (qr_codes.markingOperatorId r))
                n (fun _ _ => eq_refl) 0 d d eq_refl) as Hsim.
  pose proof (for_range_insert_generated (code_at E b)
                (qr_codes.qr_doc E u r b) n 0 d) as [Hb1 [Hi1 _]].
  pose proof (for_range_insert_generated (code_at E b)
                (qr_service.qr_code_doc E b (qr_codes.markingMachineId r)
                   (qr_codes.markingOperatorId r)) n 0 d) as [Hb2 [Hi2 _]].
  cbn zeta in Hsim.
  destruct (for_range (insert_generated (code_at E b)
                         (qr_codes.qr_doc E u r b)) 0 n d)
    as [d1 [l1|e1]];
    destruct (for_range (insert_generated (code_at E b)
                           (qr_service.qr_code_doc E b _ _)) 0 n d)
      as [d2 [l2|e2]]; cbn [fst snd] in *;
    destruct Hsim as [Hs1 Hs2]; try contradiction.
  - destruct Hs2 as [Hl [Hf1 Hf2]].
    unfold with_batches. cbn [fitting_batches qr_codes fitting_installations].
    rewrite !update_one_map by reflexivity.
    split; [assumption|]. split; [congruence|]. split; [congruence|].
    split; [congruence|]. split; [congruence|].
    cbn [same_answer]. split; [assumption|]. split.
    + apply (@Forall2_docs _ (qr_codes.qr_doc E u r b) _ _ _
               (fun _ _ => conj eq_refl (conj eq_refl eq_refl)) Hf1).
    + apply (@Forall2_docs _ (qr_service.qr_code_doc E b _ _) _ _ _
               (fun _ _ => conj eq_refl (conj eq_refl eq_refl)) Hf2).
  - split; [assumption|]. split; [congruence|]. split; [congruence|].
    split; [congruence|]. split; [congruence|].
    cbn [same_answer]. left. now subst.
Qed.

Lemma router_and_service_agree_witness :
  let E := sample.at_time 1700000000 "p" in
  let router :=
    qr_codes.generate_batch_qr_codes E sample.admin (sample.generate 2)
      sample.batch_db in
  let service :=
    qr_service.generate_qr_codes_for_batch E (str_of "B1") 2
      (Some (str_of "LASER-001")) (Some (str_of "operator123"))
      sample.batch_db in
  map forget_creator (qr_codes (fst router))
  = map forget_creator (qr_codes (fst service))
  /\ same_answer sample.admin (snd router) (snd service).
Proof.
  cbn zeta.
  pose proof (@router_and_service_agree
                (sample.at_time 1700000000 "p") sample.admin
                (sample.generate 2) (str_of "B1") sample.batch_db 2%Z
                ltac:(vm_compute; reflexivity) eq_refl eq_refl
                ltac:(lia)) as H.
  cbn zeta in H. split; [exact (proj1 H)|].
  exact (proj2 (proj2 (proj2 (proj2 (proj2 H))))).
Defined.

End RouterAndService.

(** ** The service does not check the quantity *)

Section ServiceQuantity.

(** X20: a quantity of zero or less. The service's
    [generate_qr_codes_for_batch] on a stored batch succeeds with no
    document, stores no QR code and records the quantity, negative or
    not, as the batch's [qrCodeCount]; the router's
    [generate_batch_qr_codes] answers the same request with the error 400
    and writes nothing. *)
Theorem service_takes_any_quantity (E : env) (b : pystr) (q : Z)
    (m o : option pystr) (d : database) (batch : Batch.doc) :
  collection.find_one (by_id_batch b) (fitting_batches d) = Some batch ->
  (q <= 0)%Z ->
  let service := qr_service.generate_qr_codes_for_batch E b q m o d in
  snd service = Ok []
  /\ qr_codes (fst service) = qr_codes d
  /\ fitting_installations (fst service) = fitting_installations d
  /\ (exists batch',
         collection.find_one (by_id_batch b) (fitting_batches (fst service))
         = Some batch'
         /\ Batch.qrCodeCount batch' = Some q
         /\ Batch.qrCodesGenerated batch' = Batch.qrCodesGenerated batch)
  /\ forall u r,
       security.check_permissions (role u) (str_of "qr_codes") = true ->
       truthy (qr_codes.fittingBatchId r) = Some b ->
       qr_codes.requested r = json.Int q ->
       qr_codes.generate_batch_qr_codes E u r d
       = (d, Raise qr_codes.quantity_error).
Proof.
  intros Hb Hq. cbn zeta.
  rewrite generate_qr_codes_for_batch_unfold, Hb.
  replace (Z.to_nat q) with 0%nat by lia.
  cbn [for_range]. unfold ret. cbn [fst snd with_batches qr_codes
    fitting_installations fitting_batches].
  split; [reflexivity|]. split; [reflexivity|]. split; [reflexivity|].
  split.
  - exists (set_count q batch).
    rewrite find_one_update_one by (intros; reflexivity).
    rewrite Hb. now split.
  - intros u r Hp Hr Hreq.
    rewrite (generate_batch_qr_codes_int _ _ _ _ Hreq), Hp, Hr. cbn [negb].
    replace (q <=? 0)%Z with true by (symmetry; apply Z.leb_le; lia).
    reflexivity.
Qed.

Lemma service_takes_any_quantity_witness :
  let E := sample.at_time 1700000000 "p" in
  let service :=
    qr_service.generate_qr_codes_for_batch E (str_of "B1") (-5) None None
      sample.batch_db in
  snd service = Ok []
  /\ (exists batch',
         collection.find_one (by_id_batch (str_of "B1"))
           (fitting_batches (fst service)) = Some batch'
         /\ Batch.qrCodeCount batch' = Some (-5)%Z
         /\ Batch.qrCodesGenerated batch' = None).
Proof.
  cbn zeta.
  pose proof (@service_takes_any_quantity
                (sample.at_time 1700000000 "p") (str_of "B1") (-5) None
                None sample.batch_db (Batch.Doc (str_of "B1") None None)
                eq_refl ltac:(lia)) as H.
  cbn zeta in H. split; [exact (proj1 H)|].
  exact (proj1 (proj2 (proj2 (proj2 H)))).
Defined.

End ServiceQuantity.

(** ** Looking up a generated code *)

Section Lookup.

Import qr_lookup.

Lemma find_one_unique (A : Type) (key : A -> pystr) (l : list A) (x : A) :
  NoDup (map key l) -> In x l ->
  collection.find_one (fun y => Py.eqb (key y) (key x)) l = Some x.
Proof.
  unfold collection.find_one.
  induction l as [|y l IH]; intros Hn Hx; [destruct Hx|].
  cbn [map] in Hn. inversion Hn as [|? ? Hy Hn']; subst.
  cbn [find]. destruct (Py.eqb (key y) (key x)) eqn:E.
  - destruct Hx as [->|Hx]; [reflexivity|].
    apply eqb_eq in E. exfalso. apply Hy. rewrite E.
    now apply in_map.
  - destruct Hx as [->|Hx]; [now rewrite eqb_refl in E|]. now apply IH.
Qed.

Lemma Forall2_In_r (A B : Type) (R : A -> B -> Prop) (l : list A)
    (l' : list B) (y : B) :
  Forall2 R l l' -> In y l' -> exists x, In x l /\ R x y.
Proof.
  induction 1 as [|a b l l' Hab _ IH]; intros Hy; [destruct Hy|].
  destruct Hy as [->|Hy].
  - exists a. split; [now left|assumption].
  - destruct (IH Hy) as [x [Hx HR]]. exists x. split; [now right|assumption].
Qed.

Lemma truthy_some (v : option pystr) (b : pystr) :
  truthy v = Some b -> truthy (Some b) = Some b.
Proof.
  destruct v as [[|c s]|]; cbn [truthy]; try discriminate.
  now intros [= <-].
Qed.

(** X21: what was generated can be fetched. When the stored code strings
    are pairwise distinct and [generate_batch_qr_codes] succeeds, then for
    every document it returns, [get_qr_code] with that document's code
    string answers, on the database left behind, with that very document
    and with the stored batch of its [fittingBatchId], whose
    [qrCodesGenerated] is the requested quantity. *)
Theorem generated_code_is_found (E : env) (u : user)
    (r : qr_codes.batch_data) (d : database) (docs : list QRCode.doc)
    (x : QRCode.doc) :
  unique_codes d ->
  snd (qr_codes.generate_batch_qr_codes E u r d) = Ok docs ->
  In x docs ->
  exists bt q,
    get_qr_code (QRCode.qrCode x) u
      (fst (qr_codes.generate_batch_qr_codes E u r d))
    = Ok (Response x (Some bt)
            (collection.find_one (by_qrCodeId (QRCode._id x))
               (fitting_installations d)))
    /\ Batch._id bt = QRCode.fittingBatchId x
    /\ qr_codes.requested r = json.Int q
    /\ Batch.qrCodesGenerated bt = Some q.
Proof.
  intros Hu Hok.
  destruct (@generate_ok_int E u r d) as [q Hr]; [now rewrite Hok|].
  revert Hok. rewrite (generate_batch_qr_codes_int _ _ _ _ Hr).
  unfold get_qr_code.
  destruct (negb (security.check_permissions _ _)); [discriminate|].
  destruct (truthy (qr_codes.fittingBatchId r)) as [b|] eqn:Hb;
    [|discriminate].
  destruct (_ || _)%bool; [discriminate|].
  destruct (collection.find_one (by_id_batch b) (fitting_batches d))
    as [bt|] eqn:Hbt; [|discriminate].
  pose proof (for_range_insert_generated (code_at E b)
                (qr_codes.qr_doc E u r b) (Z.to_nat q) 0 d)
    as [Hb1 [Hi1 [Hun Hres]]].
  destruct (for_range _ _ _ d) as [d1 [l|e]]; cbn [fst snd] in *;
    [|discriminate].
  intros Hok Hx. injection Hok as ->. destruct Hres as [Hq HF].
  specialize (Hun Hu). unfold unique_codes in Hun.
  destruct (@Forall2_In_r _ _ _ _ _ _ HF Hx) as [i [_ [c [_ Hdoc]]]].
  assert (Hfb : QRCode.fittingBatchId x = b) by now subst x.
  exists (set_generated q bt), q.
  unfold with_batches.
  cbn [qr_codes fitting_batches fitting_installations].
  change (by_qrCode (QRCode.qrCode x))
    with (fun y => Py.eqb (QRCode.qrCode y) (QRCode.qrCode x)).
  rewrite (@find_one_unique _ QRCode.qrCode (qr_codes d1) x Hun)
    by (rewrite Hq; apply in_or_app; now right).
  cbn zeta. rewrite Hfb, (@truthy_some _ _ Hb).
  rewrite find_one_update_one by (intros; reflexivity).
  rewrite Hb1, Hbt, Hi1. cbn [option_map].
  split; [reflexivity|]. split; [|split; [exact Hr|reflexivity]].
  cbn [set_generated Batch._id].
  unfold collection.find_one in Hbt. apply find_some in Hbt as [_ Hid].
  now apply eqb_eq in Hid.
Qed.

Lemma generated_code_is_found_witness :
  let E := sample.at_time 1700000000 "p" in
  let run :=
    qr_codes.generate_batch_qr_codes E sample.admin (sample.generate 1)
      sample.batch_db in
  let x :=
    qr_codes.qr_doc E sample.admin (sample.generate 1) (str_of "B1") 0
      (str_of "QRTF_B1_000001_4c554774",
       str_of "PNG:QRTF_B1_000001_4c554774") in
  exists bt q,
    get_qr_code (QRCode.qrCode x) sample.admin (fst run)
    = Ok (Response x (Some bt) None)
    /\ Batch._id bt = str_of "B1"
    /\ json.Int 1 = json.Int q
    /\ Batch.qrCodesGenerated bt = Some q.
Proof.
  cbn zeta.
  refine (@generated_code_is_found
            (sample.at_time 1700000000 "p") sample.admin (sample.generate 1)
            sample.batch_db
            [qr_codes.qr_doc (sample.at_time 1700000000 "p") sample.admin
               (sample.generate 1) (str_of "B1") 0
               (str_of "QRTF_B1_000001_4c554774",
                str_of "PNG:QRTF_B1_000001_4c554774")]
            _ _ _ _).
  - constructor.
  - vm_compute. reflexivity.
  - left. reflexivity.
Defined.

End Lookup.

